(** * Collaborative Forms: the realtime session coordinator

    A shallow embedding of the socket handlers of [server.js] (the second
    half of [src/App.jsx]) and of the client-side socket listeners of
    [CollaborativeFormSystem] (the first half), with the properties of the
    coordinator proved over them.

    Modelling conventions.
    - A JavaScript string is a [string]; one character is one code unit
      below 256 (the Latin-1 range).
    - A JavaScript number is a binary64 [float].  Parsing a string into a
      number and printing a number are services of the language runtime and
      are taken through the class [JsRuntime].
    - [Map] objects keep insertion order and are association lists
      ([JsMap]); plain objects used as dictionaries are [gmap]s.
    - A handler invocation is one step.  Where a statement depends on what
      happens while a handler waits at an [await], the handler is also
      given in parts: the ['disconnect'] handler before and after its
      [await], so that its announcement can be placed after steps of other
      sockets, and the ['joinForm'] handler from the answer of its form
      query on, so that its registration can be placed after a disconnect
      that arrived meanwhile.
    - [pool.query] either answers from the in-memory tables or, when [dbUp]
      is false, rejects, which sends the handler to its [catch] block. *)

From Stdlib Require Import ZArith String Ascii List Bool.
From Stdlib Require Import Floats Uint63 DecimalString.
From stdpp Require Import base gmap sets list strings.

Import ListNotations.
Local Open Scope string_scope.
#[local] Set Warnings "-clear-no-such-hyp".

(** ** Strings as the handlers use them *)

Module JsString.

(** Code units that [String.prototype.toLowerCase] changes below 256:
    A-Z, and the accented capitals U+00C0-U+00DE except the sign U+00D7. *)
Definition isUpper (c : ascii) : bool :=
  let n := N_of_ascii c in
  ((65 <=? n) && (n <=? 90) || (192 <=? n) && (n <=? 214)
   || (216 <=? n) && (n <=? 222))%N.

Definition lowerChar (c : ascii) : ascii :=
  if isUpper c then ascii_of_N (N_of_ascii c + 32) else c.

Fixpoint toLowerCase (s : string) : string :=
  match s with
  | EmptyString => EmptyString
  | String c r => String (lowerChar c) (toLowerCase r)
  end.

(** White space and line terminators below 256, as [trim] strips them:
    TAB, LF, VT, FF, CR, SP and NBSP. *)
Definition isWhiteSpace (c : ascii) : bool :=
  let n := N_of_ascii c in
  ((9 <=? n) && (n <=? 13) || (n =? 32) || (n =? 160))%N.

Fixpoint trimStart (s : string) : string :=
  match s with
  | EmptyString => EmptyString
  | String c r => if isWhiteSpace c then trimStart r else s
  end.

Fixpoint trimEnd (s : string) : string :=
  match s with
  | EmptyString => EmptyString
  | String c r =>
      match trimEnd r with
      | EmptyString => if isWhiteSpace c then EmptyString else String c EmptyString
      | r' => String c r'
      end
  end.

Definition trim (s : string) : string := trimEnd (trimStart s).

(** [s.substring(0, n)] *)
Definition substring0 (n : nat) (s : string) : string := String.substring 0 n s.

(** Every character of [s] satisfies [p]. *)
Fixpoint all_chars (p : ascii -> bool) (s : string) : bool :=
  match s with
  | EmptyString => true
  | String c r => p c && all_chars p r
  end.

End JsString.

(** ** Insertion-ordered [Map] with string keys *)

Module JsMap.
Section Ops.
Context {V : Type}.

Fixpoint get (k : string) (m : list (string * V)) : option V :=
  match m with
  | [] => None
  | (k', v) :: r => if String.eqb k' k then Some v else get k r
  end.

Definition has (k : string) (m : list (string * V)) : bool :=
  match get k m with Some _ => true | None => false end.

(** [m.set(k, v)]: an existing key keeps its position, a new key goes last. *)
Fixpoint set (k : string) (v : V) (m : list (string * V)) : list (string * V) :=
  match m with
  | [] => [(k, v)]
  | (k', v') :: r =>
      if String.eqb k' k then (k, v) :: r else (k', v') :: set k v r
  end.

Definition delete (k : string) (m : list (string * V)) : list (string * V) :=
  List.filter (fun p => negb (String.eqb (fst p) k)) m.

Definition keys (m : list (string * V)) : list string := List.map fst m.
Definition values (m : list (string * V)) : list V := List.map snd m.
End Ops.
End JsMap.

(** ** Values carried by a socket payload *)

Inductive JsValue :=
| JsString (s : string)
| JsNumber (x : float)
| JsBoolean (b : bool)
| JsNull
| JsUndefined.

(** The two conversions between strings and numbers that the runtime owns. *)
Class JsRuntime := {
  StringToNumber : string -> float;
  NumberToString : float -> string
}.

(** [Number(v)] *)
Definition ToNumber `{JsRuntime} (v : JsValue) : float :=
  match v with
  | JsString s => StringToNumber s
  | JsNumber x => x
  | JsBoolean true => PrimFloat.one
  | JsBoolean false => PrimFloat.zero
  | JsNull => PrimFloat.zero
  | JsUndefined => PrimFloat.nan
  end.

(** [String(v)] *)
Definition ToString `{JsRuntime} (v : JsValue) : string :=
  match v with
  | JsString s => s
  | JsNumber x => NumberToString x
  | JsBoolean true => "true"
  | JsBoolean false => "false"
  | JsNull => "null"
  | JsUndefined => "undefined"
  end.

(** [v === s] for a string literal [s] *)
Definition strictEqString (v : JsValue) (s : string) : bool :=
  match v with
  | JsString s' => String.eqb s' s
  | _ => false
  end.

(** [x || 0] on numbers: NaN, +0 and -0 are the falsy ones. *)
Definition orZero (x : float) : float :=
  if PrimFloat.is_nan x || PrimFloat.eqb x PrimFloat.zero
  then PrimFloat.zero else x.

(** The [sanitizedValue] computation of the [updateField] handler. *)
Definition sanitizeValue `{JsRuntime} (type : string) (value : JsValue) : string :=
  if String.eqb type "number" then
    if strictEqString value "" then "" else NumberToString (orZero (ToNumber value))
  else if String.eqb type "email" then
    JsString.trim (JsString.toLowerCase (ToString value))
  else if String.eqb type "checkbox" then
    if strictEqString value "true" then "true" else "false"
  else
    JsString.substring0 (N.to_nat 10000) (ToString value).

(** ** Tables of the database

    Only the columns that the modelled handlers read or write are kept. *)

Record Field := {
  field_id : string;
  field_label : string;
  field_type : string;
  field_options : option (list string)
}.

Record Form := {
  form_title : string;
  form_code : string;
  form_fields : list Field;
  form_admin_id : string;
  form_is_active : bool
}.

Record FormResponse := {
  data : gmap string string;
  contributors : list string;
  last_updated : Z
}.

Record Database := {
  dbUp : bool;
  forms : gmap string Form;
  form_responses : gmap string FormResponse
}.

(** ** State of the server process *)

Record Session := {
  userId : string;
  userName : string;
  joinedAt : Z;
  socketId : string
}.

Record Server := {
  db : Database;
  (** [activeSessions]: formId -> Map<socketId, session> *)
  activeSessions : list (string * list (string * Session));
  (** the rooms of the socket.io adapter: room name -> member sockets *)
  rooms : gmap string (gset string)
}.

(** ** Events sent to clients *)

Inductive ServerEvent :=
| EvError (message : string)
| EvUserJoined (uid uname : string) (users : list Session)
| EvActiveUsers (users : list Session)
| EvUserLeft (uid uname : string) (users : list Session)
| EvFieldUpdated (fieldId fieldLabel value updatedBy : string) (timestamp : Z)
| EvFieldLocked (fieldId lockedBy uid : string)
| EvFieldUnlocked (fieldId uid : string)
| EvUnlockAllFieldsForUser (uid : string)
| EvUserTypingUpdate (fieldId uname : string) (isTyping : bool)
| EvFormStructureUpdated (fields : list Field).

(** One [emit] call: the sockets it reaches and what it carries. *)
Record Emit := {
  recipients : gset string;
  event : ServerEvent
}.

Definition roomOf (formId : string) : string := "form-" +:+ formId.

Definition members (rs : gmap string (gset string)) (room : string) : gset string :=
  default ∅ (rs !! room).

(** [socket.join(room)] *)
Definition socket_join (sid room : string) (rs : gmap string (gset string))
  : gmap string (gset string) :=
  <[room := {[sid]} ∪ members rs room]> rs.

(** What the transport does to a closing socket before ['disconnect'] fires:
    it leaves every room. *)
Definition leaveAll (sid : string) (rs : gmap string (gset string))
  : gmap string (gset string) :=
  (fun ms => ms ∖ {[sid]}) <$> rs.

(** [socket.emit(ev)] *)
Definition socket_emit (sid : string) (ev : ServerEvent) : Emit :=
  {| recipients := {[sid]}; event := ev |}.

(** [socket.to(room).emit(ev)] *)
Definition socket_to (rs : gmap string (gset string)) (sid room : string)
    (ev : ServerEvent) : Emit :=
  {| recipients := members rs room ∖ {[sid]}; event := ev |}.

(** [io.to(room).emit(ev)] *)
Definition io_to (rs : gmap string (gset string)) (room : string)
    (ev : ServerEvent) : Emit :=
  {| recipients := members rs room; event := ev |}.

Definition with_db (s : Server) (d : Database) : Server :=
  {| db := d; activeSessions := activeSessions s; rooms := rooms s |}.

(** [activeSessions.get(formId)], an absent room read as the empty map *)
Definition sessionsOf (formId : string)
    (act : list (string * list (string * Session))) : list (string * Session) :=
  default [] (JsMap.get formId act).

(** ** Socket handlers of the server *)

(** [socket.on('joinForm', ...)] *)
Definition joinForm (s : Server) (sid formId uid uname : string) (now : Z)
  : Server * list Emit :=
  if negb (dbUp (db s)) then
    (s, [socket_emit sid (EvError "Failed to join form.")])
  else
    match forms (db s) !! formId with
    | Some form =>
        if form_is_active form then
          let rooms' := socket_join sid (roomOf formId) (rooms s) in
          let sessions' :=
            JsMap.set sid
              {| userId := uid; userName := uname; joinedAt := now; socketId := sid |}
              (sessionsOf formId (activeSessions s)) in
          let users := JsMap.values sessions' in
          ({| db := db s;
              activeSessions := JsMap.set formId sessions' (activeSessions s);
              rooms := rooms' |},
           [socket_to rooms' sid (roomOf formId) (EvUserJoined uid uname users);
            socket_emit sid (EvActiveUsers users)])
        else
          (s, [socket_emit sid (EvError "Form not found or inactive. Cannot join.")])
    | None =>
        (s, [socket_emit sid (EvError "Form not found or inactive. Cannot join.")])
    end.

(** [currentResponse.contributors.includes(userName)] followed by the push *)
Definition addContributor (uname : string) (cs : list string) : list string :=
  if existsb (String.eqb uname) cs then cs else cs ++ [uname].

(** [obj[key] = value] for a string [value], on an object that is either a
    fresh [{}] or the parsed content of a JSON column.  Every key becomes an
    own property but [__proto__]: unless the object has it as an own property
    already (as [JSON.parse] creates it), the assignment reaches the setter
    inherited from [Object.prototype], which ignores a value that is neither
    an object nor [null]. *)
Definition assignString (key value : string) (obj : gmap string string)
  : gmap string string :=
  match obj !! key with
  | None => if String.eqb key "__proto__" then obj else <[key := value]> obj
  | Some _ => <[key := value]> obj
  end.

(** The row of [form_responses] after the handler's INSERT or UPDATE:
    [initialData[fieldId] = sanitizedValue] on a fresh object, or
    [currentResponse.data[fieldId] = sanitizedValue] on the stored one. *)
Definition storeValue (old : option FormResponse) (fieldId value uname : string)
    (now : Z) : FormResponse :=
  match old with
  | None =>
      {| data := assignString fieldId value ∅; contributors := [uname];
         last_updated := now |}
  | Some r =>
      {| data := assignString fieldId value (data r);
         contributors := addContributor uname (contributors r);
         last_updated := now |}
  end.

(** [socket.on('updateField', ...)] *)
Definition updateField `{JsRuntime} (s : Server) (sid formId fieldId : string)
    (value : JsValue) (uid uname : string) (now : Z) : Server * list Emit :=
  if negb (dbUp (db s)) then
    (s, [socket_emit sid (EvError "Failed to update field.")])
  else
    match forms (db s) !! formId with
    | Some form =>
        if form_is_active form then
          match List.find (fun f => String.eqb (field_id f) fieldId) (form_fields form) with
          | Some field =>
              let sanitizedValue := sanitizeValue (field_type field) value in
              let currentResponse :=
                storeValue (form_responses (db s) !! formId) fieldId sanitizedValue uname now in
              (with_db s
                 {| dbUp := dbUp (db s);
                    forms := forms (db s);
                    form_responses := <[formId := currentResponse]> (form_responses (db s)) |},
               [io_to (rooms s) (roomOf formId)
                  (EvFieldUpdated fieldId (field_label field) sanitizedValue uname
                     (last_updated currentResponse))])
          | None =>
              (s, [socket_emit sid (EvError "Field not found in form definition.")])
          end
        else
          (s, [socket_emit sid (EvError "Form not found or inactive. Cannot update.")])
    | None =>
        (s, [socket_emit sid (EvError "Form not found or inactive. Cannot update.")])
    end.

(** [socket.on('lockField', ...)] *)
Definition lockField (s : Server) (sid formId fieldId uid uname : string)
  : Server * list Emit :=
  (s, [socket_to (rooms s) sid (roomOf formId) (EvFieldLocked fieldId uname uid)]).

(** [socket.on('unlockField', ...)] *)
Definition unlockField (s : Server) (sid formId fieldId uid : string)
  : Server * list Emit :=
  (s, [socket_to (rooms s) sid (roomOf formId) (EvFieldUnlocked fieldId uid)]).

(** [socket.on('userTyping', ...)] *)
Definition userTyping (s : Server) (sid formId fieldId uname : string)
    (isTyping : bool) : Server * list Emit :=
  (s, [socket_to (rooms s) sid (roomOf formId) (EvUserTypingUpdate fieldId uname isTyping)]).

(** The session list pushed to clients as [activeUsers]. *)
Definition snapshot (formId : string) (s : Server) : list Session :=
  JsMap.values (sessionsOf formId (activeSessions s)).

(** [socket.on('disconnect', ...)] has two parts.  The loop body up to the
    [await] runs at once for every room: the rooms that hold the socket, each
    with the session it held, ... *)
Definition departures (sid : string)
    (act : list (string * list (string * Session))) : list (string * Session) :=
  List.flat_map
    (fun e => match JsMap.get sid (snd e) with
              | Some user => [(fst e, user)]
              | None => []
              end) act.

(** ... and the state once the socket has left its rooms (which the
    transport does before the handler runs) and its sessions are deleted. *)
Definition disconnectSync (s : Server) (sid : string) : Server :=
  {| db := db s;
     activeSessions :=
       List.map (fun e => (fst e, JsMap.delete sid (snd e))) (activeSessions s);
     rooms := leaveAll sid (rooms s) |}.

(** The rest of the loop body runs for one room when its title query has
    returned, in the state [s] the server has by then: [sessions] is the
    room's map object, still held by [activeSessions] under its form id. *)
Definition announceLeft (s : Server) (sid : string) (d : string * Session)
  : list Emit :=
  [socket_to (rooms s) sid (roomOf (fst d))
     (EvUserLeft (userId (snd d)) (userName (snd d)) (snapshot (fst d) s));
   io_to (rooms s) (roomOf (fst d)) (EvUnlockAllFieldsForUser (userId (snd d)))].

(** The handler as one step, nothing running between its two parts. *)
Definition disconnect (s : Server) (sid : string) : Server * list Emit :=
  let s' := disconnectSync s sid in
  (s', List.flat_map (announceLeft s' sid) (departures sid (activeSessions s))).

(** What a connected client can send, and the close of its connection. *)
Inductive ClientMsg :=
| JoinForm (formId uid uname : string)
| UpdateField (formId fieldId : string) (value : JsValue) (uid uname : string)
| LockField (formId fieldId uid uname : string)
| UnlockField (formId fieldId uid : string)
| UserTyping (formId fieldId uname : string) (isTyping : bool)
| LeaveForm (formId uid : string)
| Disconnect.

(** Dispatch of one inbound message of socket [sid].  The server registers
    no listener for ['leaveForm'], so that message is dropped. *)
Definition server_on `{JsRuntime} (s : Server) (sid : string) (m : ClientMsg) (now : Z)
  : Server * list Emit :=
  match m with
  | JoinForm formId uid uname => joinForm s sid formId uid uname now
  | UpdateField formId fieldId value uid uname =>
      updateField s sid formId fieldId value uid uname now
  | LockField formId fieldId uid uname => lockField s sid formId fieldId uid uname
  | UnlockField formId fieldId uid => unlockField s sid formId fieldId uid
  | UserTyping formId fieldId uname isTyping => userTyping s sid formId fieldId uname isTyping
  | LeaveForm _ _ => (s, [])
  | Disconnect => disconnect s sid
  end.

(** ** The field-schema endpoint, [PUT /api/forms/:formId/fields] *)

Definition validTypes : list string :=
  ["text"; "email"; "number"; "textarea"; "select"; "radio"; "checkbox";
   "date"; "tel"; "url"].

Definition validateField (f : Field) : bool :=
  if String.eqb (field_id f) "" || String.eqb (field_label f) ""
     || negb (existsb (String.eqb (field_type f)) validTypes)
  then false
  else if (String.eqb (field_type f) "select" || String.eqb (field_type f) "radio")
          && match field_options f with
             | None | Some [] => true
             | Some (_ :: _) => false
             end
  then false
  else true.

Definition with_fields (f : Form) (fs : list Field) : Form :=
  {| form_title := form_title f; form_code := form_code f; form_fields := fs;
     form_admin_id := form_admin_id f; form_is_active := form_is_active f |}.

(** [cleanedData]: starting from [{}], every own key of the stored answers
    that is the id of a field of the new schema is assigned its answer. *)
Definition cleanData (fs : list Field) (d : gmap string string) : gmap string string :=
  map_fold
    (fun fieldId answer cleanedData =>
       if existsb (String.eqb fieldId) (List.map field_id fs)
       then assignString fieldId answer cleanedData
       else cleanedData)
    ∅ d.

(** The handler's result: new state, HTTP status, broadcasts.  [fields] is
    [None] when the body carries none; the form row is then written with
    an empty schema, and the clean-up of an existing response row throws on
    [fields.map], which the [catch] answers with 500 and no broadcast. *)
Definition putFormFields (s : Server) (formId : string)
    (fields : option (list Field)) (adminId : string) (now : Z)
  : Server * nat * list Emit :=
  if String.eqb adminId "" then (s, 400, [])
  else if negb (dbUp (db s)) then (s, 500, [])
  else
    match forms (db s) !! formId with
    | None => (s, 404, [])
    | Some form =>
        if negb (String.eqb (form_admin_id form) adminId) then (s, 403, [])
        else if negb (forallb validateField (default [] fields)) then (s, 400, [])
        else
          let updatedForm := with_fields form (default [] fields) in
          let forms' := <[formId := updatedForm]> (forms (db s)) in
          let announce :=
            [io_to (rooms s) (roomOf formId)
               (EvFormStructureUpdated (form_fields updatedForm))] in
          match form_responses (db s) !! formId, fields with
          | Some response, Some fs =>
              let cleaned :=
                {| data := cleanData fs (data response);
                   contributors := contributors response;
                   last_updated := now |} in
              (with_db s
                 {| dbUp := dbUp (db s); forms := forms';
                    form_responses := <[formId := cleaned]> (form_responses (db s)) |},
               200, announce)
          | Some _, None =>
              (with_db s
                 {| dbUp := dbUp (db s); forms := forms';
                    form_responses := form_responses (db s) |},
               500, [])
          | None, _ =>
              (with_db s
                 {| dbUp := dbUp (db s); forms := forms';
                    form_responses := form_responses (db s) |},
               200, announce)
          end
    end.

(** ** State of one client and its socket listeners *)

Record Lock := {
  lockedBy : string;
  lock_userId : string
}.

(** An entry of the [formResponse] object: an answer, or the time stamp kept
    under the key [lastUpdated]. *)
Inductive ResponseEntry :=
| Answer (value : string)
| Stamp (timestamp : Z).

Record Client := {
  currentForm : option Form;
  formResponse : gmap string ResponseEntry;
  activeUsers : list Session;
  lockedFields : gmap string Lock;
  typingUsers : gmap string string;
  showSavedMessage : bool
}.

Definition setActiveUsers (users : list Session) (c : Client) : Client :=
  {| currentForm := currentForm c; formResponse := formResponse c;
     activeUsers := users; lockedFields := lockedFields c;
     typingUsers := typingUsers c; showSavedMessage := showSavedMessage c |}.

Definition setLockedFields (f : gmap string Lock -> gmap string Lock) (c : Client)
  : Client :=
  {| currentForm := currentForm c; formResponse := formResponse c;
     activeUsers := activeUsers c; lockedFields := f (lockedFields c);
     typingUsers := typingUsers c; showSavedMessage := showSavedMessage c |}.

Definition setTypingUsers (f : gmap string string -> gmap string string) (c : Client)
  : Client :=
  {| currentForm := currentForm c; formResponse := formResponse c;
     activeUsers := activeUsers c; lockedFields := lockedFields c;
     typingUsers := f (typingUsers c); showSavedMessage := showSavedMessage c |}.

Definition setCurrentForm (f : option Form) (c : Client) : Client :=
  {| currentForm := f; formResponse := formResponse c;
     activeUsers := activeUsers c; lockedFields := lockedFields c;
     typingUsers := typingUsers c; showSavedMessage := showSavedMessage c |}.

(** The listeners registered in the second [useEffect].  The timer that
    hides the saved message again is not part of the model. *)
Definition client_on (ev : ServerEvent) (c : Client) : Client :=
  match ev with
  | EvUserJoined _ _ users => setActiveUsers users c
  | EvUserLeft _ _ users => setActiveUsers users c
  | EvActiveUsers users => setActiveUsers users c
  | EvFieldUpdated fieldId _ value _ timestamp =>
      {| currentForm := currentForm c;
         formResponse :=
           <["lastUpdated" := Stamp timestamp]>
             (<[fieldId := Answer value]> (formResponse c));
         activeUsers := activeUsers c; lockedFields := lockedFields c;
         typingUsers := typingUsers c; showSavedMessage := true |}
  | EvFieldLocked fieldId by_ uid =>
      setLockedFields (fun prev => <[fieldId := {| lockedBy := by_; lock_userId := uid |}]> prev) c
  | EvFieldUnlocked fieldId _ =>
      setLockedFields (fun prev => delete fieldId prev) c
  | EvUnlockAllFieldsForUser uid =>
      setLockedFields (fun prev => filter (fun kv => lock_userId (snd kv) ≠ uid) prev) c
  | EvUserTypingUpdate fieldId uname isTyping =>
      setTypingUsers
        (fun prev => if isTyping then <[fieldId := uname]> prev else delete fieldId prev) c
  | EvFormStructureUpdated fields =>
      match currentForm c with
      | Some f => setCurrentForm (Some (with_fields f fields)) c
      | None => c
      end
  | EvError _ => c
  end.

(** ** Server and clients together *)

(** The events of [outs] that reach socket [r], in emission order. *)
Definition inbox (outs : list Emit) (r : string) : list ServerEvent :=
  List.map event (List.filter (fun e => bool_decide (r ∈ recipients e)) outs).

Definition client_run (evs : list ServerEvent) (c : Client) : Client :=
  fold_left (fun c ev => client_on ev c) evs c.

Record World := {
  server : Server;
  clients : gmap string Client
}.

Definition world_step `{JsRuntime} (w : World) (sid : string) (m : ClientMsg) (now : Z)
  : World :=
  let r := server_on (server w) sid m now in
  {| server := fst r;
     clients :=
       map_imap (fun r' c => Some (client_run (inbox (snd r) r') c)) (clients w) |}.

(** ** The registry over a run of room operations *)

Definition initial (d : Database) : Server :=
  {| db := d; activeSessions := []; rooms := ∅ |}.

(** The sockets registered for a form. *)
Definition registered (formId : string) (s : Server) : list string :=
  JsMap.keys (sessionsOf formId (activeSessions s)).

(** Shape of one room map: keys are distinct and every session is stored
    under its own [socketId]. *)
Definition sessions_ok (m : list (string * Session)) : Prop :=
  List.NoDup (JsMap.keys m) ∧ List.Forall (fun p => socketId (snd p) = fst p) m.

Definition registry_ok (s : Server) : Prop :=
  List.NoDup (JsMap.keys (activeSessions s))
  ∧ List.Forall (fun e => sessions_ok (snd e)) (activeSessions s).

(** The states the process can be in: it starts with an empty registry and
    moves by socket messages and by the field-schema endpoint. *)
Inductive reachable `{JsRuntime} : Server -> Prop :=
| reach_initial d : reachable (initial d)
| reach_socket s sid m now :
    reachable s -> reachable (fst (server_on s sid m now))
| reach_put s formId fields adminId now :
    reachable s -> reachable (fst (fst (putFormFields s formId fields adminId now))).



(** Presence operations of one connection on one room. *)
Inductive RoomOp :=
| OpJoin (sid uid uname : string)
| OpLeave (sid uid : string)
| OpDisconnect (sid : string).

Definition opSocket (op : RoomOp) : string :=
  match op with
  | OpJoin sid _ _ => sid
  | OpLeave sid _ => sid
  | OpDisconnect sid => sid
  end.

Definition opMessage (formId : string) (op : RoomOp) : ClientMsg :=
  match op with
  | OpJoin _ uid uname => JoinForm formId uid uname
  | OpLeave _ uid => LeaveForm formId uid
  | OpDisconnect _ => Disconnect
  end.

(** The server after the operations [ops], each handler run from its call
    to its end before the next is called, the clock ticking once per
    step. *)
Fixpoint runRoom `{JsRuntime} (formId : string) (s : Server) (ops : list RoomOp)
    (now : Z) : Server :=
  match ops with
  | [] => s
  | op :: rest =>
      runRoom formId (fst (server_on s (opSocket op) (opMessage formId op) now))
        rest (now + 1)
  end.

(** Following the spec's words: the connections that joined and have not
    since left or disconnected. *)
Fixpoint presentAfter (ops : list RoomOp) (present : gset string) : gset string :=
  match ops with
  | [] => present
  | OpJoin sid _ _ :: rest => presentAfter rest ({[sid]} ∪ present)
  | OpLeave sid _ :: rest => presentAfter rest (present ∖ {[sid]})
  | OpDisconnect sid :: rest => presentAfter rest (present ∖ {[sid]})
  end.

(** ** Handlers that overlap

    ['joinForm'] suspends at its form query; what it does to the rooms and
    to the registry it does when the answer arrives, in the state the server
    has by then.  ['disconnect'] deletes its sessions as soon as it is
    called. *)

(** What the form query of ['joinForm'] comes back with. *)
Inductive QueryAnswer :=
| Row (form : Form)
| NoRow
| Rejected.

Definition formQuery (d : Database) (formId : string) : QueryAnswer :=
  if negb (dbUp d) then Rejected
  else match forms d !! formId with
       | Some form => Row form
       | None => NoRow
       end.

(** The ['joinForm'] handler from the answer of its query on. *)
Definition joinForm_resume (s : Server) (sid formId uid uname : string)
    (answer : QueryAnswer) (now : Z) : Server * list Emit :=
  match answer with
  | Rejected => (s, [socket_emit sid (EvError "Failed to join form.")])
  | NoRow => (s, [socket_emit sid (EvError "Form not found or inactive. Cannot join.")])
  | Row form =>
      if form_is_active form then
        let rooms' := socket_join sid (roomOf formId) (rooms s) in
        let sessions' :=
          JsMap.set sid
            {| userId := uid; userName := uname; joinedAt := now; socketId := sid |}
            (sessionsOf formId (activeSessions s)) in
        let users := JsMap.values sessions' in
        ({| db := db s;
            activeSessions := JsMap.set formId sessions' (activeSessions s);
            rooms := rooms' |},
         [socket_to rooms' sid (roomOf formId) (EvUserJoined uid uname users);
          socket_emit sid (EvActiveUsers users)])
      else
        (s, [socket_emit sid (EvError "Form not found or inactive. Cannot join.")])
  end.

(** What happens to the registry of one room, in the order in which it
    happens: a ['joinForm'] of socket [sid] resumes with the row of the
    form, or the ['disconnect'] handler of socket [sid] runs. *)
Inductive RegistryEffect :=
| Registers (sid uid uname : string)
| Closes (sid : string).

(** The server after the effects [effects], the clock ticking once per
    effect; [form] is the row that the form queries came back with. *)
Fixpoint runEffects (formId : string) (form : Form) (s : Server)
    (effects : list RegistryEffect) (now : Z) : Server :=
  match effects with
  | [] => s
  | Registers sid uid uname :: rest =>
      runEffects formId form
        (fst (joinForm_resume s sid formId uid uname (Row form) now)) rest (now + 1)
  | Closes sid :: rest =>
      runEffects formId form (fst (disconnect s sid)) rest (now + 1)
  end.

(** The sockets whose latest effect is a registration. *)
Fixpoint lastRegistered (effects : list RegistryEffect) (present : gset string)
  : gset string :=
  match effects with
  | [] => present
  | Registers sid _ _ :: rest => lastRegistered rest ({[sid]} ∪ present)
  | Closes sid :: rest => lastRegistered rest (present ∖ {[sid]})
  end.

(** ** A runtime and data for closed examples *)

Fixpoint digitsValue (s : string) (acc : Z) : option Z :=
  match s with
  | EmptyString => Some acc
  | String c r =>
      let n := Z.of_N (N_of_ascii c) in
      if ((48 <=? n) && (n <=? 57))%Z then digitsValue r (10 * acc + (n - 48))%Z
      else None
  end.

(** Reads the empty text as zero, an unsigned decimal integer below 2^53 as
    itself and every other text as NaN; prints NaN, the zeros and the whole
    part of a finite number. *)
Definition wholeStringToNumber (s : string) : float :=
  match digitsValue s 0 with
  | Some z =>
      if (z <? 2 ^ 53)%Z then PrimFloat.of_uint63 (Uint63.of_Z z) else PrimFloat.nan
  | None => PrimFloat.nan
  end.

Definition wholeNumberToString (x : float) : string :=
  if PrimFloat.is_nan x then "NaN"
  else if PrimFloat.eqb x PrimFloat.zero then "0"
  else
    match Prim2SF x with
    | S754_finite sign m e =>
        let z := if (0 <=? e)%Z then (Z.pos m * 2 ^ e)%Z else (Z.pos m / 2 ^ (- e))%Z in
        NilZero.string_of_int (Z.to_int (if sign then - z else z))
    | S754_infinity true => "-Infinity"
    | S754_infinity false => "Infinity"
    | _ => "0"
    end.

Definition wholeNumbers : JsRuntime :=
  {| StringToNumber := wholeStringToNumber; NumberToString := wholeNumberToString |}.

Definition surveyFields : list Field :=
  [ {| field_id := "email"; field_label := "Email"; field_type := "email";
       field_options := None |};
    {| field_id := "age"; field_label := "Age"; field_type := "number";
       field_options := None |};
    {| field_id := "agree"; field_label := "Agree"; field_type := "checkbox";
       field_options := None |};
    {| field_id := "note"; field_label := "Note"; field_type := "textarea";
       field_options := None |} ].

Definition survey : Form :=
  {| form_title := "Survey"; form_code := "ABC123"; form_fields := surveyFields;
     form_admin_id := "admin-1"; form_is_active := true |}.

Definition surveyDb : Database :=
  {| dbUp := true; forms := {["F1" := survey]}; form_responses := ∅ |}.

(** Alice, Bob and Carol have joined the survey on sockets [sA], [sB], [sC]. *)
Definition threeJoined : Server :=
  runRoom (H := wholeNumbers) "F1" (initial surveyDb)
    [OpJoin "sA" "u-alice" "Alice"; OpJoin "sB" "u-bob" "Bob";
     OpJoin "sC" "u-carol" "Carol"] 0.

Definition freshClient : Client :=
  {| currentForm := Some survey; formResponse := ∅; activeUsers := [];
     lockedFields := ∅; typingUsers := ∅; showSavedMessage := false |}.

Definition threeClients : gmap string Client :=
  {["sA" := freshClient; "sB" := freshClient; "sC" := freshClient]}.

(** ** Vocabulary of the statements *)


(** Events that can only remove locks from a client. *)
Definition releaseOnly (ev : ServerEvent) : Prop :=
  match ev with
  | EvUserLeft _ _ _ | EvUnlockAllFieldsForUser _ => True
  | _ => False
  end.

(** A client with its lock table blanked: what is left is everything a
    lock cannot be read from. *)
Definition eraseLocks (c : Client) : Client := setLockedFields (fun _ => ∅) c.

(** Two worlds with the same server whose clients differ at most in their
    lock tables. *)
Definition agreeButLocks (w1 w2 : World) : Prop :=
  server w1 = server w2
  ∧ eraseLocks <$> clients w1 = eraseLocks <$> clients w2.

(** The form a message is addressed to. *)
Definition formOf (m : ClientMsg) : option string :=
  match m with
  | JoinForm formId _ _ => Some formId
  | UpdateField formId _ _ _ _ => Some formId
  | LockField formId _ _ _ => Some formId
  | UnlockField formId _ _ => Some formId
  | UserTyping formId _ _ _ => Some formId
  | LeaveForm formId _ => Some formId
  | Disconnect => None
  end.

(** Carol's client after Alice took the lock on the e-mail field. *)
Definition carolSeesAlice : Client :=
  client_run
    (inbox (snd (lockField threeJoined "sA" "F1" "email" "u-alice" "Alice")) "sC")
    freshClient.

(** A client showing Alice's lock and Alice typing on the note field. *)
Definition busyOnNote : Client :=
  client_run
    [EvFieldLocked "note" "Alice" "u-alice"; EvUserTypingUpdate "note" "Alice" true]
    freshClient.

(** The survey's schema once the note field is dropped. *)
Definition withoutNote : list Field :=
  List.filter (fun f => negb (String.eqb (field_id f) "note")) surveyFields.

(** Nobody holds a lock yet. *)
Definition unlockedWorld : World :=
  {| server := threeJoined; clients := threeClients |}.

(** Alice has taken the lock on the e-mail field: Bob's and Carol's clients
    show it. *)
Definition lockedWorld : World :=
  world_step (H := wholeNumbers) unlockedWorld "sA"
    (LockField "F1" "email" "u-alice" "Alice") 4.

(** Closed instances are settled by evaluation. *)
Ltac closed_registry :=
  vm_compute; repeat constructor; simpl; intuition discriminate.

Ltac closed_member := apply (bool_decide_unpack _); vm_compute; exact I.

(** ** The other administration endpoints *)

(** The events that only the administration endpoints emit. *)
Inductive AdminEvent :=
| EvFormDeactivated (message : string)
| EvFormDeleted (message : string).

Record Notice := {
  notice_to : gset string;
  notice : AdminEvent
}.

(** [io.to(room).emit(ev)] for an administration event *)
Definition io_notify (rs : gmap string (gset string)) (room : string)
    (ev : AdminEvent) : Notice :=
  {| notice_to := members rs room; notice := ev |}.

(** [Boolean(v)] *)
Definition ToBoolean (v : JsValue) : bool :=
  match v with
  | JsString s => negb (String.eqb s "")
  | JsNumber x => negb (PrimFloat.is_nan x || PrimFloat.eqb x PrimFloat.zero)
  | JsBoolean b => b
  | JsNull | JsUndefined => false
  end.

Definition with_active (f : Form) (b : bool) : Form :=
  {| form_title := form_title f; form_code := form_code f;
     form_fields := form_fields f; form_admin_id := form_admin_id f;
     form_is_active := b |}.

(** [PUT /api/forms/:formId/status]: new state, HTTP status, broadcasts. *)
Definition putFormStatus (s : Server) (formId : string) (isActive : JsValue)
    (adminId : string) : Server * nat * list Notice :=
  if String.eqb adminId "" then (s, 400, [])
  else if negb (dbUp (db s)) then (s, 500, [])
  else
    match forms (db s) !! formId with
    | None => (s, 404, [])
    | Some form =>
        if negb (String.eqb (form_admin_id form) adminId) then (s, 403, [])
        else
          let updatedForm := with_active form (ToBoolean isActive) in
          (with_db s
             {| dbUp := dbUp (db s);
                forms := <[formId := updatedForm]> (forms (db s));
                form_responses := form_responses (db s) |},
           200,
           if negb (form_is_active updatedForm) then
             [io_notify (rooms s) (roomOf formId)
                (EvFormDeactivated "This form has been deactivated by the admin.")]
           else [])
    end.

(** [DELETE /api/forms/:formId].  The notice goes out first, then the room
    map is dropped from [activeSessions] and the form row is deleted; the row
    of [form_responses] goes with it, by the [ON DELETE CASCADE] of the
    schema.  The rooms of the socket.io adapter are not touched. *)
Definition deleteForm (s : Server) (formId adminId : string)
  : Server * nat * list Notice :=
  if String.eqb adminId "" then (s, 400, [])
  else if negb (dbUp (db s)) then (s, 500, [])
  else
    match forms (db s) !! formId with
    | None => (s, 404, [])
    | Some form =>
        if negb (String.eqb (form_admin_id form) adminId) then (s, 403, [])
        else
          ({| db := {| dbUp := dbUp (db s);
                       forms := delete formId (forms (db s));
                       form_responses := delete formId (form_responses (db s)) |};
              activeSessions := JsMap.delete formId (activeSessions s);
              rooms := rooms s |},
           200,
           [io_notify (rooms s) (roomOf formId)
              (EvFormDeleted "This form has been deleted by the admin.")])
    end.

(** [filledFields] of [GET /api/forms/:formId/stats]: the stored answers
    that are not the empty string ([null] is never stored). *)
Definition filledFields (resp : option FormResponse) : nat :=
  match resp with
  | Some r =>
      List.length
        (List.filter (fun kv => negb (String.eqb (snd kv) "")) (map_to_list (data r)))
  | None => 0
  end.

(** [totalFields] of the same endpoint *)
Definition totalFields (f : Form) : nat := List.length (form_fields f).

(** [totalActiveSessions] of [GET /health] *)
Definition totalActiveSessions (s : Server) : nat :=
  List.fold_left (fun sum e => sum + List.length (snd e)) (activeSessions s) 0.

(** Every stored answer belongs to a field of its form's schema. *)
Definition answers_in_schema (d : Database) : Prop :=
  ∀ formId form resp k,
    forms d !! formId = Some form →
    form_responses d !! formId = Some resp →
    is_Some (data resp !! k) →
    In k (List.map field_id (form_fields form)).

(** ** More of the client *)

(** The members that every object written as a literal inherits from
    [Object.prototype]. *)
Definition objectPrototypeKeys : list string :=
  ["constructor"; "__defineGetter__"; "__defineSetter__"; "hasOwnProperty";
   "__lookupGetter__"; "__lookupSetter__"; "isPrototypeOf"; "propertyIsEnumerable";
   "toString"; "valueOf"; "__proto__"; "toLocaleString"].

(** The viewer: the [user] state of the component. *)
Record User := {
  user_id : string;
  user_name : string;
  user_role : string
}.

(** [isLocked] of [renderField]:
    [lockedFields[field.id] && lockedFields[field.id].userId !== user.id].
    An own entry is a lock record.  Where the table has no own entry the read
    falls through to [Object.prototype]: its members are truthy and have no
    [userId], and [undefined] is not the viewer's id, so a field whose id is
    the name of one of them counts as locked. *)
Definition isLocked (user : User) (c : Client) (fieldId : string) : bool :=
  match lockedFields c !! fieldId with
  | Some l => negb (String.eqb (lock_userId l) (user_id user))
  | None => existsb (String.eqb fieldId) objectPrototypeKeys
  end.

(** The [disabled] attribute of the field's input: [isLocked || isAdmin]. *)
Definition disabled (user : User) (c : Client) (fieldId : string) : bool :=
  isLocked user c fieldId || String.eqb (user_role user) "admin".

(** What the Back / Logout button does to the form-specific state, after it
    has emitted ['leaveForm']. *)
Definition leaveClicked (c : Client) : Client :=
  {| currentForm := None; formResponse := ∅; activeUsers := [];
     lockedFields := ∅; typingUsers := ∅;
     showSavedMessage := showSavedMessage c |}.

(** The button pressed on socket [sid]: the message goes to the server and
    the client resets itself. *)
Definition world_leave `{JsRuntime} (w : World) (sid formId uid : string) (now : Z)
  : World :=
  let w' := world_step w sid (LeaveForm formId uid) now in
  {| server := server w'; clients := alter leaveClicked sid (clients w') |}.

(** *** The form builder *)

(** A field as the builder edits it. *)
Record DraftField := {
  draft_id : string;
  draft_type : string;
  draft_label : string;
  draft_required : bool;
  draft_options : option (list string)
}.

(** The [updates] object of [updateFormField], with the keys the builder
    passes. *)
Record FieldPatch := {
  patch_type : option string;
  patch_label : option string;
  patch_required : option bool;
  patch_options : option (list string)
}.

(** [{ ...field, ...updates }] *)
Definition applyPatch (u : FieldPatch) (f : DraftField) : DraftField :=
  {| draft_id := draft_id f;
     draft_type := default (draft_type f) (patch_type u);
     draft_label := default (draft_label f) (patch_label u);
     draft_required := default (draft_required f) (patch_required u);
     draft_options :=
       match patch_options u with
       | Some o => Some o
       | None => draft_options f
       end |}.

(** [addField]; [stamp] is the decimal text of [Date.now()]. *)
Definition addField (stamp : string) (fields : list DraftField) : list DraftField :=
  fields ++ [{| draft_id := "field_" +:+ stamp; draft_type := "text";
                draft_label := "New Field"; draft_required := false;
                draft_options := Some [] |}].

Definition updateFormField (fieldId : string) (u : FieldPatch)
    (fields : list DraftField) : list DraftField :=
  List.map (fun f => if String.eqb (draft_id f) fieldId then applyPatch u f else f) fields.

Definition removeField (fieldId : string) (fields : list DraftField) : list DraftField :=
  List.filter (fun f => negb (String.eqb (draft_id f) fieldId)) fields.

(** The [onChange] of the field-type selector. *)
Definition changeFieldType (fieldId type : string) (fields : list DraftField)
  : list DraftField :=
  updateFormField fieldId
    {| patch_type := Some type; patch_label := None; patch_required := None;
       patch_options :=
         Some (if String.eqb type "select" || String.eqb type "radio"
               then ["Option 1"] else []) |}
    fields.

Definition addFieldOption (fieldId : string) (fields : list DraftField)
  : list DraftField :=
  List.map
    (fun f =>
       if String.eqb (draft_id f) fieldId then
         applyPatch
           {| patch_type := None; patch_label := None; patch_required := None;
              patch_options := Some (default [] (draft_options f) ++ ["New Option"])%list |}
           f
       else f)
    fields.

(** [options.filter((_, index) => index !== optionIndex)] *)
Fixpoint dropIndex (i : nat) (l : list string) : list string :=
  match l, i with
  | [], _ => []
  | _ :: r, O => r
  | x :: r, S j => x :: dropIndex j r
  end.

(** The shape shared by [updateFieldOption] and [removeFieldOption]: the
    fields with that id get their [options] rewritten by [g].  The result is
    [None] when such a field has no [options] array, where the call on
    [field.options] throws. *)
Fixpoint editOptions (g : list string -> list string) (fieldId : string)
    (fields : list DraftField) : option (list DraftField) :=
  match fields with
  | [] => Some []
  | f :: rest =>
      if String.eqb (draft_id f) fieldId then
        match draft_options f with
        | Some o =>
            match editOptions g fieldId rest with
            | Some rest' =>
                Some (applyPatch
                        {| patch_type := None; patch_label := None;
                           patch_required := None; patch_options := Some (g o) |} f
                      :: rest')
            | None => None
            end
        | None => None
        end
      else
        match editOptions g fieldId rest with
        | Some rest' => Some (f :: rest')
        | None => None
        end
  end.

(** [options.map((option, index) => index === optionIndex ? value : option)] *)
Definition updateFieldOption (fieldId : string) (optionIndex : nat) (value : string)
    (fields : list DraftField) : option (list DraftField) :=
  editOptions (fun o => <[optionIndex := value]> o) fieldId fields.

Definition removeFieldOption (fieldId : string) (optionIndex : nat)
    (fields : list DraftField) : option (list DraftField) :=
  editOptions (dropIndex optionIndex) fieldId fields.

(** The field as [saveFormStructure] sends it and the server reads it. *)
Definition draftToField (f : DraftField) : Field :=
  {| field_id := draft_id f; field_label := draft_label f;
     field_type := draft_type f; field_options := draft_options f |}.

(** [saveFormStructure] for a logged-in administrator: the request it makes. *)
Definition saveFormStructure (s : Server) (formId : string) (fields : list DraftField)
    (adminId : string) (now : Z) : Server * nat * list Emit :=
  putFormFields s formId (Some (List.map draftToField fields)) adminId now.

(** ** More closed examples *)

(** The survey after Bob has answered the age field. *)
Definition afterBobAge : Server :=
  fst (updateField (H := wholeNumbers) threeJoined "sB" "F1" "age" (JsString "41")
         "u-bob" "Bob" 9).

(** The survey's schema reduced to its e-mail field. *)
Definition emailOnly : list Field := List.firstn 1 surveyFields.

(** A dropdown without options. *)
Definition emptyDropdown : Field :=
  {| field_id := "colour"; field_label := "Colour"; field_type := "select";
     field_options := Some [] |}.

(** * Properties *)

(** ** Strings *)

Lemma lowerChar_not_upper (c : ascii) : JsString.isUpper (JsString.lowerChar c) = false.
Proof. destruct c as [[] [] [] [] [] [] [] []]; reflexivity. Qed.

Lemma toLowerCase_no_upper (s : string) :
  JsString.all_chars (fun c => negb (JsString.isUpper c)) (JsString.toLowerCase s) = true.
Proof.
  induction s as [|c r IH]; simpl; [reflexivity|].
  now rewrite lowerChar_not_upper, IH.
Qed.

Lemma trimEnd_cons (c : ascii) (r : string) :
  JsString.trimEnd (String c r)
  = match JsString.trimEnd r with
    | EmptyString =>
        if JsString.isWhiteSpace c then EmptyString else String c EmptyString
    | String _ _ => String c (JsString.trimEnd r)
    end.
Proof. simpl. now destruct (JsString.trimEnd r). Qed.

Lemma trimStart_all_chars (p : ascii -> bool) (s : string) :
  JsString.all_chars p s = true -> JsString.all_chars p (JsString.trimStart s) = true.
Proof.
  induction s as [|c r IH]; simpl; [easy|].
  intros [Hc Hr]%andb_prop.
  destruct (JsString.isWhiteSpace c); [now apply IH|].
  simpl. now rewrite Hc, Hr.
Qed.

Lemma trimEnd_all_chars (p : ascii -> bool) (s : string) :
  JsString.all_chars p s = true -> JsString.all_chars p (JsString.trimEnd s) = true.
Proof.
  induction s as [|c r IH]; [easy|].
  intros [Hc Hr]%andb_prop. rewrite trimEnd_cons.
  specialize (IH Hr).
  destruct (JsString.trimEnd r) as [|c' r'].
  - destruct (JsString.isWhiteSpace c); simpl; [reflexivity | now rewrite Hc].
  - change (p c && JsString.all_chars p (String c' r') = true). now rewrite Hc, IH.
Qed.

Lemma trimEnd_idem (s : string) :
  JsString.trimEnd (JsString.trimEnd s) = JsString.trimEnd s.
Proof.
  induction s as [|c r IH]; [reflexivity|].
  rewrite trimEnd_cons.
  destruct (JsString.trimEnd r) as [|c' r'] eqn:E.
  - destruct (JsString.isWhiteSpace c) eqn:W; [reflexivity|].
    simpl. now rewrite W.
  - rewrite trimEnd_cons, IH. reflexivity.
Qed.

(** A string that does not start with white space still does not after
    its end was trimmed. *)
Lemma trimStart_trimEnd_fixed (s : string) :
  JsString.trimStart s = s ->
  JsString.trimStart (JsString.trimEnd s) = JsString.trimEnd s.
Proof.
  destruct s as [|c r]; [reflexivity|].
  intros Hs. rewrite trimEnd_cons.
  destruct (JsString.isWhiteSpace c) eqn:W.
  - exfalso. simpl in Hs. rewrite W in Hs.
    assert (L : forall t, String.length (JsString.trimStart t) <= String.length t).
    { induction t as [|a t IHt]; simpl; [lia|].
      destruct (JsString.isWhiteSpace a); simpl; lia. }
    specialize (L r). rewrite Hs in L. simpl in L. lia.
  - destruct (JsString.trimEnd r); simpl; now rewrite W.
Qed.

Lemma trimStart_idem (s : string) :
  JsString.trimStart (JsString.trimStart s) = JsString.trimStart s.
Proof.
  induction s as [|c r IH]; [reflexivity|].
  simpl. destruct (JsString.isWhiteSpace c) eqn:W; [exact IH|].
  simpl. now rewrite W.
Qed.

Lemma trim_idem (s : string) : JsString.trim (JsString.trim s) = JsString.trim s.
Proof.
  unfold JsString.trim.
  rewrite (trimStart_trimEnd_fixed _ (trimStart_idem s)).
  apply trimEnd_idem.
Qed.

Lemma substring0_length (n : nat) (s : string) :
  String.length (JsString.substring0 n s) <= n.
Proof.
  unfold JsString.substring0. revert s.
  induction n as [|n IH]; intros [|c r]; simpl; try lia.
  specialize (IH r). lia.
Qed.


Lemma substring0_short (n : nat) (s : string) :
  String.length s <= n -> JsString.substring0 n s = s.
Proof.
  unfold JsString.substring0. revert s.
  induction n as [|n IH]; intros [|c r]; simpl; intros Hl; try reflexivity; try lia.
  f_equal. apply IH. lia.
Qed.










Lemma orZero_not_nan (x : float) : PrimFloat.is_nan (orZero x) = false.
Proof.
  unfold orZero. destruct (PrimFloat.is_nan x) eqn:E; simpl; [reflexivity|].
  destruct (PrimFloat.eqb x PrimFloat.zero); [reflexivity | exact E].
Qed.

Lemma orZero_nan (x : float) : PrimFloat.is_nan x = true -> orZero x = PrimFloat.zero.
Proof. unfold orZero. now intros ->. Qed.

(** ** Insertion-ordered maps *)

Section JsMapFacts.
Context {V : Type}.
Implicit Types (k : string) (v : V) (m : list (string * V)).

Lemma get_set_eq k v m : JsMap.get k (JsMap.set k v m) = Some v.
Proof.
  induction m as [|[k' v'] r IH]; simpl.
  - now rewrite String.eqb_refl.
  - destruct (String.eqb k' k) eqn:E; simpl.
    + now rewrite String.eqb_refl.
    + now rewrite E.
Qed.

Lemma get_set_ne k k' v m : k ≠ k' -> JsMap.get k' (JsMap.set k v m) = JsMap.get k' m.
Proof.
  intros Hne. induction m as [|[k0 v0] r IH]; simpl.
  - apply String.eqb_neq in Hne. now rewrite Hne.
  - destruct (String.eqb k0 k) eqn:E; simpl.
    + apply String.eqb_eq in E. subst k0.
      apply String.eqb_neq in Hne. now rewrite Hne.
    + destruct (String.eqb k0 k'); [reflexivity | exact IH].
Qed.


Lemma get_delete_ne k k' m : k ≠ k' -> JsMap.get k' (JsMap.delete k m) = JsMap.get k' m.
Proof.
  intros Hne. induction m as [|[k0 v0] r IH]; simpl; [reflexivity|].
  destruct (String.eqb k0 k) eqn:E; simpl.
  - apply String.eqb_eq in E. subst k0.
    apply String.eqb_neq in Hne. now rewrite Hne.
  - destruct (String.eqb k0 k'); [reflexivity | exact IH].
Qed.

Lemma get_Some_In k v m : JsMap.get k m = Some v -> In (k, v) m.
Proof.
  induction m as [|[k' v'] r IH]; simpl; [discriminate|].
  destruct (String.eqb k' k) eqn:E.
  - apply String.eqb_eq in E. intros [= ->]. subst. now left.
  - intros H. right. now apply IH.
Qed.

Lemma get_None_keys k m : JsMap.get k m = None <-> ¬ In k (JsMap.keys m).
Proof.
  induction m as [|[k' v'] r IH]; simpl; [tauto|].
  destruct (String.eqb k' k) eqn:E.
  - apply String.eqb_eq in E. split; [discriminate | intros H; exfalso; auto].
  - apply String.eqb_neq in E. rewrite IH. tauto.
Qed.


Lemma keys_set k v m :
  JsMap.keys (JsMap.set k v m)
  = if JsMap.has k m then JsMap.keys m else (JsMap.keys m ++ [k])%list.
Proof.
  unfold JsMap.has.
  induction m as [|[k' v'] r IH]; simpl; [reflexivity|].
  destruct (String.eqb k' k) eqn:E; simpl.
  - apply String.eqb_eq in E. now subst.
  - rewrite IH. now destruct (JsMap.get k r).
Qed.

Lemma keys_delete k m :
  JsMap.keys (JsMap.delete k m)
  = List.filter (fun k' => negb (String.eqb k' k)) (JsMap.keys m).
Proof.
  induction m as [|[k' v'] r IH]; simpl; [reflexivity|].
  destruct (String.eqb k' k); simpl; [exact IH | now rewrite IH].
Qed.

Lemma In_keys_set k k' v m :
  In k' (JsMap.keys (JsMap.set k v m)) <-> k' = k ∨ In k' (JsMap.keys m).
Proof.
  rewrite keys_set. unfold JsMap.has.
  destruct (JsMap.get k m) eqn:E.
  - split; [tauto|]. intros [-> | H]; [|exact H].
    apply get_Some_In in E. apply List.in_map_iff. now exists (k, v0).
  - rewrite List.in_app_iff. simpl. intuition congruence.
Qed.

Lemma In_keys_delete k k' m :
  In k' (JsMap.keys (JsMap.delete k m)) <-> k' ≠ k ∧ In k' (JsMap.keys m).
Proof.
  rewrite keys_delete, List.filter_In, negb_true_iff, String.eqb_neq. tauto.
Qed.

Lemma NoDup_keys_set k v m : List.NoDup (JsMap.keys m) -> List.NoDup (JsMap.keys (JsMap.set k v m)).
Proof.
  intros Hnd. rewrite keys_set. unfold JsMap.has.
  destruct (JsMap.get k m) eqn:E; [exact Hnd|].
  apply get_None_keys in E.
  apply List.NoDup_app; [exact Hnd | repeat constructor; simpl; tauto |].
  intros x Hx [<- | []]. exact (E Hx).
Qed.

Lemma NoDup_keys_delete k m : List.NoDup (JsMap.keys m) -> List.NoDup (JsMap.keys (JsMap.delete k m)).
Proof. intros Hnd. rewrite keys_delete. now apply List.NoDup_filter. Qed.

Lemma In_set k v m p : In p (JsMap.set k v m) -> p = (k, v) ∨ In p m.
Proof.
  induction m as [|[k' v'] r IH]; simpl; [intuition auto|].
  destruct (String.eqb k' k); simpl; intuition auto.
Qed.

Lemma In_delete k m p : In p (JsMap.delete k m) <-> In p m ∧ fst p ≠ k.
Proof.
  unfold JsMap.delete. now rewrite List.filter_In, negb_true_iff, String.eqb_neq.
Qed.
End JsMapFacts.

(** ** Shape of the registry *)

Lemma sessions_ok_nil : sessions_ok [].
Proof. split; constructor. Qed.

Lemma sessions_ok_set (sid uid uname : string) (now : Z) (m : list (string * Session)) :
  sessions_ok m ->
  sessions_ok
    (JsMap.set sid {| userId := uid; userName := uname; joinedAt := now; socketId := sid |} m).
Proof.
  intros [Hnd Hall]. split; [now apply NoDup_keys_set|].
  apply List.Forall_forall. intros p [-> | Hin]%In_set; [reflexivity|].
  revert p Hin. now apply List.Forall_forall.
Qed.

Lemma sessions_ok_delete (sid : string) (m : list (string * Session)) :
  sessions_ok m -> sessions_ok (JsMap.delete sid m).
Proof.
  intros [Hnd Hall]. split; [now apply NoDup_keys_delete|].
  apply List.Forall_forall. intros p [Hin _]%In_delete.
  revert p Hin. now apply List.Forall_forall.
Qed.

Lemma sessionsOf_ok (formId : string) (s : Server) :
  registry_ok s -> sessions_ok (sessionsOf formId (activeSessions s)).
Proof.
  intros [_ Hall]. unfold sessionsOf.
  destruct (JsMap.get formId (activeSessions s)) as [m|] eqn:E; simpl.
  - apply get_Some_In in E.
    exact (proj1 (List.Forall_forall _ _) Hall _ E).
  - apply sessions_ok_nil.
Qed.

Lemma registry_ok_joinForm (s : Server) (sid formId uid uname : string) (now : Z) :
  registry_ok s -> registry_ok (fst (joinForm s sid formId uid uname now)).
Proof.
  intros Hok. unfold joinForm.
  destruct (negb (dbUp (db s))); [exact Hok|].
  destruct (forms (db s) !! formId) as [form|]; [|exact Hok].
  destruct (form_is_active form); [|exact Hok].
  simpl. split; simpl.
  - apply NoDup_keys_set, Hok.
  - apply List.Forall_forall. intros e [-> | Hin]%In_set.
    + simpl. now apply sessions_ok_set, sessionsOf_ok.
    + exact (proj1 (List.Forall_forall _ _) (proj2 Hok) _ Hin).
Qed.

Lemma registry_ok_disconnect (s : Server) (sid : string) :
  registry_ok s -> registry_ok (fst (disconnect s sid)).
Proof.
  intros [Hnd Hall]. split; simpl.
  - unfold JsMap.keys in *. rewrite List.map_map. simpl. exact Hnd.
  - apply List.Forall_forall. intros e [e0 [<- Hin]]%List.in_map_iff. simpl.
    apply sessions_ok_delete.
    exact (proj1 (List.Forall_forall _ _) Hall _ Hin).
Qed.

Lemma updateField_registry `{JsRuntime} (s : Server) (sid formId fieldId : string)
    (value : JsValue) (uid uname : string) (now : Z) :
  activeSessions (fst (updateField s sid formId fieldId value uid uname now))
  = activeSessions s
  ∧ rooms (fst (updateField s sid formId fieldId value uid uname now)) = rooms s.
Proof.
  unfold updateField.
  destruct (negb (dbUp (db s))); [easy|].
  destruct (forms (db s) !! formId) as [form|]; [|easy].
  destruct (form_is_active form); [|easy].
  now destruct (List.find _ _).
Qed.

Lemma putFormFields_registry (s : Server) (formId : string)
    (fields : option (list Field)) (adminId : string) (now : Z) :
  activeSessions (fst (fst (putFormFields s formId fields adminId now)))
  = activeSessions s
  ∧ rooms (fst (fst (putFormFields s formId fields adminId now))) = rooms s.
Proof.
  unfold putFormFields.
  destruct (String.eqb adminId ""); [easy|].
  destruct (negb (dbUp (db s))); [easy|].
  destruct (forms (db s) !! formId) as [form|]; [|easy].
  destruct (negb (String.eqb (form_admin_id form) adminId)); [easy|].
  destruct (negb (forallb validateField (default [] fields))); [easy|].
  destruct (form_responses (db s) !! formId); destruct fields; easy.
Qed.

Lemma registry_ok_server_on `{JsRuntime} (s : Server) (sid : string) (m : ClientMsg)
    (now : Z) :
  registry_ok s -> registry_ok (fst (server_on s sid m now)).
Proof.
  intros Hok. destruct m; simpl; try exact Hok.
  - now apply registry_ok_joinForm.
  - unfold registry_ok.
    now rewrite (proj1 (updateField_registry s sid formId fieldId value uid uname now)).
  - now apply registry_ok_disconnect.
Qed.

(** Every state the process can reach has a well-shaped registry. *)
Lemma reachable_registry_ok `{JsRuntime} (s : Server) : reachable s -> registry_ok s.
Proof.
  induction 1 as [d | s sid m now _ IH | s formId fields adminId now _ IH].
  - split; constructor.
  - now apply registry_ok_server_on.
  - unfold registry_ok.
    now rewrite (proj1 (putFormFields_registry s formId fields adminId now)).
Qed.

(** ** Delivery *)



Lemma inbox_single (e : Emit) (r : string) :
  inbox [e] r = if bool_decide (r ∈ recipients e) then [event e] else [].
Proof. unfold inbox. simpl. now destruct (bool_decide _). Qed.



(** ** Disconnect *)

Lemma members_socket_join (sid room room' : string) (rs : gmap string (gset string)) :
  members (socket_join sid room rs) room'
  = if decide (room = room') then {[sid]} ∪ members rs room else members rs room'.
Proof.
  unfold socket_join, members at 1. rewrite lookup_insert.
  destruct (decide (room = room')) as [<- | Hne]; reflexivity.
Qed.

Lemma sessionsOf_set (formId : string) (m : list (string * Session))
    (act : list (string * list (string * Session))) :
  sessionsOf formId (JsMap.set formId m act) = m.
Proof. unfold sessionsOf. now rewrite get_set_eq. Qed.

Lemma sessionsOf_set_ne (formId formId' : string) (m : list (string * Session))
    (act : list (string * list (string * Session))) :
  formId ≠ formId' ->
  sessionsOf formId' (JsMap.set formId m act) = sessionsOf formId' act.
Proof. intros Hne. unfold sessionsOf. now rewrite get_set_ne. Qed.

Lemma get_after_disconnect (sid formId : string)
    (act : list (string * list (string * Session))) :
  JsMap.get formId (List.map (fun e => (fst e, JsMap.delete sid (snd e))) act)
  = JsMap.delete sid <$> JsMap.get formId act.
Proof.
  induction act as [|[k m] r IH]; simpl; [reflexivity|].
  destruct (String.eqb k formId); [reflexivity | exact IH].
Qed.

Lemma sessionsOf_after_disconnect (s : Server) (sid formId : string) :
  sessionsOf formId (activeSessions (disconnectSync s sid))
  = JsMap.delete sid (sessionsOf formId (activeSessions s)).
Proof.
  unfold sessionsOf. simpl. rewrite get_after_disconnect.
  now destruct (JsMap.get formId (activeSessions s)).
Qed.


Lemma disconnect_releaseOnly (s : Server) (sid : string) (e : Emit) :
  In e (snd (disconnect s sid)) -> releaseOnly (event e).
Proof.
  simpl. intros [d [_ He]]%List.in_flat_map.
  destruct He as [<- | [<- | []]]; exact I.
Qed.













(** ** Lock relay *)

Lemma inbox_socket_to (rs : gmap string (gset string)) (sid room r : string)
    (ev : ServerEvent) :
  inbox [socket_to rs sid room ev] r
  = if bool_decide (r ∈ members rs room ∧ r ≠ sid) then [ev] else [].
Proof.
  rewrite inbox_single. simpl.
  destruct (bool_decide (r ∈ members rs room ∖ {[sid]})) eqn:E.
  - apply bool_decide_eq_true in E. rewrite bool_decide_eq_true_2; [reflexivity|].
    set_solver.
  - apply bool_decide_eq_false in E. rewrite bool_decide_eq_false_2; [reflexivity|].
    set_solver.
Qed.

Lemma inbox_socket_to_self (rs : gmap string (gset string)) (sid room : string)
    (ev : ServerEvent) :
  inbox [socket_to rs sid room ev] sid = [].
Proof.
  rewrite inbox_socket_to, bool_decide_eq_false_2; [reflexivity | tauto].
Qed.

Lemma inbox_socket_to_other (rs : gmap string (gset string)) (sid room r : string)
    (ev : ServerEvent) :
  r ∈ members rs room -> r ≠ sid -> inbox [socket_to rs sid room ev] r = [ev].
Proof.
  intros Hr Hne. rewrite inbox_socket_to, bool_decide_eq_true_2; [reflexivity | tauto].
Qed.

(** C2, as the code has it.  The server keeps no lock table: a [lockField]
    request leaves the server state as it is, nothing is sent back to the
    requester, and [fieldLocked] naming the requester goes to every other
    member of the room; each client that receives it records the requester
    as the holder of that field, whatever it recorded before, and keeps its
    other entries. *)
Theorem lockField_relays_last_writer (s : Server) (sid formId fieldId uid uname : string) :
  let r := lockField s sid formId fieldId uid uname in
  fst r = s
  ∧ snd r = [socket_to (rooms s) sid (roomOf formId) (EvFieldLocked fieldId uname uid)]
  ∧ inbox (snd r) sid = []
  ∧ ∀ r' c, r' ∈ members (rooms s) (roomOf formId) → r' ≠ sid →
      let c' := client_run (inbox (snd r) r') c in
      lockedFields c' !! fieldId = Some {| lockedBy := uname; lock_userId := uid |}
      ∧ ∀ f, f ≠ fieldId → lockedFields c' !! f = lockedFields c !! f.
Proof.
  simpl. split; [reflexivity|]. split; [reflexivity|].
  split; [apply inbox_socket_to_self|].
  intros r' c Hr Hne. rewrite inbox_socket_to_other by assumption. simpl.
  split; [apply lookup_insert_eq|].
  intros f Hf. now apply lookup_insert_ne.
Qed.

(** C2 fails as stated: Carol's client shows Alice as the holder of the
    e-mail field; Bob's [lockField] on the same field makes it show Bob, and
    Bob himself is sent nothing. *)
Lemma lockField_overwrites_counterexample :
  let outs := snd (lockField threeJoined "sB" "F1" "email" "u-bob" "Bob") in
  let after := client_run (inbox outs "sC") carolSeesAlice in
  lockedFields carolSeesAlice !! "email"
  = Some {| lockedBy := "Alice"; lock_userId := "u-alice" |}
  ∧ lockedFields after !! "email" = Some {| lockedBy := "Bob"; lock_userId := "u-bob" |}
  ∧ lockedFields after ≠ lockedFields carolSeesAlice
  ∧ inbox outs "sB" = [].
Proof.
  assert (H1 : lockedFields carolSeesAlice !! "email"
               = Some {| lockedBy := "Alice"; lock_userId := "u-alice" |})
    by (vm_compute; reflexivity).
  assert (H2 : lockedFields
                 (client_run
                    (inbox (snd (lockField threeJoined "sB" "F1" "email" "u-bob" "Bob")) "sC")
                    carolSeesAlice) !! "email"
               = Some {| lockedBy := "Bob"; lock_userId := "u-bob" |})
    by (vm_compute; reflexivity).
  split; [exact H1|]. split; [exact H2|]. split.
  - intros Heq. rewrite Heq, H1 in H2. discriminate.
  - vm_compute. reflexivity.
Qed.

(** C3, as the code has it.  An [unlockField] request leaves the server
    state as it is and sends [fieldUnlocked] to every other member of the
    room; each client that receives it removes its entry for that field,
    whoever the recorded holder is, and keeps its other entries. *)
Theorem unlockField_removes_any_holder (s : Server) (sid formId fieldId uid : string) :
  let r := unlockField s sid formId fieldId uid in
  fst r = s
  ∧ snd r = [socket_to (rooms s) sid (roomOf formId) (EvFieldUnlocked fieldId uid)]
  ∧ inbox (snd r) sid = []
  ∧ ∀ r' c, r' ∈ members (rooms s) (roomOf formId) → r' ≠ sid →
      let c' := client_run (inbox (snd r) r') c in
      lockedFields c' !! fieldId = None
      ∧ ∀ f, f ≠ fieldId → lockedFields c' !! f = lockedFields c !! f.
Proof.
  simpl. split; [reflexivity|]. split; [reflexivity|].
  split; [apply inbox_socket_to_self|].
  intros r' c Hr Hne. rewrite inbox_socket_to_other by assumption. simpl.
  split; [apply lookup_delete_eq|].
  intros f Hf. now apply lookup_delete_ne.
Qed.

(** C3 fails as stated: Alice holds the lock on the e-mail field and Bob,
    who never held it, sends [unlockField]; Carol's client loses Alice's
    lock. *)
Lemma unlockField_by_other_counterexample :
  let outs := snd (unlockField threeJoined "sB" "F1" "email" "u-bob") in
  let after := client_run (inbox outs "sC") carolSeesAlice in
  lockedFields carolSeesAlice !! "email"
  = Some {| lockedBy := "Alice"; lock_userId := "u-alice" |}
  ∧ lockedFields after !! "email" = None
  ∧ lockedFields after ≠ lockedFields carolSeesAlice.
Proof.
  assert (H1 : lockedFields carolSeesAlice !! "email"
               = Some {| lockedBy := "Alice"; lock_userId := "u-alice" |})
    by (vm_compute; reflexivity).
  assert (H2 : lockedFields
                 (client_run
                    (inbox (snd (unlockField threeJoined "sB" "F1" "email" "u-bob")) "sC")
                    carolSeesAlice) !! "email" = None)
    by (vm_compute; reflexivity).
  split; [exact H1|]. split; [exact H2|].
  intros Heq. rewrite Heq, H1 in H2. discriminate.
Qed.

(** ** Typing relay *)



(** ** Schema changes *)

Lemma inbox_io_to (rs : gmap string (gset string)) (room r : string) (ev : ServerEvent) :
  inbox [io_to rs room ev] r = if bool_decide (r ∈ members rs room) then [ev] else [].
Proof. now rewrite inbox_single. Qed.

(** The field-schema endpoint answers 200 and broadcasts, or answers
    another status and sends nothing; it answers 200 exactly when the caller
    owns the form, every submitted field is valid and the clean-up of the
    answers does not throw. *)
Lemma putFormFields_outcome (s : Server) (formId : string)
    (fields : option (list Field)) (adminId : string) (now : Z) :
  let r := putFormFields s formId fields adminId now in
  let accepted :=
    adminId ≠ "" ∧ dbUp (db s) = true
    ∧ (∃ form, forms (db s) !! formId = Some form ∧ form_admin_id form = adminId)
    ∧ forallb validateField (default [] fields) = true
    ∧ (fields = None → form_responses (db s) !! formId = None) in
  (accepted ∧ snd (fst r) = 200
   ∧ snd r = [io_to (rooms s) (roomOf formId)
                (EvFormStructureUpdated (default [] fields))]
   ∧ ∃ form, forms (db (fst (fst r))) !! formId = Some form
             ∧ form_fields form = default [] fields)
  ∨ (¬ accepted ∧ snd (fst r) ≠ 200 ∧ snd r = []).
Proof.
  intros r accepted. unfold r, accepted, putFormFields.
  destruct (String.eqb_spec adminId "") as [-> | Hadm].
  { right. cbn [fst snd]. split; [tauto | now split]. }
  destruct (dbUp (db s)) eqn:Hup; cbn [negb].
  2:{ right. cbn [fst snd]. split; [|now split]. intros (_ & Hf & _). discriminate. }
  destruct (forms (db s) !! formId) as [form|] eqn:Hform.
  2:{ right. cbn [fst snd]. split; [|now split].
      intros (_ & _ & (form & Hf & _) & _). discriminate. }
  destruct (String.eqb_spec (form_admin_id form) adminId) as [Hown | Hown]; cbn [negb].
  2:{ right. cbn [fst snd]. split; [|now split].
      intros (_ & _ & (form' & Hf & Ho) & _). congruence. }
  destruct (forallb validateField (default [] fields)) eqn:Hall; cbn [negb].
  2:{ right. cbn [fst snd]. split; [|now split]. intros (_ & _ & _ & Hv & _). discriminate. }
  destruct (form_responses (db s) !! formId) as [resp|] eqn:Hresp; [destruct fields as [fs|]|].
  - left. cbn [fst snd with_db db forms]. split.
    { split; [exact Hadm|]. split; [reflexivity|]. split; [now exists form|].
      split; [reflexivity | discriminate]. }
    split; [reflexivity|]. split; [reflexivity|].
    eexists. split; [apply lookup_insert_eq | reflexivity].
  - right. cbn [fst snd]. split; [|now split].
    intros (_ & _ & _ & _ & Hnone). specialize (Hnone eq_refl). discriminate.
  - left. cbn [fst snd with_db db forms]. split.
    { split; [exact Hadm|]. split; [reflexivity|]. split; [now exists form|].
      split; [reflexivity | tauto]. }
    split; [reflexivity|]. split; [reflexivity|].
    eexists. split; [apply lookup_insert_eq | reflexivity].
Qed.

(** C9, as the code has it.  The field-schema endpoint answers 200 exactly
    when the caller owns the form, every submitted field is valid and the
    clean-up of the answers does not throw.  A save answered with 200 has
    stored the submitted field list (the empty list when the body carries
    none) and [formStructureUpdated] with that list reaches every member of
    the form's room and nobody else; a save answered otherwise sends
    nothing.  A client that has a form open replaces that form's field list
    with the new one, and its lock table and typing table stay exactly as
    they were. *)
Theorem structure_update_keeps_locks_and_typing (s : Server) (formId : string)
    (fields : option (list Field)) (adminId : string) (now : Z) :
  let r := putFormFields s formId fields adminId now in
  let fs := default [] fields in
  (snd (fst r) = 200
   ↔ adminId ≠ "" ∧ dbUp (db s) = true
     ∧ (∃ form, forms (db s) !! formId = Some form ∧ form_admin_id form = adminId)
     ∧ forallb validateField fs = true
     ∧ (fields = None → form_responses (db s) !! formId = None))
  ∧ (snd (fst r) = 200 →
       (∃ form, forms (db (fst (fst r))) !! formId = Some form ∧ form_fields form = fs)
       ∧ (∀ r', r' ∈ members (rooms s) (roomOf formId) →
                inbox (snd r) r' = [EvFormStructureUpdated fs])
       ∧ (∀ r', r' ∉ members (rooms s) (roomOf formId) → inbox (snd r) r' = []))
  ∧ (snd (fst r) ≠ 200 → snd r = [])
  ∧ (∀ e, In e (snd r) →
          event e = EvFormStructureUpdated fs
          ∧ recipients e = members (rooms s) (roomOf formId))
  ∧ (∀ r' c,
       let c' := client_run (inbox (snd r) r') c in
       lockedFields c' = lockedFields c
       ∧ typingUsers c' = typingUsers c
       ∧ (snd (fst r) = 200 → r' ∈ members (rooms s) (roomOf formId) →
          currentForm c' = (fun f => with_fields f fs) <$> currentForm c)
       ∧ (snd (fst r) ≠ 200 ∨ r' ∉ members (rooms s) (roomOf formId) → c' = c))
  ∧ ∀ fs' c,
      let c' := client_on (EvFormStructureUpdated fs') c in
      lockedFields c' = lockedFields c
      ∧ typingUsers c' = typingUsers c
      ∧ currentForm c' = (fun f => with_fields f fs') <$> currentForm c.
Proof.
  intros r fs.
  assert (Hlistener : ∀ fs' c,
            lockedFields (client_on (EvFormStructureUpdated fs') c) = lockedFields c
            ∧ typingUsers (client_on (EvFormStructureUpdated fs') c) = typingUsers c
            ∧ currentForm (client_on (EvFormStructureUpdated fs') c)
              = (fun f => with_fields f fs') <$> currentForm c).
  { intros fs' c. simpl.
    destruct (currentForm c) eqn:E; simpl; rewrite ?E; repeat split; reflexivity. }
  destruct (putFormFields_outcome s formId fields adminId now)
    as [(Hacc & Hst & Hout & Hstored) | (Hrej & Hst & Hout)];
    fold r in Hst, Hout; try fold r in Hstored; fold fs in Hout; try fold fs in Hstored.
  - split; [split; [intros _; exact Hacc | intros _; exact Hst]|].
    split.
    { intros _. split; [exact Hstored|]. rewrite Hout. split; intros r' Hr'.
      - rewrite inbox_io_to. now rewrite bool_decide_eq_true_2.
      - rewrite inbox_io_to. now rewrite bool_decide_eq_false_2. }
    split; [intros Hne; now destruct Hne|].
    split; [rewrite Hout; intros e [<- | []]; now split|].
    split; [|exact Hlistener].
    intros r' c. rewrite Hout, inbox_io_to.
    destruct (bool_decide (r' ∈ members (rooms s) (roomOf formId))) eqn:E.
    + apply bool_decide_eq_true in E. unfold client_run. cbn [fold_left].
      destruct (Hlistener fs c) as (Hl & Ht & Hf).
      split; [exact Hl|]. split; [exact Ht|]. split; [intros _ _; exact Hf|].
      intros [Hne | Hne]; now destruct Hne.
    + apply bool_decide_eq_false in E. unfold client_run. cbn [fold_left].
      split; [reflexivity|]. split; [reflexivity|].
      split; [intros _ Hr'; now destruct E | reflexivity].
  - split; [split; [intros H200; now destruct Hst | intros Hacc; now destruct Hrej]|].
    split; [intros H200; now destruct Hst|].
    split; [intros _; exact Hout|].
    split; [rewrite Hout; intros e []|].
    split; [|exact Hlistener].
    intros r' c. rewrite Hout. unfold client_run. cbn [inbox List.filter List.map fold_left].
    split; [reflexivity|]. split; [reflexivity|].
    split; [intros H200; now destruct Hst | reflexivity].
Qed.

(** C9 fails as stated: a client records Alice's lock on the note field and
    Alice typing there; the administrator replaces the schema by one without
    that field, the client is told, and both entries are still there. *)
Lemma structure_update_counterexample :
  let r := putFormFields threeJoined "F1" (Some withoutNote) "admin-1" 7 in
  let evs := inbox (snd r) "sC" in
  snd (fst r) = 200
  ∧ evs = [EvFormStructureUpdated withoutNote]
  ∧ existsb (fun f => String.eqb (field_id f) "note") withoutNote = false
  ∧ lockedFields (client_run evs busyOnNote) !! "note"
    = Some {| lockedBy := "Alice"; lock_userId := "u-alice" |}
  ∧ typingUsers (client_run evs busyOnNote) !! "note" = Some "Alice".
Proof.
  split; [vm_compute; reflexivity|].
  split; [vm_compute; reflexivity|].
  split; [vm_compute; reflexivity|].
  split; vm_compute; reflexivity.
Qed.

(** ** Field updates *)

Lemma existsb_eqb_In (x : string) (l : list string) :
  existsb (String.eqb x) l = true <-> In x l.
Proof.
  rewrite List.existsb_exists. split.
  - intros (y & Hy & ->%String.eqb_eq). exact Hy.
  - intros Hin. exists x. split; [exact Hin | apply String.eqb_refl].
Qed.

Lemma addContributor_spec (uname : string) (cs : list string) :
  In uname (addContributor uname cs)
  ∧ (∀ n, In n cs → In n (addContributor uname cs))
  ∧ (List.NoDup cs → List.NoDup (addContributor uname cs))
  ∧ (In uname cs → addContributor uname cs = cs).
Proof.
  unfold addContributor. destruct (existsb (String.eqb uname) cs) eqn:E.
  - apply existsb_eqb_In in E. now repeat split.
  - assert (Hn : ¬ In uname cs).
    { intros Hin. apply existsb_eqb_In in Hin. congruence. }
    repeat split.
    + apply List.in_or_app. right. now left.
    + intros n Hin. apply List.in_or_app. now left.
    + intros Hnd. apply List.NoDup_app; [exact Hnd | repeat constructor; simpl; tauto |].
      intros x Hx [<- | []]. exact (Hn Hx).
    + intros Hin. now destruct (Hn Hin).
Qed.

Lemma storeValue_time (old : option FormResponse) (fieldId value uname : string) (now : Z) :
  last_updated (storeValue old fieldId value uname now) = now.
Proof. now destruct old. Qed.

Lemma assignString_other (key value : string) (obj : gmap string string) (k : string) :
  k ≠ key -> assignString key value obj !! k = obj !! k.
Proof.
  intros Hne. unfold assignString.
  destruct (obj !! key); [now apply lookup_insert_ne|].
  destruct (String.eqb key "__proto__"); [reflexivity | now apply lookup_insert_ne].
Qed.

Lemma assignString_stored (key value : string) (obj : gmap string string) :
  key ≠ "__proto__" ∨ is_Some (obj !! key) ->
  assignString key value obj !! key = Some value.
Proof.
  intros Hcase. unfold assignString.
  destruct (obj !! key) eqn:E; [apply lookup_insert_eq|].
  destruct Hcase as [Hne | [x Hx]]; [|discriminate].
  apply String.eqb_neq in Hne. rewrite Hne. apply lookup_insert_eq.
Qed.

Lemma assignString_ignored (value : string) (obj : gmap string string) :
  obj !! "__proto__" = None -> assignString "__proto__" value obj = obj.
Proof. intros Hnone. unfold assignString. now rewrite Hnone. Qed.


Lemma storeValue_answers (old : option FormResponse) (fieldId value uname : string)
    (now : Z) :
  data (storeValue old fieldId value uname now) = assignString fieldId value (default ∅ (data <$> old)).
Proof. now destruct old. Qed.

Lemma updateField_accepted `{JsRuntime} (s : Server) (sid formId fieldId : string)
    (value : JsValue) (uid uname : string) (now : Z) (form : Form) (field : Field) :
  dbUp (db s) = true ->
  forms (db s) !! formId = Some form ->
  form_is_active form = true ->
  List.find (fun f => String.eqb (field_id f) fieldId) (form_fields form) = Some field ->
  updateField s sid formId fieldId value uid uname now
  = (with_db s
       {| dbUp := true; forms := forms (db s);
          form_responses :=
            <[formId := storeValue (form_responses (db s) !! formId) fieldId
                          (sanitizeValue (field_type field) value) uname now]>
              (form_responses (db s)) |},
     [io_to (rooms s) (roomOf formId)
        (EvFieldUpdated fieldId (field_label field)
           (sanitizeValue (field_type field) value) uname now)]).
Proof.
  intros Hup Hform Hact Hfield. unfold updateField.
  rewrite Hup, Hform, Hact, Hfield. simpl. now rewrite storeValue_time.
Qed.

Lemma find_unknown (fieldId : string) (fs : list Field) :
  (∀ f, In f fs → field_id f ≠ fieldId) ->
  List.find (fun f => String.eqb (field_id f) fieldId) fs = None.
Proof.
  intros Hall. destruct (List.find _ fs) as [f|] eqn:E; [|reflexivity].
  apply List.find_some in E as [Hin Heq]. apply String.eqb_eq in Heq.
  now destruct (Hall f Hin).
Qed.

(** C8.  An [updateField] naming a field that is not in the schema of an
    active form is answered with the error [Field not found in form
    definition.] sent to the requesting socket alone; no [fieldUpdated] is
    emitted, and the server state, with the stored answers, the registry and
    the room memberships, is exactly as before, so the requester is still a
    member of the room. *)
Theorem unknown_field_rejected `{JsRuntime} (s : Server) (sid formId fieldId : string)
    (value : JsValue) (uid uname : string) (now : Z) (form : Form) :
  dbUp (db s) = true ->
  forms (db s) !! formId = Some form ->
  form_is_active form = true ->
  (∀ f, In f (form_fields form) → field_id f ≠ fieldId) ->
  let r := server_on s sid (UpdateField formId fieldId value uid uname) now in
  snd r = [socket_emit sid (EvError "Field not found in form definition.")]
  ∧ (∀ r', r' ≠ sid → inbox (snd r) r' = [])
  ∧ inbox (snd r) sid = [EvError "Field not found in form definition."]
  ∧ (∀ e a b c d t, In e (snd r) → event e ≠ EvFieldUpdated a b c d t)
  ∧ fst r = s
  ∧ form_responses (db (fst r)) = form_responses (db s)
  ∧ (sid ∈ members (rooms s) (roomOf formId) →
     sid ∈ members (rooms (fst r)) (roomOf formId))
  ∧ (In sid (registered formId s) → In sid (registered formId (fst r))).
Proof.
  intros Hup Hform Hact Hunknown. simpl. unfold updateField.
  rewrite Hup, Hform, Hact, (find_unknown _ _ Hunknown). simpl.
  split; [reflexivity|].
  split.
  { intros r' Hne. rewrite inbox_single. simpl.
    rewrite bool_decide_eq_false_2; [reflexivity | set_solver]. }
  split.
  { rewrite inbox_single. simpl.
    rewrite bool_decide_eq_true_2; [reflexivity | set_solver]. }
  split.
  { intros e a b c d t [<- | []]. discriminate. }
  repeat split; auto.
Qed.

(** Bob updates a field the survey does not have. *)
Lemma unknown_field_rejected_witness :
  dbUp (db threeJoined) = true
  ∧ forms (db threeJoined) !! "F1" = Some survey
  ∧ form_is_active survey = true
  ∧ (∀ f, In f (form_fields survey) → field_id f ≠ "phone")
  ∧ snd (server_on (H := wholeNumbers) threeJoined "sB"
           (UpdateField "F1" "phone" (JsString "555") "u-bob" "Bob") 9)
    = [socket_emit "sB" (EvError "Field not found in form definition.")]
  ∧ fst (server_on (H := wholeNumbers) threeJoined "sB"
           (UpdateField "F1" "phone" (JsString "555") "u-bob" "Bob") 9)
    = threeJoined.
Proof.
  assert (H1 : dbUp (db threeJoined) = true) by reflexivity.
  assert (H2 : forms (db threeJoined) !! "F1" = Some survey) by (vm_compute; reflexivity).
  assert (H3 : form_is_active survey = true) by reflexivity.
  assert (H4 : ∀ f, In f (form_fields survey) → field_id f ≠ "phone").
  { intros f Hin. simpl in Hin. intuition (subst; discriminate). }
  destruct (unknown_field_rejected (H := wholeNumbers) threeJoined "sB" "F1" "phone"
              (JsString "555") "u-bob" "Bob" 9 survey H1 H2 H3 H4)
    as (Hout & _ & _ & _ & Hst & _).
  exact (conj H1 (conj H2 (conj H3 (conj H4 (conj Hout Hst))))).
Defined.

(** ** Locks and updates are separate *)

Lemma eraseLocks_client_on (ev : ServerEvent) (c1 c2 : Client) :
  eraseLocks c1 = eraseLocks c2 ->
  eraseLocks (client_on ev c1) = eraseLocks (client_on ev c2).
Proof.
  destruct c1 as [f1 r1 a1 l1 t1 m1], c2 as [f2 r2 a2 l2 t2 m2].
  unfold eraseLocks, setLockedFields. simpl. intros [= -> -> -> -> ->].
  destruct ev; simpl; try reflexivity.
  now destruct f2.
Qed.

Lemma eraseLocks_client_run (evs : list ServerEvent) (c1 c2 : Client) :
  eraseLocks c1 = eraseLocks c2 ->
  eraseLocks (client_run evs c1) = eraseLocks (client_run evs c2).
Proof.
  unfold client_run. revert c1 c2.
  induction evs as [|ev rest IH]; intros c1 c2 Heq; simpl; [exact Heq|].
  now apply IH, eraseLocks_client_on.
Qed.

Lemma lookup_world_step `{JsRuntime} (w : World) (sid : string) (m : ClientMsg) (now : Z)
    (r : string) :
  clients (world_step w sid m now) !! r
  = client_run (inbox (snd (server_on (server w) sid m now)) r) <$> clients w !! r.
Proof.
  unfold world_step. simpl. rewrite map_lookup_imap.
  now destruct (clients w !! r).
Qed.

(** C5.  An [updateField] for a field of the schema of an active form is
    accepted whatever the clients' lock tables hold (nothing, a lock of the
    updater, a lock of somebody else): the response row carries the new time
    stamp and the updater's name and, under the field's id, the sanitized
    value (nothing is written for the id [__proto__] unless the row has it);
    [fieldUpdated] with the sanitized value reaches every member of the room
    and nobody else; every member's client then shows the value and the time
    stamp; and no lock table has changed.  In two worlds that differ only in
    lock tables the server ends in the same state, every socket receives the
    same events, and the worlds still differ only in lock tables. *)
Theorem updateField_ignores_locks `{JsRuntime} (w1 w2 : World)
    (sid formId fieldId : string) (value : JsValue) (uid uname : string) (now : Z)
    (form : Form) (field : Field) :
  agreeButLocks w1 w2 ->
  dbUp (db (server w1)) = true ->
  forms (db (server w1)) !! formId = Some form ->
  form_is_active form = true ->
  List.find (fun f => String.eqb (field_id f) fieldId) (form_fields form) = Some field ->
  let m := UpdateField formId fieldId value uid uname in
  let v := sanitizeValue (field_type field) value in
  let room := members (rooms (server w1)) (roomOf formId) in
  let old := default ∅ (data <$> form_responses (db (server w1)) !! formId) in
  (∀ i, i = w1 ∨ i = w2 →
     let out := snd (server_on (server i) sid m now) in
     let i' := world_step i sid m now in
     (∃ resp, form_responses (db (server i')) !! formId = Some resp
              ∧ last_updated resp = now
              ∧ In uname (contributors resp)
              ∧ (fieldId ≠ "__proto__" ∨ is_Some (old !! fieldId) →
                 data resp !! fieldId = Some v)
              ∧ (fieldId = "__proto__" → old !! fieldId = None → data resp = old))
     ∧ (∀ r, r ∈ room →
             inbox out r = [EvFieldUpdated fieldId (field_label field) v uname now])
     ∧ (∀ r, r ∉ room → inbox out r = [])
     ∧ (∀ r c, clients i !! r = Some c →
          ∃ c', clients i' !! r = Some c'
                ∧ lockedFields c' = lockedFields c
                ∧ (r ∈ room →
                   formResponse c' !! "lastUpdated" = Some (Stamp now)
                   ∧ (fieldId ≠ "lastUpdated" →
                      formResponse c' !! fieldId = Some (Answer v)))))
  ∧ server_on (server w1) sid m now = server_on (server w2) sid m now
  ∧ (∀ r, inbox (snd (server_on (server w1) sid m now)) r
          = inbox (snd (server_on (server w2) sid m now)) r)
  ∧ agreeButLocks (world_step w1 sid m now) (world_step w2 sid m now).
Proof.
  intros [Hsrv Hcl] Hup Hform Hact Hfield m v room old.
  assert (Hout : ∀ i, i = w1 ∨ i = w2 →
            server_on (server i) sid m now
            = (with_db (server w1)
                 {| dbUp := true; forms := forms (db (server w1));
                    form_responses :=
                      <[formId := storeValue (form_responses (db (server w1)) !! formId)
                                    fieldId v uname now]>
                        (form_responses (db (server w1))) |},
               [io_to (rooms (server w1)) (roomOf formId)
                  (EvFieldUpdated fieldId (field_label field) v uname now)])).
  { intros i [-> | ->]; rewrite <- ?Hsrv; simpl;
      now apply updateField_accepted with (form := form). }
  split.
  { intros i Hi out i'. subst out i'.
    change (server (world_step i sid m now)) with (fst (server_on (server i) sid m now)).
    rewrite (Hout i Hi). cbn [fst snd with_db db form_responses].
    split.
    { eexists. split; [apply lookup_insert_eq|].
      split; [apply storeValue_time|].
      split.
      { destruct (form_responses (db (server w1)) !! formId) as [row|];
          cbn [storeValue contributors];
          [apply (proj1 (addContributor_spec _ _)) | now left]. }
      rewrite storeValue_answers. fold old.
      split; [apply assignString_stored|].
      intros -> Hnone. now apply assignString_ignored. }
    split; [intros r Hr; rewrite inbox_io_to; now rewrite bool_decide_eq_true_2|].
    split; [intros r Hr; rewrite inbox_io_to; now rewrite bool_decide_eq_false_2|].
    intros r c Hc. rewrite lookup_world_step, Hc, (Hout i Hi). cbn [snd fmap option_fmap option_map].
    eexists. split; [reflexivity|].
    rewrite inbox_io_to. fold room.
    destruct (bool_decide (r ∈ room)) eqn:E.
    - unfold client_run. cbn [fold_left client_on lockedFields formResponse].
      split; [reflexivity|]. intros _.
      split; [apply lookup_insert_eq|].
      intros Hne. rewrite lookup_insert_ne by congruence. apply lookup_insert_eq.
    - apply bool_decide_eq_false in E. unfold client_run. cbn [fold_left].
      split; [reflexivity|]. intros Hr. now destruct E. }
  split; [now rewrite !Hout by auto|].
  split; [intros r; now rewrite !Hout by auto|].
  split.
  - change (fst (server_on (server w1) sid m now)
            = fst (server_on (server w2) sid m now)).
    now rewrite !Hout by auto.
  - apply map_eq. intros r. rewrite !lookup_fmap, !lookup_world_step.
    rewrite !Hout by auto. simpl.
    pose proof (f_equal (fun cs => cs !! r) Hcl) as Hr. simpl in Hr.
    rewrite !lookup_fmap in Hr.
    destruct (clients w1 !! r) as [c1|], (clients w2 !! r) as [c2|];
      simpl in *; try discriminate; [|reflexivity].
    f_equal. apply eraseLocks_client_run. congruence.
Qed.

(** Bob updates the e-mail field, once with no lock around and once while
    his client shows Alice's lock on it: the answer is stored, all three
    sockets receive it, and Bob's client still shows Alice's lock. *)
Lemma updateField_ignores_locks_witness :
  let m := UpdateField "F1" "email" (JsString " Bob@X.org ") "u-bob" "Bob" in
  let told := [EvFieldUpdated "email" "Email" "bob@x.org" "Bob" 9] in
  agreeButLocks unlockedWorld lockedWorld
  ∧ dbUp (db (server unlockedWorld)) = true
  ∧ forms (db (server unlockedWorld)) !! "F1" = Some survey
  ∧ form_is_active survey = true
  ∧ List.find (fun f => String.eqb (field_id f) "email") (form_fields survey)
    = List.head surveyFields
  ∧ (∃ c, clients lockedWorld !! "sB" = Some c
          ∧ lockedFields c !! "email"
            = Some {| lockedBy := "Alice"; lock_userId := "u-alice" |})
  ∧ (∃ resp, form_responses
               (db (server (world_step (H := wholeNumbers) lockedWorld "sB" m 9))) !! "F1"
             = Some resp
             ∧ data resp !! "email" = Some "bob@x.org")
  ∧ inbox (snd (server_on (H := wholeNumbers) (server lockedWorld) "sB" m 9)) "sA" = told
  ∧ inbox (snd (server_on (H := wholeNumbers) (server lockedWorld) "sB" m 9)) "sB" = told
  ∧ inbox (snd (server_on (H := wholeNumbers) (server lockedWorld) "sB" m 9)) "sC" = told
  ∧ (∃ c', clients (world_step (H := wholeNumbers) lockedWorld "sB" m 9) !! "sB" = Some c'
           ∧ lockedFields c' !! "email"
             = Some {| lockedBy := "Alice"; lock_userId := "u-alice" |}
           ∧ formResponse c' !! "email" = Some (Answer "bob@x.org")).
Proof.
  intros m told.
  assert (H0 : agreeButLocks unlockedWorld lockedWorld)
    by (split; vm_compute; reflexivity).
  assert (H1 : dbUp (db (server unlockedWorld)) = true) by reflexivity.
  assert (H2 : forms (db (server unlockedWorld)) !! "F1" = Some survey)
    by (vm_compute; reflexivity).
  assert (H3 : form_is_active survey = true) by reflexivity.
  assert (H4 : List.find (fun f => String.eqb (field_id f) "email") (form_fields survey)
               = Some {| field_id := "email"; field_label := "Email";
                         field_type := "email"; field_options := None |})
    by reflexivity.
  assert (HB : ∃ c, clients lockedWorld !! "sB" = Some c
                    ∧ lockedFields c !! "email"
                      = Some {| lockedBy := "Alice"; lock_userId := "u-alice" |})
    by (eexists; split; vm_compute; reflexivity).
  assert (MA : "sA" ∈ members (rooms (server unlockedWorld)) (roomOf "F1")) by closed_member.
  assert (MB : "sB" ∈ members (rooms (server unlockedWorld)) (roomOf "F1")) by closed_member.
  assert (MC : "sC" ∈ members (rooms (server unlockedWorld)) (roomOf "F1")) by closed_member.
  destruct (updateField_ignores_locks (H := wholeNumbers) unlockedWorld lockedWorld
              "sB" "F1" "email" (JsString " Bob@X.org ") "u-bob" "Bob" 9 survey _
              H0 H1 H2 H3 H4) as (Hall & _).
  destruct (Hall lockedWorld (or_intror eq_refl))
    as ((resp & Hresp & _ & _ & Hdata & _) & Hin & _ & Hclients).
  destruct HB as (c & Hc & Hlock).
  destruct (Hclients "sB" c Hc) as (c' & Hc' & Hlocks & Hshown).
  destruct (Hshown MB) as (_ & Hvalue).
  split; [exact H0|]. split; [exact H1|]. split; [exact H2|]. split; [exact H3|].
  split; [exact H4|].
  split; [exists c; now split|].
  split; [exists resp; split; [exact Hresp | apply Hdata; left; discriminate]|].
  split; [exact (Hin "sA" MA)|]. split; [exact (Hin "sB" MB)|].
  split; [exact (Hin "sC" MC)|].
  exists c'. split; [exact Hc'|]. split; [now rewrite Hlocks|].
  apply Hvalue. discriminate.
Defined.

(** ** Who receives what *)

(** C6.  An accepted [updateField] makes [fieldUpdated] reach every
    member of the form's room, the sender included when it is a member, and
    nobody else.  [lockField], [unlockField] and [userTyping] always make
    [fieldLocked], [fieldUnlocked] and [userTypingUpdate] reach every member
    of the room other than the sender, and neither the sender nor a socket
    outside the room.  Each receiver gets the event once and nothing else;
    and whatever event of these four kinds any socket message makes the
    server emit has these recipients. *)
Theorem broadcast_scopes `{JsRuntime} (s : Server) (sid formId : string) (r : string) :
  let member := r ∈ members (rooms s) (roomOf formId) in
  (∀ fieldId value uid uname now form field,
     dbUp (db s) = true →
     forms (db s) !! formId = Some form →
     form_is_active form = true →
     List.find (fun f => String.eqb (field_id f) fieldId) (form_fields form) = Some field →
     let got := inbox (snd (server_on s sid (UpdateField formId fieldId value uid uname) now)) r in
     (member →
      got = [EvFieldUpdated fieldId (field_label field)
               (sanitizeValue (field_type field) value) uname now])
     ∧ (¬ member → got = []))
  ∧ (∀ fieldId uid uname now,
       let got := inbox (snd (server_on s sid (LockField formId fieldId uid uname) now)) r in
       (member → r ≠ sid → got = [EvFieldLocked fieldId uname uid])
       ∧ (¬ member ∨ r = sid → got = []))
  ∧ (∀ fieldId uid now,
       let got := inbox (snd (server_on s sid (UnlockField formId fieldId uid) now)) r in
       (member → r ≠ sid → got = [EvFieldUnlocked fieldId uid])
       ∧ (¬ member ∨ r = sid → got = []))
  ∧ (∀ fieldId uname isTyping now,
       let got :=
         inbox (snd (server_on s sid (UserTyping formId fieldId uname isTyping) now)) r in
       (member → r ≠ sid → got = [EvUserTypingUpdate fieldId uname isTyping])
       ∧ (¬ member ∨ r = sid → got = []))
  ∧ ∀ m now e,
      In e (snd (server_on s sid m now)) →
      match event e with
      | EvFieldUpdated _ _ _ _ _ =>
          ∃ formId', formOf m = Some formId'
                     ∧ ∀ r', r' ∈ recipients e ↔ r' ∈ members (rooms s) (roomOf formId')
      | EvFieldLocked _ _ _ | EvFieldUnlocked _ _ | EvUserTypingUpdate _ _ _ =>
          ∃ formId', formOf m = Some formId'
                     ∧ ∀ r', r' ∈ recipients e
                             ↔ r' ∈ members (rooms s) (roomOf formId') ∧ r' ≠ sid
      | _ => True
      end.
Proof.
  intros member.
  assert (Hrelay : ∀ ev,
            (member → r ≠ sid → inbox [socket_to (rooms s) sid (roomOf formId) ev] r = [ev])
            ∧ (¬ member ∨ r = sid → inbox [socket_to (rooms s) sid (roomOf formId) ev] r = [])).
  { intros ev. rewrite inbox_socket_to. split.
    - intros Hm Hne. now rewrite bool_decide_eq_true_2.
    - intros Hcase. rewrite bool_decide_eq_false_2; [reflexivity|]. tauto. }
  split.
  { intros fieldId value uid uname now form field Hup Hform Hact Hfield got. subst got.
    cbn [server_on].
    rewrite (updateField_accepted _ _ _ _ _ _ _ _ form field) by assumption.
    cbn [snd]. rewrite inbox_io_to. split.
    - intros Hm. now rewrite bool_decide_eq_true_2.
    - intros Hm. now rewrite bool_decide_eq_false_2. }
  split; [intros fieldId uid uname now; apply Hrelay|].
  split; [intros fieldId uid now; apply Hrelay|].
  split; [intros fieldId uname isTyping now; apply Hrelay|].
  intros m now e. destruct m; simpl.
  - unfold joinForm.
    destruct (negb (dbUp (db s))); [intros [<- | []]; exact I|].
    destruct (forms (db s) !! formId0) as [form|]; [|intros [<- | []]; exact I].
    destruct (form_is_active form); [|intros [<- | []]; exact I].
    intros [<- | [<- | []]]; exact I.
  - unfold updateField.
    destruct (negb (dbUp (db s))); [intros [<- | []]; exact I|].
    destruct (forms (db s) !! formId0) as [form|]; [|intros [<- | []]; exact I].
    destruct (form_is_active form); [|intros [<- | []]; exact I].
    destruct (List.find _ _); intros [<- | []]; simpl; [|exact I].
    exists formId0. split; [reflexivity | tauto].
  - intros [<- | []]. simpl. exists formId0. split; [reflexivity | set_solver].
  - intros [<- | []]. simpl. exists formId0. split; [reflexivity | set_solver].
  - intros [<- | []]. simpl. exists formId0. split; [reflexivity | set_solver].
  - intros [].
  - intros He. apply disconnect_releaseOnly in He.
    destruct (event e); try contradiction; exact I.
Qed.

(** Alice locks, unlocks and types in the e-mail field and Bob updates the
    age field: what Alice's and Bob's sockets receive each time. *)
Lemma broadcast_scopes_witness :
  let got (sid : string) (m : ClientMsg) (r : string) :=
    inbox (snd (server_on (H := wholeNumbers) threeJoined sid m 9)) r in
  got "sA" (LockField "F1" "email" "u-alice" "Alice") "sA" = []
  ∧ got "sA" (LockField "F1" "email" "u-alice" "Alice") "sB"
    = [EvFieldLocked "email" "Alice" "u-alice"]
  ∧ got "sA" (UnlockField "F1" "email" "u-alice") "sA" = []
  ∧ got "sA" (UnlockField "F1" "email" "u-alice") "sB" = [EvFieldUnlocked "email" "u-alice"]
  ∧ got "sA" (UserTyping "F1" "email" "Alice" true) "sA" = []
  ∧ got "sA" (UserTyping "F1" "email" "Alice" true) "sB"
    = [EvUserTypingUpdate "email" "Alice" true]
  ∧ got "sB" (UpdateField "F1" "age" (JsString "41") "u-bob" "Bob") "sB"
    = [EvFieldUpdated "age" "Age" "41" "Bob" 9]
  ∧ got "sB" (UpdateField "F1" "age" (JsString "41") "u-bob" "Bob") "sA"
    = [EvFieldUpdated "age" "Age" "41" "Bob" 9]
  ∧ got "sB" (UpdateField "F1" "age" (JsString "41") "u-bob" "Bob") "sD" = [].
Proof.
  intros got.
  assert (MA : "sA" ∈ members (rooms threeJoined) (roomOf "F1")) by closed_member.
  assert (MB : "sB" ∈ members (rooms threeJoined) (roomOf "F1")) by closed_member.
  assert (MD : "sD" ∉ members (rooms threeJoined) (roomOf "F1")).
  { intros Hd. apply (bool_decide_pack _) in Hd. vm_compute in Hd. exact Hd. }
  assert (H1 : dbUp (db threeJoined) = true) by reflexivity.
  assert (H2 : forms (db threeJoined) !! "F1" = Some survey) by (vm_compute; reflexivity).
  assert (H3 : form_is_active survey = true) by reflexivity.
  assert (H4 : List.find (fun f => String.eqb (field_id f) "age") (form_fields survey)
               = Some {| field_id := "age"; field_label := "Age";
                         field_type := "number"; field_options := None |})
    by reflexivity.
  destruct (broadcast_scopes (H := wholeNumbers) threeJoined "sA" "F1" "sA")
    as (_ & HlockA & HunlockA & HtypingA & _).
  destruct (broadcast_scopes (H := wholeNumbers) threeJoined "sA" "F1" "sB")
    as (_ & HlockB & HunlockB & HtypingB & _).
  destruct (broadcast_scopes (H := wholeNumbers) threeJoined "sB" "F1" "sB")
    as (HupdB & _).
  destruct (broadcast_scopes (H := wholeNumbers) threeJoined "sB" "F1" "sA")
    as (HupdA & _).
  destruct (broadcast_scopes (H := wholeNumbers) threeJoined "sB" "F1" "sD")
    as (HupdD & _).
  split; [apply (HlockA "email" "u-alice" "Alice" 9%Z); now right|].
  split; [apply (HlockB "email" "u-alice" "Alice" 9%Z); [exact MB | discriminate]|].
  split; [apply (HunlockA "email" "u-alice" 9%Z); now right|].
  split; [apply (HunlockB "email" "u-alice" 9%Z); [exact MB | discriminate]|].
  split; [apply (HtypingA "email" "Alice" true 9%Z); now right|].
  split; [apply (HtypingB "email" "Alice" true 9%Z); [exact MB | discriminate]|].
  split; [exact (proj1 (HupdB "age" (JsString "41") "u-bob" "Bob" 9%Z survey _ H1 H2 H3 H4) MB)|].
  split; [exact (proj1 (HupdA "age" (JsString "41") "u-bob" "Bob" 9%Z survey _ H1 H2 H3 H4) MA)|].
  exact (proj2 (HupdD "age" (JsString "41") "u-bob" "Bob" 9%Z survey _ H1 H2 H3 H4) MD).
Defined.

(** ** Sanitized values *)




(** ** The registry over joins, leaves and disconnects *)

Lemma joinForm_accepted (s : Server) (sid formId uid uname : string) (now : Z)
    (form : Form) :
  dbUp (db s) = true ->
  forms (db s) !! formId = Some form ->
  form_is_active form = true ->
  db (fst (joinForm s sid formId uid uname now)) = db s
  ∧ sessionsOf formId (activeSessions (fst (joinForm s sid formId uid uname now)))
    = JsMap.set sid
        {| userId := uid; userName := uname; joinedAt := now; socketId := sid |}
        (sessionsOf formId (activeSessions s)).
Proof.
  intros Hup Hform Hact. unfold joinForm. rewrite Hup, Hform, Hact. simpl.
  split; [reflexivity | apply sessionsOf_set].
Qed.

(** X2 (part of C7).  A second join of a registered socket replaces its
    session where it stands: the registered sockets are the same list, and
    the socket's session is the new one. *)
Lemma rejoin_replaces (s : Server) (sid formId uid uname : string) (now : Z)
    (form : Form) :
  dbUp (db s) = true ->
  forms (db s) !! formId = Some form ->
  form_is_active form = true ->
  In sid (registered formId s) ->
  let s' := fst (joinForm s sid formId uid uname now) in
  registered formId s' = registered formId s
  ∧ JsMap.get sid (sessionsOf formId (activeSessions s'))
    = Some {| userId := uid; userName := uname; joinedAt := now; socketId := sid |}.
Proof.
  intros Hup Hform Hact Hin s'. unfold registered, s'.
  rewrite (proj2 (joinForm_accepted s sid formId uid uname now form Hup Hform Hact)).
  split; [|apply get_set_eq].
  rewrite keys_set. unfold JsMap.has.
  destruct (JsMap.get sid (sessionsOf formId (activeSessions s))) eqn:E; [reflexivity|].
  apply get_None_keys in E. now destruct E.
Qed.

Lemma joinForm_resume_registers (s : Server) (sid formId uid uname : string) (now : Z)
    (form : Form) :
  form_is_active form = true ->
  let s' := fst (joinForm_resume s sid formId uid uname (Row form) now) in
  sessionsOf formId (activeSessions s')
  = JsMap.set sid
      {| userId := uid; userName := uname; joinedAt := now; socketId := sid |}
      (sessionsOf formId (activeSessions s))
  ∧ (registry_ok s → registry_ok s').
Proof.
  intros Hact s'. unfold s', joinForm_resume. rewrite Hact. cbn [fst activeSessions].
  split; [apply sessionsOf_set|].
  intros Hok. split; cbn [activeSessions].
  - apply NoDup_keys_set, Hok.
  - apply List.Forall_forall. intros e [-> | Hin]%In_set.
    + simpl. now apply sessions_ok_set, sessionsOf_ok.
    + exact (proj1 (List.Forall_forall _ _) (proj2 Hok) _ Hin).
Qed.

Lemma lastRegistered_app (e1 e2 : list RegistryEffect) (present : gset string) :
  lastRegistered (e1 ++ e2) present = lastRegistered e2 (lastRegistered e1 present).
Proof.
  revert present. induction e1 as [|[sid uid uname | sid] rest IH]; intros present;
    simpl; [reflexivity | apply IH | apply IH].
Qed.

Lemma lastRegistered_keeps (effects : list RegistryEffect) (present : gset string)
    (sid : string) :
  sid ∈ present -> ¬ In (Closes sid) effects -> sid ∈ lastRegistered effects present.
Proof.
  revert present. induction effects as [|[sid' uid uname | sid'] rest IH];
    intros present Hin Hno; simpl; [exact Hin| |].
  - apply IH; [set_solver|]. intros Hc. apply Hno. now right.
  - apply IH.
    + assert (sid ≠ sid') by (intros ->; apply Hno; now left). set_solver.
    + intros Hc. apply Hno. now right.
Qed.

(** X1.  The registry follows the order in which the handlers take effect.
    Over any run of registrations (a ['joinForm'] resuming with the row of
    an active form) and disconnects, no socket is registered twice and the
    registered sockets are exactly those whose latest effect is a
    registration.  So when a join resumes after the disconnect of its own
    socket, the closed socket is registered, and it stays registered however
    the run goes on without another disconnect of that socket.  A join that
    nothing overlaps is the handler run in one step. *)
Lemma registry_tracks_joins_and_disconnects (formId : string) (form : Form)
    (effects : list RegistryEffect) (s : Server) (now : Z) (present : gset string) :
  form_is_active form = true ->
  registry_ok s ->
  (∀ r, In r (registered formId s) ↔ r ∈ present) ->
  let s' := runEffects formId form s effects now in
  List.NoDup (registered formId s')
  ∧ (∀ r, In r (registered formId s') ↔ r ∈ lastRegistered effects present)
  ∧ (∀ before after sid uid uname,
       effects = (before ++ Closes sid :: Registers sid uid uname :: after)%list →
       ¬ In (Closes sid) after →
       In sid (registered formId s'))
  ∧ (∀ s0 sid uid uname now0,
       joinForm s0 sid formId uid uname now0
       = joinForm_resume s0 sid formId uid uname (formQuery (db s0) formId) now0).
Proof.
  intros Hact Hok Hp s'.
  assert (Hrun : List.NoDup (registered formId s')
                 ∧ ∀ r, In r (registered formId s') ↔ r ∈ lastRegistered effects present).
  { unfold s'. clear s'. revert s now present Hok Hp.
    induction effects as [|[sid uid uname | sid] rest IH]; intros s now present Hok Hp.
    - simpl. split; [apply (sessionsOf_ok formId s Hok) | exact Hp].
    - cbn [runEffects lastRegistered].
      destruct (joinForm_resume_registers s sid formId uid uname now form Hact)
        as [Hs Hok'].
      apply IH; [now apply Hok'|].
      intros r. unfold registered. rewrite Hs, In_keys_set.
      unfold registered in Hp. rewrite Hp. set_solver.
    - cbn [runEffects lastRegistered].
      apply IH; [now apply registry_ok_disconnect|].
      change (fst (disconnect s sid)) with (disconnectSync s sid).
      intros r. unfold registered. rewrite sessionsOf_after_disconnect, In_keys_delete.
      unfold registered in Hp. rewrite Hp. set_solver. }
  destruct Hrun as [Hnd Hreg].
  split; [exact Hnd|]. split; [exact Hreg|].
  split.
  - intros before after sid uid uname -> Hno. apply Hreg.
    rewrite lastRegistered_app. cbn [lastRegistered].
    apply lastRegistered_keeps; [set_solver | exact Hno].
  - intros s0 sid uid uname now0. unfold joinForm, joinForm_resume, formQuery.
    destruct (negb (dbUp (db s0))); [reflexivity|].
    now destruct (forms (db s0) !! formId).
Qed.

(** C7 does not hold of the code: Alice joins the survey, Bob joins, Alice
    leaves.  The spec's set of present connections is Bob's alone, while the
    registry still lists Alice's socket and her session is still in the
    snapshot, because ['leaveForm'] has no listener on the server. *)
Theorem leave_keeps_session_registered :
  let ops := [OpJoin "sA" "u-alice" "Alice"; OpJoin "sB" "u-bob" "Bob";
              OpLeave "sA" "u-alice"] in
  let s' := runRoom (H := wholeNumbers) "F1" (initial surveyDb) ops 0 in
  presentAfter ops ∅ = {["sB"]}
  ∧ registered "F1" s' = ["sA"; "sB"]
  ∧ List.map userName (snapshot "F1" s') = ["Alice"; "Bob"]
  ∧ ("sA" ∉ presentAfter ops ∅)
  ∧ In "sA" (registered "F1" s').
Proof.
  assert (Hp : presentAfter
                 [OpJoin "sA" "u-alice" "Alice"; OpJoin "sB" "u-bob" "Bob";
                  OpLeave "sA" "u-alice"] ∅ = ({["sB"]} : gset string))
    by (vm_compute; reflexivity).
  split; [exact Hp|].
  split; [reflexivity|]. split; [reflexivity|].
  split; [rewrite Hp; set_solver | now left].
Qed.

(** Alice's join registers her socket; Bob's connection closes while his
    join waits for the form query, and the join registers his socket
    afterwards; Alice disconnects.  Bob's closed socket is what is left. *)
Lemma registry_tracks_joins_and_disconnects_witness :
  let effects := [Registers "sA" "u-alice" "Alice"; Closes "sB";
                  Registers "sB" "u-bob" "Bob"; Closes "sA"] in
  form_is_active survey = true
  ∧ registry_ok (initial surveyDb)
  ∧ (∀ r, In r (registered "F1" (initial surveyDb)) ↔ r ∈ (∅ : gset string))
  ∧ List.NoDup (registered "F1" (runEffects "F1" survey (initial surveyDb) effects 0))
  ∧ In "sB" (registered "F1" (runEffects "F1" survey (initial surveyDb) effects 0))
  ∧ registered "F1" (runEffects "F1" survey (initial surveyDb) effects 0) = ["sB"].
Proof.
  intros effects.
  assert (H1 : form_is_active survey = true) by reflexivity.
  assert (H3 : registry_ok (initial surveyDb)) by closed_registry.
  assert (H6 : ∀ r, In r (registered "F1" (initial surveyDb)) ↔ r ∈ (∅ : gset string)).
  { intros r. simpl. set_solver. }
  destruct (registry_tracks_joins_and_disconnects "F1" survey effects (initial surveyDb)
              0 ∅ H1 H3 H6) as (Hnd & _ & Hghost & _).
  split; [exact H1|]. split; [exact H3|]. split; [exact H6|]. split; [exact Hnd|].
  split; [|reflexivity].
  apply (Hghost [Registers "sA" "u-alice" "Alice"] [Closes "sA"] "sB" "u-bob" "Bob");
    [reflexivity|].
  intros [Hc | []]. discriminate.
Defined.

(** Alice's socket joins the survey a second time under another name. *)
Lemma rejoin_replaces_witness :
  dbUp (db threeJoined) = true
  ∧ forms (db threeJoined) !! "F1" = Some survey
  ∧ form_is_active survey = true
  ∧ In "sA" (registered "F1" threeJoined)
  ∧ registered "F1" (fst (joinForm threeJoined "sA" "F1" "u-alice" "Alicia" 7))
    = registered "F1" threeJoined
  ∧ List.map userName (snapshot "F1" (fst (joinForm threeJoined "sA" "F1" "u-alice" "Alicia" 7)))
    = ["Alicia"; "Bob"; "Carol"].
Proof.
  assert (H1 : dbUp (db threeJoined) = true) by reflexivity.
  assert (H2 : forms (db threeJoined) !! "F1" = Some survey) by (vm_compute; reflexivity).
  assert (H3 : form_is_active survey = true) by reflexivity.
  assert (H4 : In "sA" (registered "F1" threeJoined)) by (left; reflexivity).
  destruct (rejoin_replaces threeJoined "sA" "F1" "u-alice" "Alicia" 7 survey H1 H2 H3 H4)
    as [Hreg _].
  split; [exact H1|]. split; [exact H2|]. split; [exact H3|]. split; [exact H4|].
  split; [exact Hreg | reflexivity].
Defined.

(** * Further properties of the handlers *)

(** ** Joining *)

Lemma inbox_cons (e : Emit) (outs : list Emit) (r : string) :
  inbox (e :: outs) r
  = ((if bool_decide (r ∈ recipients e) then [event e] else []) ++ inbox outs r)%list.
Proof. unfold inbox. simpl. now destruct (bool_decide _). Qed.

(** X3.  A [joinForm] for a form that is unknown or inactive, or while the
    database does not answer, changes nothing on the server (no room is
    entered, no session stored) and produces one error event, sent to the
    requesting socket only. *)
Theorem joinForm_rejected_changes_nothing (s : Server) (sid formId uid uname : string)
    (now : Z) :
  dbUp (db s) = false
  ∨ forms (db s) !! formId = None
  ∨ (∃ form, forms (db s) !! formId = Some form ∧ form_is_active form = false) ->
  let r := joinForm s sid formId uid uname now in
  fst r = s
  ∧ (∃ message, snd r = [socket_emit sid (EvError message)])
  ∧ (∀ r', r' ≠ sid → inbox (snd r) r' = []).
Proof.
  intros Hcase r.
  assert (H : ∃ message, r = (s, [socket_emit sid (EvError message)])).
  { unfold r, joinForm. destruct (dbUp (db s)) eqn:Hup; simpl; [|eauto].
    destruct Hcase as [Hd | [Hn | (form & Hf & Ha)]].
    - discriminate.
    - rewrite Hn. eauto.
    - rewrite Hf, Ha. eauto. }
  destruct H as [message ->]. simpl. split; [reflexivity|]. split; [eauto|].
  intros r' Hne. rewrite inbox_single. simpl.
  rewrite bool_decide_eq_false_2; [reflexivity | set_solver].
Qed.

(** X4.  An accepted [joinForm] stores the joiner's session under its socket
    and enters the socket into the form's room; the joiner receives
    [activeUsers] and every socket already in the room receives [userJoined],
    both carrying the room's new snapshot, which contains the joiner; sockets
    outside the room receive nothing; and every member's client then shows
    that snapshot as its list of active users. *)
Theorem joinForm_accepted_announces (s : Server) (sid formId uid uname : string)
    (now : Z) (form : Form) :
  dbUp (db s) = true ->
  forms (db s) !! formId = Some form ->
  form_is_active form = true ->
  let r := joinForm s sid formId uid uname now in
  let session := {| userId := uid; userName := uname; joinedAt := now; socketId := sid |} in
  JsMap.get sid (sessionsOf formId (activeSessions (fst r))) = Some session
  ∧ In session (snapshot formId (fst r))
  ∧ members (rooms (fst r)) (roomOf formId) = {[sid]} ∪ members (rooms s) (roomOf formId)
  ∧ inbox (snd r) sid = [EvActiveUsers (snapshot formId (fst r))]
  ∧ (∀ r', r' ≠ sid → r' ∈ members (rooms s) (roomOf formId) →
       inbox (snd r) r' = [EvUserJoined uid uname (snapshot formId (fst r))])
  ∧ (∀ r', r' ≠ sid → r' ∉ members (rooms s) (roomOf formId) → inbox (snd r) r' = [])
  ∧ (∀ r' c, r' ∈ members (rooms (fst r)) (roomOf formId) →
       activeUsers (client_run (inbox (snd r) r') c) = snapshot formId (fst r)).
Proof.
  intros Hup Hform Hact r session.
  assert (Hr : r = ({| db := db s;
                       activeSessions :=
                         JsMap.set formId
                           (JsMap.set sid session (sessionsOf formId (activeSessions s)))
                           (activeSessions s);
                       rooms := socket_join sid (roomOf formId) (rooms s) |},
                    [socket_to (socket_join sid (roomOf formId) (rooms s)) sid
                       (roomOf formId)
                       (EvUserJoined uid uname
                          (JsMap.values
                             (JsMap.set sid session (sessionsOf formId (activeSessions s)))));
                     socket_emit sid
                       (EvActiveUsers
                          (JsMap.values
                             (JsMap.set sid session
                                (sessionsOf formId (activeSessions s)))))])).
  { unfold r, joinForm. now rewrite Hup, Hform, Hact. }
  assert (Hsnap : snapshot formId (fst r)
                  = JsMap.values (JsMap.set sid session (sessionsOf formId (activeSessions s)))).
  { rewrite Hr. unfold snapshot. simpl. now rewrite sessionsOf_set. }
  assert (Hmem : members (rooms (fst r)) (roomOf formId)
                 = {[sid]} ∪ members (rooms s) (roomOf formId)).
  { rewrite Hr. simpl. rewrite members_socket_join. now rewrite decide_True. }
  assert (Hin : ∀ r', inbox (snd r) r'
                      = if bool_decide (r' = sid) then [EvActiveUsers (snapshot formId (fst r))]
                        else if bool_decide (r' ∈ members (rooms s) (roomOf formId))
                             then [EvUserJoined uid uname (snapshot formId (fst r))]
                             else []).
  { intros r'. rewrite Hsnap, Hr. cbn [snd]. rewrite inbox_cons, inbox_single.
    cbn [recipients event socket_to socket_emit].
    rewrite members_socket_join, decide_True by reflexivity.
    destruct (bool_decide (r' = sid)) eqn:E1.
    - apply bool_decide_eq_true in E1. subst r'.
      rewrite bool_decide_eq_false_2 by set_solver.
      now rewrite bool_decide_eq_true_2 by set_solver.
    - apply bool_decide_eq_false in E1.
      rewrite (bool_decide_eq_false_2 (r' ∈ ({[sid]} : gset string))) by set_solver.
      destruct (bool_decide (r' ∈ members (rooms s) (roomOf formId))) eqn:E2.
      + apply bool_decide_eq_true in E2.
        now rewrite bool_decide_eq_true_2 by set_solver.
      + apply bool_decide_eq_false in E2.
        now rewrite bool_decide_eq_false_2 by set_solver. }
  split.
  { rewrite Hr. simpl. rewrite sessionsOf_set. apply get_set_eq. }
  split.
  { rewrite Hsnap. apply List.in_map_iff. exists (sid, session).
    split; [reflexivity | apply get_Some_In, get_set_eq]. }
  split; [exact Hmem|].
  split; [now rewrite Hin, bool_decide_eq_true_2|].
  split.
  { intros r' Hne Hr'. rewrite Hin, bool_decide_eq_false_2 by assumption.
    now rewrite bool_decide_eq_true_2. }
  split.
  { intros r' Hne Hr'. rewrite Hin, bool_decide_eq_false_2 by assumption.
    now rewrite bool_decide_eq_false_2. }
  intros r' c Hr'. rewrite Hin. rewrite Hmem in Hr'.
  destruct (bool_decide (r' = sid)) eqn:E1; [reflexivity|].
  apply bool_decide_eq_false in E1.
  rewrite bool_decide_eq_true_2 by set_solver. reflexivity.
Qed.

(** X5.  Joining never removes anything: the database is untouched, every
    socket registered for any form stays registered with the same session
    unless it is the joiner's own entry for the joined form, and every room
    keeps its members.  So a socket that joins a second form stays in the
    first. *)
Theorem joinForm_leaves_no_room (s : Server) (sid formId uid uname : string) (now : Z) :
  let s' := fst (joinForm s sid formId uid uname now) in
  db s' = db s
  ∧ (∀ formId' r, In r (registered formId' s) → In r (registered formId' s'))
  ∧ (∀ formId' r v, formId' ≠ formId ∨ r ≠ sid →
       JsMap.get r (sessionsOf formId' (activeSessions s)) = Some v →
       JsMap.get r (sessionsOf formId' (activeSessions s')) = Some v)
  ∧ (∀ room r, r ∈ members (rooms s) room → r ∈ members (rooms s') room).
Proof.
  unfold joinForm.
  destruct (negb (dbUp (db s))); [now repeat split|].
  destruct (forms (db s) !! formId) as [form|]; [|now repeat split].
  destruct (form_is_active form); [|now repeat split].
  cbn [fst db activeSessions rooms]. split; [reflexivity|]. split; [|split].
  - intros formId' r Hin. unfold registered in *. cbn [activeSessions].
    destruct (String.eqb_spec formId formId') as [<- | Hf].
    + rewrite sessionsOf_set. apply In_keys_set. now right.
    + now rewrite sessionsOf_set_ne.
  - intros formId' r v Hcase Hget.
    destruct (String.eqb_spec formId formId') as [<- | Hf].
    + rewrite sessionsOf_set. rewrite get_set_ne; [exact Hget|].
      destruct Hcase as [Hc | Hc]; congruence.
    + now rewrite sessionsOf_set_ne.
  - intros room r Hr. rewrite members_socket_join.
    destruct (decide (roomOf formId = room)) as [<- | _]; [set_solver | exact Hr].
Qed.

(** Dave asks to join a form that does not exist. *)
Lemma joinForm_rejected_changes_nothing_witness :
  (dbUp (db threeJoined) = false
   ∨ forms (db threeJoined) !! "F9" = None
   ∨ (∃ form, forms (db threeJoined) !! "F9" = Some form ∧ form_is_active form = false))
  ∧ fst (joinForm threeJoined "sD" "F9" "u-dave" "Dave" 5) = threeJoined
  ∧ inbox (snd (joinForm threeJoined "sD" "F9" "u-dave" "Dave" 5)) "sA" = [].
Proof.
  assert (H : dbUp (db threeJoined) = false
              ∨ forms (db threeJoined) !! "F9" = None
              ∨ (∃ form, forms (db threeJoined) !! "F9" = Some form
                         ∧ form_is_active form = false))
    by (right; left; vm_compute; reflexivity).
  destruct (joinForm_rejected_changes_nothing threeJoined "sD" "F9" "u-dave" "Dave" 5 H)
    as (Hst & _ & Hothers).
  split; [exact H|]. split; [exact Hst|].
  apply Hothers. discriminate.
Defined.

(** Dave joins the survey that Alice, Bob and Carol are in. *)
Lemma joinForm_accepted_announces_witness :
  dbUp (db threeJoined) = true
  ∧ forms (db threeJoined) !! "F1" = Some survey
  ∧ form_is_active survey = true
  ∧ List.map userName (snapshot "F1" (fst (joinForm threeJoined "sD" "F1" "u-dave" "Dave" 5)))
    = ["Alice"; "Bob"; "Carol"; "Dave"]
  ∧ inbox (snd (joinForm threeJoined "sD" "F1" "u-dave" "Dave" 5)) "sA"
    = [EvUserJoined "u-dave" "Dave"
         (snapshot "F1" (fst (joinForm threeJoined "sD" "F1" "u-dave" "Dave" 5)))].
Proof.
  assert (H1 : dbUp (db threeJoined) = true) by reflexivity.
  assert (H2 : forms (db threeJoined) !! "F1" = Some survey) by (vm_compute; reflexivity).
  assert (H3 : form_is_active survey = true) by reflexivity.
  assert (MA : "sA" ∈ members (rooms threeJoined) (roomOf "F1")) by closed_member.
  destruct (joinForm_accepted_announces threeJoined "sD" "F1" "u-dave" "Dave" 5 survey
              H1 H2 H3) as (_ & _ & _ & _ & Hothers & _).
  split; [exact H1|]. split; [exact H2|]. split; [exact H3|].
  split; [reflexivity|].
  apply Hothers; [discriminate | exact MA].
Defined.

(** ** Updating *)

(** X6.  An accepted [updateField] writes one answer and nothing else: the
    sanitized value is stored under the field's id (for the id [__proto__]
    only when the row has that key already; otherwise no answer is
    written); the form definitions and the responses of other forms are
    untouched; in the form's response every other answer is as before, the
    time stamp is the current one, the updater is among the contributors,
    earlier contributors stay, and no name is listed twice if none was. *)
Theorem updateField_keeps_other_answers `{JsRuntime} (s : Server)
    (sid formId fieldId : string) (value : JsValue) (uid uname : string) (now : Z)
    (form : Form) (field : Field) :
  dbUp (db s) = true ->
  forms (db s) !! formId = Some form ->
  form_is_active form = true ->
  List.find (fun f => String.eqb (field_id f) fieldId) (form_fields form) = Some field ->
  let s' := fst (updateField s sid formId fieldId value uid uname now) in
  let old := form_responses (db s) !! formId in
  let answers := default ∅ (data <$> old) in
  forms (db s') = forms (db s)
  ∧ (∀ formId', formId' ≠ formId →
       form_responses (db s') !! formId' = form_responses (db s) !! formId')
  ∧ ∃ resp, form_responses (db s') !! formId = Some resp
            ∧ last_updated resp = now
            ∧ (fieldId ≠ "__proto__" ∨ is_Some (answers !! fieldId) →
               data resp !! fieldId = Some (sanitizeValue (field_type field) value))
            ∧ (fieldId = "__proto__" → answers !! fieldId = None → data resp = answers)
            ∧ (∀ f, f ≠ fieldId → data resp !! f = answers !! f)
            ∧ In uname (contributors resp)
            ∧ (∀ n, In n (default [] (contributors <$> old)) → In n (contributors resp))
            ∧ (List.NoDup (default [] (contributors <$> old)) →
               List.NoDup (contributors resp))
            ∧ (In uname (default [] (contributors <$> old)) →
               contributors resp = default [] (contributors <$> old)).
Proof.
  intros Hup Hform Hact Hfield s' old answers. unfold s'.
  rewrite (updateField_accepted _ _ _ _ _ _ _ _ form field) by assumption.
  cbn [fst with_db db forms form_responses].
  split; [reflexivity|].
  split; [intros formId' Hne; now apply lookup_insert_ne|].
  eexists. split; [apply lookup_insert_eq|].
  split; [apply storeValue_time|].
  rewrite storeValue_answers. fold old. fold answers.
  split; [apply assignString_stored|].
  split; [intros -> Hnone; now apply assignString_ignored|].
  split; [intros f Hf; now apply assignString_other|].
  destruct old as [r|]; cbn [storeValue contributors fmap option_fmap option_map default].
  - apply addContributor_spec.
  - split; [now left|]. split; [intros n []|].
    split; [intros _; repeat constructor; simpl; tauto | intros []].
Qed.

(** X7.  [updateField] is all or nothing.  Either it changes no state and
    sends one error event to the requesting socket alone, or the database
    answers, the form is active and has the field, and one [fieldUpdated]
    carrying the sanitized value goes to the form's room. *)
Theorem updateField_all_or_nothing `{JsRuntime} (s : Server) (sid formId fieldId : string)
    (value : JsValue) (uid uname : string) (now : Z) :
  let r := updateField s sid formId fieldId value uid uname now in
  (∃ message, r = (s, [socket_emit sid (EvError message)]))
  ∨ (∃ form field,
       dbUp (db s) = true
       ∧ forms (db s) !! formId = Some form
       ∧ form_is_active form = true
       ∧ List.find (fun f => String.eqb (field_id f) fieldId) (form_fields form)
         = Some field
       ∧ snd r = [io_to (rooms s) (roomOf formId)
                    (EvFieldUpdated fieldId (field_label field)
                       (sanitizeValue (field_type field) value) uname now)]).
Proof.
  intros r. unfold r.
  destruct (dbUp (db s)) eqn:Hup.
  2:{ left. unfold updateField. rewrite Hup. simpl. eauto. }
  destruct (forms (db s) !! formId) as [form|] eqn:Hform.
  2:{ left. unfold updateField. rewrite Hup, Hform. simpl. eauto. }
  destruct (form_is_active form) eqn:Hact.
  2:{ left. unfold updateField. rewrite Hup, Hform, Hact. simpl. eauto. }
  destruct (List.find (fun f => String.eqb (field_id f) fieldId) (form_fields form))
    as [field|] eqn:Hfield.
  2:{ left. unfold updateField. rewrite Hup, Hform, Hact, Hfield. simpl. eauto. }
  right. exists form, field.
  rewrite (updateField_accepted _ _ _ _ _ _ _ _ form field) by assumption.
  now repeat split.
Qed.

(** X8.  After an accepted [updateField] every member of the room, the
    sender included, has the sanitized value in its copy of the response
    under the field's id and the server's time stamp under [lastUpdated],
    shows the saved message, and keeps its other answers; a client outside
    the room is unchanged.  A field whose id is [lastUpdated] shares its key
    with the time stamp, so its answer is not shown. *)
Theorem fieldUpdated_reaches_every_member `{JsRuntime} (w : World)
    (sid formId fieldId : string) (value : JsValue) (uid uname : string) (now : Z)
    (form : Form) (field : Field) (r : string) (c : Client) :
  dbUp (db (server w)) = true ->
  forms (db (server w)) !! formId = Some form ->
  form_is_active form = true ->
  List.find (fun f => String.eqb (field_id f) fieldId) (form_fields form) = Some field ->
  clients w !! r = Some c ->
  let w' := world_step w sid (UpdateField formId fieldId value uid uname) now in
  let v := sanitizeValue (field_type field) value in
  ∃ c', clients w' !! r = Some c'
        ∧ (r ∈ members (rooms (server w)) (roomOf formId) →
             formResponse c' !! "lastUpdated" = Some (Stamp now)
             ∧ (fieldId ≠ "lastUpdated" → formResponse c' !! fieldId = Some (Answer v))
             ∧ (∀ k, k ≠ fieldId → k ≠ "lastUpdated" →
                  formResponse c' !! k = formResponse c !! k)
             ∧ showSavedMessage c' = true
             ∧ lockedFields c' = lockedFields c)
        ∧ (r ∉ members (rooms (server w)) (roomOf formId) → c' = c).
Proof.
  intros Hup Hform Hact Hfield Hc w' v. unfold w'.
  rewrite lookup_world_step, Hc. cbn [server_on].
  rewrite (updateField_accepted _ _ _ _ _ _ _ _ form field) by assumption.
  cbn [snd fmap option_fmap option_map]. eexists. split; [reflexivity|].
  rewrite inbox_single. cbn [recipients event io_to].
  split.
  - intros Hr. rewrite bool_decide_eq_true_2 by assumption.
    cbn [client_run fold_left client_on formResponse showSavedMessage lockedFields].
    split; [apply lookup_insert_eq|].
    split.
    + intros Hne. rewrite lookup_insert_ne by congruence. apply lookup_insert_eq.
    + split; [|now split].
      intros k Hk1 Hk2. now rewrite !lookup_insert_ne by congruence.
  - intros Hr. now rewrite bool_decide_eq_false_2 by assumption.
Qed.

(** Alice answers the e-mail field after Bob has answered the age field. *)
Lemma updateField_keeps_other_answers_witness :
  dbUp (db afterBobAge) = true
  ∧ forms (db afterBobAge) !! "F1" = Some survey
  ∧ form_is_active survey = true
  ∧ List.find (fun f => String.eqb (field_id f) "email") (form_fields survey)
    = List.head surveyFields
  ∧ ∃ resp,
      form_responses
        (db (fst (updateField (H := wholeNumbers) afterBobAge "sA" "F1" "email"
                    (JsString "A@x.org") "u-alice" "Alice" 10))) !! "F1" = Some resp
      ∧ data resp !! "email" = Some "a@x.org"
      ∧ data resp !! "age" = Some "41"
      ∧ In "Bob" (contributors resp)
      ∧ In "Alice" (contributors resp).
Proof.
  assert (H1 : dbUp (db afterBobAge) = true) by reflexivity.
  assert (H2 : forms (db afterBobAge) !! "F1" = Some survey) by (vm_compute; reflexivity).
  assert (H3 : form_is_active survey = true) by reflexivity.
  assert (H4 : List.find (fun f => String.eqb (field_id f) "email") (form_fields survey)
               = Some {| field_id := "email"; field_label := "Email";
                         field_type := "email"; field_options := None |})
    by reflexivity.
  destruct (updateField_keeps_other_answers (H := wholeNumbers) afterBobAge "sA" "F1"
              "email" (JsString "A@x.org") "u-alice" "Alice" 10 survey _ H1 H2 H3 H4)
    as (_ & _ & resp & Hresp & _ & Hmine & _ & Hdata & Hme & Hold & _).
  split; [exact H1|]. split; [exact H2|]. split; [exact H3|]. split; [exact H4|].
  exists resp. split; [exact Hresp|].
  split; [apply Hmine; left; discriminate|].
  split; [rewrite Hdata by discriminate; vm_compute; reflexivity|].
  split; [apply Hold; vm_compute; now left | exact Hme].
Defined.

(** Bob answers the e-mail field; Alice's client shows the stored form. *)
Lemma fieldUpdated_reaches_every_member_witness :
  dbUp (db (server unlockedWorld)) = true
  ∧ forms (db (server unlockedWorld)) !! "F1" = Some survey
  ∧ form_is_active survey = true
  ∧ List.find (fun f => String.eqb (field_id f) "email") (form_fields survey)
    = List.head surveyFields
  ∧ clients unlockedWorld !! "sA" = Some freshClient
  ∧ ∃ c', clients (world_step (H := wholeNumbers) unlockedWorld "sB"
                     (UpdateField "F1" "email" (JsString " Bob@X.org ") "u-bob" "Bob") 9)
          !! "sA" = Some c'
          ∧ formResponse c' !! "email" = Some (Answer "bob@x.org").
Proof.
  assert (H1 : dbUp (db (server unlockedWorld)) = true) by reflexivity.
  assert (H2 : forms (db (server unlockedWorld)) !! "F1" = Some survey)
    by (vm_compute; reflexivity).
  assert (H3 : form_is_active survey = true) by reflexivity.
  assert (H4 : List.find (fun f => String.eqb (field_id f) "email") (form_fields survey)
               = Some {| field_id := "email"; field_label := "Email";
                         field_type := "email"; field_options := None |})
    by reflexivity.
  assert (H5 : clients unlockedWorld !! "sA" = Some freshClient)
    by (vm_compute; reflexivity).
  assert (MA : "sA" ∈ members (rooms (server unlockedWorld)) (roomOf "F1"))
    by closed_member.
  destruct (fieldUpdated_reaches_every_member (H := wholeNumbers) unlockedWorld "sB"
              "F1" "email" (JsString " Bob@X.org ") "u-bob" "Bob" 9 survey _ "sA"
              freshClient H1 H2 H3 H4 H5) as (c' & Hc' & Hmember & _).
  destruct (Hmember MA) as (_ & Hanswer & _).
  split; [exact H1|]. split; [exact H2|]. split; [exact H3|]. split; [exact H4|].
  split; [exact H5|].
  exists c'. split; [exact Hc'|]. apply Hanswer. discriminate.
Defined.

(** ** Sanitizing twice *)

Lemma toLowerCase_fixed (s : string) :
  JsString.all_chars (fun c => negb (JsString.isUpper c)) s = true ->
  JsString.toLowerCase s = s.
Proof.
  induction s as [|c r IH]; simpl; [reflexivity|].
  intros [Hc Hr]%andb_prop. rewrite (IH Hr). unfold JsString.lowerChar.
  apply negb_true_iff in Hc. now rewrite Hc.
Qed.

(** X9.  For every field type but [number], sanitizing is idempotent: a value
    that comes out of [sanitizeValue] is left as it is when it is submitted
    again for a field of the same type. *)
Theorem sanitizeValue_idempotent `{JsRuntime} (type : string) (value : JsValue) :
  type ≠ "number" ->
  sanitizeValue type (JsString (sanitizeValue type value)) = sanitizeValue type value.
Proof.
  intros Hn. apply String.eqb_neq in Hn. unfold sanitizeValue. rewrite Hn.
  destruct (String.eqb type "email").
  - cbn [ToString]. rewrite toLowerCase_fixed; [apply trim_idem|].
    apply trimEnd_all_chars, trimStart_all_chars, toLowerCase_no_upper.
  - destruct (String.eqb type "checkbox").
    + now destruct (strictEqString value "true").
    + cbn [ToString]. apply substring0_short, substring0_length.
Qed.

(** An e-mail address with capitals and blanks around it. *)
Lemma sanitizeValue_idempotent_witness :
  "email" ≠ "number"
  ∧ sanitizeValue (H := wholeNumbers) "email" (JsString " Bob@X.org ") = "bob@x.org"
  ∧ sanitizeValue (H := wholeNumbers) "email" (JsString "bob@x.org") = "bob@x.org".
Proof.
  assert (H0 : "email" ≠ "number") by discriminate.
  assert (H1 : sanitizeValue (H := wholeNumbers) "email" (JsString " Bob@X.org ")
               = "bob@x.org") by reflexivity.
  pose proof (sanitizeValue_idempotent (H := wholeNumbers) "email"
                (JsString " Bob@X.org ") H0) as H2.
  rewrite H1 in H2.
  exact (conj H0 (conj H1 H2)).
Defined.

(** ** Focus and blur *)

(** X10.  Focus followed by blur.  When a member takes the lock on a field,
    the field's input is disabled on every other member's client unless the
    viewer has the holder's own user id and is no administrator.  When the
    member then releases it, the client's lock table is the one it had
    before, minus whatever entry it had for that field, and the input is
    enabled for a viewer who is no administrator, unless the field's id is
    the name of a member of [Object.prototype], which reads as a lock.  For
    an administrator the input is disabled throughout.  Typing marks and
    answers are not touched. *)
Theorem lock_then_unlock_round_trip (s : Server) (sid formId fieldId uid uname : string)
    (r : string) (c : Client) (user : User) :
  r ∈ members (rooms s) (roomOf formId) ->
  r ≠ sid ->
  let locked :=
    client_run (inbox (snd (lockField s sid formId fieldId uid uname)) r) c in
  let released :=
    client_run (inbox (snd (unlockField s sid formId fieldId uid)) r) locked in
  let admin := String.eqb (user_role user) "admin" in
  disabled user locked fieldId = negb (String.eqb uid (user_id user)) || admin
  ∧ disabled user released fieldId
    = existsb (String.eqb fieldId) objectPrototypeKeys || admin
  ∧ (user_role user ≠ "admin" → ¬ In fieldId objectPrototypeKeys →
     disabled user released fieldId = false)
  ∧ (In fieldId objectPrototypeKeys → disabled user released fieldId = true)
  ∧ (user_role user = "admin" →
     disabled user locked fieldId = true ∧ disabled user released fieldId = true)
  ∧ lockedFields locked !! fieldId = Some {| lockedBy := uname; lock_userId := uid |}
  ∧ lockedFields released = delete fieldId (lockedFields c)
  ∧ (lockedFields c !! fieldId = None → lockedFields released = lockedFields c)
  ∧ typingUsers released = typingUsers c
  ∧ formResponse released = formResponse c.
Proof.
  intros Hr Hne locked released admin. subst released locked.
  cbn [lockField unlockField snd].
  rewrite !inbox_socket_to_other by assumption.
  unfold disabled, isLocked, client_run.
  cbn [fold_left client_on setLockedFields lockedFields typingUsers formResponse].
  rewrite lookup_insert_eq, lookup_delete_eq. cbn [lock_userId].
  rewrite delete_insert_eq. fold admin.
  split; [reflexivity|]. split; [reflexivity|].
  split.
  { intros Hrole Hkey. apply String.eqb_neq in Hrole. unfold admin. rewrite Hrole.
    rewrite orb_false_r. apply not_true_is_false. intros Hex.
    now apply existsb_eqb_In in Hex. }
  split.
  { intros Hkey. apply existsb_eqb_In in Hkey. now rewrite Hkey. }
  split.
  { intros Hrole. unfold admin. rewrite Hrole. cbn [String.eqb Ascii.eqb Bool.eqb].
    now rewrite !orb_true_r. }
  split; [reflexivity|]. split; [reflexivity|].
  split; [apply delete_id | now split].
Qed.

(** Alice focuses and leaves the e-mail field; Carol watches.  On a field
    named [constructor] the input would stay disabled. *)
Lemma lock_then_unlock_round_trip_witness :
  let carol := {| user_id := "u-carol"; user_name := "Carol"; user_role := "user" |} in
  let released (fieldId : string) :=
    client_run (inbox (snd (unlockField threeJoined "sA" "F1" fieldId "u-alice")) "sC")
      (client_run
         (inbox (snd (lockField threeJoined "sA" "F1" fieldId "u-alice" "Alice")) "sC")
         freshClient) in
  ("sC" ∈ members (rooms threeJoined) (roomOf "F1"))
  ∧ "sC" ≠ "sA"
  ∧ disabled carol carolSeesAlice "email" = true
  ∧ disabled carol (released "email") "email" = false
  ∧ lockedFields (released "email") = lockedFields freshClient
  ∧ disabled carol (released "constructor") "constructor" = true.
Proof.
  intros carol released.
  assert (H1 : "sC" ∈ members (rooms threeJoined) (roomOf "F1")) by closed_member.
  assert (H2 : "sC" ≠ "sA") by discriminate.
  destruct (lock_then_unlock_round_trip threeJoined "sA" "F1" "email" "u-alice" "Alice"
              "sC" freshClient carol H1 H2) as (Hl & _ & Hfree & _ & _ & _ & _ & Hback & _).
  destruct (lock_then_unlock_round_trip threeJoined "sA" "F1" "constructor" "u-alice"
              "Alice" "sC" freshClient carol H1 H2) as (_ & _ & _ & Hproto & _).
  split; [exact H1|]. split; [exact H2|]. split; [exact Hl|].
  split.
  { apply Hfree; [discriminate|]. simpl. intuition discriminate. }
  split; [apply Hback; reflexivity|].
  apply Hproto. simpl. tauto.
Defined.

(** ** Disconnecting, exactly *)

Section MoreJsMapFacts.
Context {V : Type}.

Lemma entry_get (k : string) (v : V) (m : list (string * V)) :
  List.NoDup (JsMap.keys m) -> In (k, v) m -> JsMap.get k m = Some v.
Proof.
  induction m as [|[k' v'] r IH]; simpl; [tauto|].
  intros Hnd [Heq | Hin].
  - injection Heq as -> ->. now rewrite String.eqb_refl.
  - apply List.NoDup_cons_iff in Hnd as [Hk Hnd].
    destruct (String.eqb k' k) eqn:E; [|now apply IH].
    apply String.eqb_eq in E. subst k'. exfalso. apply Hk.
    apply List.in_map_iff. now exists (k, v).
Qed.

Lemma delete_absent (k : string) (m : list (string * V)) :
  ¬ In k (JsMap.keys m) -> JsMap.delete k m = m.
Proof.
  induction m as [|[k' v'] r IH]; simpl; [reflexivity|].
  intros Hn. destruct (String.eqb_spec k' k) as [-> | Hne]; simpl.
  - exfalso. apply Hn. now left.
  - f_equal. apply IH. tauto.
Qed.
End MoreJsMapFacts.

Lemma departures_absent (sid : string) (act : list (string * list (string * Session))) :
  (∀ e, In e act → ¬ In sid (JsMap.keys (snd e))) -> departures sid act = [].
Proof.
  unfold departures. induction act as [|e rest IH]; intros Hentry; [reflexivity|].
  cbn [List.flat_map].
  rewrite (proj2 (get_None_keys sid (snd e))) by (apply Hentry; now left).
  apply IH. intros e' He'. apply Hentry. now right.
Qed.

(** X11.  The ['disconnect'] handler removes the closing socket's own
    sessions and nothing else: in every room the registered sockets are the
    former ones without it, in the same order, and every other socket keeps
    its session; the database is untouched; two events are emitted per room
    the socket was registered in.  A socket registered nowhere leaves the
    registry as it is and makes the server emit nothing. *)
Theorem disconnect_removes_only_own_sessions (s : Server) (sid : string) :
  registry_ok s ->
  (∀ formId, registered formId (disconnectSync s sid)
             = List.filter (fun k => negb (String.eqb k sid)) (registered formId s))
  ∧ (∀ formId sid' v, sid' ≠ sid →
       JsMap.get sid' (sessionsOf formId (activeSessions s)) = Some v →
       JsMap.get sid' (sessionsOf formId (activeSessions (disconnectSync s sid))) = Some v)
  ∧ db (fst (disconnect s sid)) = db s
  ∧ List.length (snd (disconnect s sid))
    = 2 * List.length (departures sid (activeSessions s))
  ∧ ((∀ formId, ¬ In sid (registered formId s)) →
     snd (disconnect s sid) = []
     ∧ activeSessions (fst (disconnect s sid)) = activeSessions s).
Proof.
  intros [Hnd Hall].
  split.
  { intros formId. unfold registered. rewrite sessionsOf_after_disconnect.
    apply keys_delete. }
  split.
  { intros formId sid' v Hne Hget. rewrite sessionsOf_after_disconnect.
    rewrite get_delete_ne by congruence. exact Hget. }
  split; [reflexivity|].
  split.
  { cbn [disconnect snd].
    induction (departures sid (activeSessions s)) as [|d rest IH]; [reflexivity|].
    cbn [List.flat_map]. rewrite List.length_app, IH. simpl. lia. }
  intros Habsent.
  assert (Hentry : ∀ e, In e (activeSessions s) → ¬ In sid (JsMap.keys (snd e))).
  { intros [formId m] Hin. specialize (Habsent formId).
    unfold registered, sessionsOf in Habsent.
    now rewrite (entry_get _ _ _ Hnd Hin) in Habsent. }
  split.
  - cbn [disconnect snd]. now rewrite (departures_absent _ _ Hentry).
  - cbn [disconnect fst disconnectSync activeSessions].
    revert Hentry. generalize (activeSessions s). intros act.
    induction act as [|[k m] rest IH]; intros Hentry; [reflexivity|].
    cbn [List.map fst snd]. rewrite delete_absent.
    + f_equal. apply IH. intros e' He'. apply Hentry. now right.
    + apply (Hentry (k, m)). now left.
Qed.

(** A socket that never joined closes. *)
Lemma disconnect_removes_only_own_sessions_witness :
  registry_ok threeJoined
  ∧ registered "F1" (disconnectSync threeJoined "sB") = ["sA"; "sC"]
  ∧ snd (disconnect threeJoined "sZ") = [].
Proof.
  assert (Hok : registry_ok threeJoined) by closed_registry.
  destruct (disconnect_removes_only_own_sessions threeJoined "sB" Hok) as (Hreg & _).
  destruct (disconnect_removes_only_own_sessions threeJoined "sZ" Hok)
    as (_ & _ & _ & _ & Hsilent).
  split; [exact Hok|].
  split; [rewrite Hreg; reflexivity|].
  apply Hsilent. intros formId. unfold registered, sessionsOf.
  change (activeSessions threeJoined)
    with [("F1", sessionsOf "F1" (activeSessions threeJoined))].
  cbn [JsMap.get]. destruct (String.eqb "F1" formId); vm_compute; intuition discriminate.
Defined.

(** ** Leaving by the button *)

(** X12.  Pressing Back / Logout resets the client (no form open, no answers,
    no active users, no locks, no typing marks) and changes nothing on the
    server, which has no listener for ['leaveForm']; the other clients are
    not told.  The socket is still a member of the room, so a later
    [lockField] of another member is still delivered to the client that left
    and recorded in its lock table, although it has no form open. *)
Theorem leave_does_not_stop_delivery `{JsRuntime} (w : World) (sid formId uid : string)
    (now : Z) (c : Client) :
  clients w !! sid = Some c ->
  let w' := world_leave w sid formId uid now in
  server w' = server w
  ∧ clients w' !! sid = Some (leaveClicked c)
  ∧ (∀ r, r ≠ sid → clients w' !! r = clients w !! r)
  ∧ ∀ sid' fieldId uid' uname' now',
      sid' ≠ sid → sid ∈ members (rooms (server w)) (roomOf formId) →
      ∃ c', clients (world_step w' sid' (LockField formId fieldId uid' uname') now') !! sid
            = Some c'
            ∧ currentForm c' = None
            ∧ activeUsers c' = []
            ∧ lockedFields c' = {[fieldId := {| lockedBy := uname'; lock_userId := uid' |}]}.
Proof.
  intros Hc w'.
  assert (Hstep : ∀ r, clients (world_step w sid (LeaveForm formId uid) now) !! r
                       = clients w !! r).
  { intros r. rewrite lookup_world_step. cbn [server_on snd].
    destruct (clients w !! r); reflexivity. }
  assert (Hsid : clients w' !! sid = Some (leaveClicked c)).
  { unfold w', world_leave. cbn [clients]. rewrite lookup_alter_eq, Hstep, Hc.
    reflexivity. }
  split; [reflexivity|]. split; [exact Hsid|].
  split.
  { intros r Hne. unfold w', world_leave. cbn [clients].
    rewrite lookup_alter_ne by congruence. apply Hstep. }
  intros sid' fieldId uid' uname' now' Hne Hmem.
  rewrite lookup_world_step, Hsid. cbn [server_on lockField snd].
  change (server w') with (server w).
  rewrite inbox_socket_to_other by (assumption || congruence).
  eexists. split; [reflexivity|].
  unfold client_run. simpl. split; [reflexivity|]. split; [reflexivity|].
  apply insert_empty.
Qed.

(** Alice presses Back; Bob then focuses the e-mail field. *)
Lemma leave_does_not_stop_delivery_witness :
  clients unlockedWorld !! "sA" = Some freshClient
  ∧ In "sA" (registered "F1"
               (server (world_leave (H := wholeNumbers) unlockedWorld "sA" "F1" "u-alice" 6)))
  ∧ ∃ c', clients
            (world_step (H := wholeNumbers)
               (world_leave (H := wholeNumbers) unlockedWorld "sA" "F1" "u-alice" 6)
               "sB" (LockField "F1" "email" "u-bob" "Bob") 7) !! "sA" = Some c'
          ∧ currentForm c' = None
          ∧ lockedFields c' !! "email" = Some {| lockedBy := "Bob"; lock_userId := "u-bob" |}.
Proof.
  assert (H1 : clients unlockedWorld !! "sA" = Some freshClient)
    by (vm_compute; reflexivity).
  assert (MA : "sA" ∈ members (rooms (server unlockedWorld)) (roomOf "F1"))
    by closed_member.
  destruct (leave_does_not_stop_delivery (H := wholeNumbers) unlockedWorld "sA" "F1"
              "u-alice" 6 freshClient H1) as (Hsrv & _ & _ & Hlater).
  assert (Hne : "sB" ≠ "sA") by discriminate.
  destruct (Hlater "sB" "email" "u-bob" "Bob" 7%Z Hne MA) as (c' & Hc' & Hform & _ & Hlocks).
  split; [exact H1|].
  split; [rewrite Hsrv; left; reflexivity|].
  exists c'. split; [exact Hc'|]. split; [exact Hform|].
  rewrite Hlocks. apply lookup_singleton_eq.
Defined.

(** ** Saving a schema *)

Lemma cleanData_lookup (fs : list Field) (d : gmap string string) (k : string) :
  cleanData fs d !! k
  = if existsb (String.eqb k) (List.map field_id fs) && negb (String.eqb k "__proto__")
    then d !! k else None.
Proof.
  unfold cleanData. revert k.
  apply (map_fold_weak_ind
           (fun cleaned (m : gmap string string) =>
              ∀ k, cleaned !! k
                   = if existsb (String.eqb k) (List.map field_id fs)
                        && negb (String.eqb k "__proto__")
                     then m !! k else None)).
  - intros k. rewrite !lookup_empty. now destruct (_ && _).
  - intros i x m cleaned Hfresh IH k.
    destruct (String.eqb_spec k i) as [-> | Hne].
    + rewrite lookup_insert_eq.
      destruct (existsb (String.eqb i) (List.map field_id fs)) eqn:E; cbn [andb].
      * pose proof (IH i) as Hi. rewrite E, Hfresh in Hi. cbn [andb] in Hi.
        assert (Hnone : cleaned !! i = None) by (now destruct (negb _)).
        unfold assignString. rewrite Hnone.
        destruct (String.eqb i "__proto__"); cbn [negb];
          [exact Hnone | apply lookup_insert_eq].
      * rewrite IH, E. reflexivity.
    + rewrite lookup_insert_ne by congruence.
      destruct (existsb (String.eqb i) (List.map field_id fs));
        [rewrite assignString_other by assumption|]; apply IH.
Qed.

(** X13.  Only the owner of an existing form can change its schema: a
    request without an admin id, for an unknown form, by another admin, or
    while the database does not answer leaves the server state as it is, is
    answered with 400, 404, 403 or 500, and tells no client. *)
Theorem putFormFields_only_owner (s : Server) (formId : string)
    (fields : option (list Field)) (adminId : string) (now : Z) :
  adminId = ""
  ∨ dbUp (db s) = false
  ∨ forms (db s) !! formId = None
  ∨ (∃ form, forms (db s) !! formId = Some form ∧ form_admin_id form ≠ adminId) ->
  let r := putFormFields s formId fields adminId now in
  fst (fst r) = s
  ∧ snd r = []
  ∧ (snd (fst r) = 400 ∨ snd (fst r) = 404 ∨ snd (fst r) = 403 ∨ snd (fst r) = 500).
Proof.
  intros Hcase r. unfold r, putFormFields.
  destruct (String.eqb_spec adminId "") as [-> | Hadm]; [simpl; tauto|].
  destruct (dbUp (db s)) eqn:Hup; simpl; [|tauto].
  destruct (forms (db s) !! formId) as [form|] eqn:Hform; [|simpl; tauto].
  destruct (String.eqb_spec (form_admin_id form) adminId) as [Hown | Hown];
    simpl; [|tauto].
  exfalso. destruct Hcase as [H | [H | [H | (form' & Hf & Hne)]]]; try congruence.
Qed.

Lemma putFormFields_invalid (s : Server) (formId : string) (fs : list Field)
    (adminId : string) (now : Z) (form : Form) :
  adminId ≠ "" ->
  dbUp (db s) = true ->
  forms (db s) !! formId = Some form ->
  form_admin_id form = adminId ->
  forallb validateField fs = false ->
  putFormFields s formId (Some fs) adminId now = (s, 400, []).
Proof.
  intros Hadm Hup Hform Hown Hall.
  unfold putFormFields. apply String.eqb_neq in Hadm.
  rewrite Hadm, Hup, Hform, Hown, String.eqb_refl.
  change (default [] (Some fs)) with fs. cbn [negb].
  now rewrite Hall.
Qed.

Lemma forallb_false_In {A : Type} (p : A -> bool) (l : list A) (x : A) :
  In x l -> p x = false -> forallb p l = false.
Proof.
  intros Hin Hx. apply not_true_is_false. intros Hall.
  rewrite List.forallb_forall in Hall. specialize (Hall x Hin). congruence.
Qed.

(** X14.  A schema with a field that has no id, no label, a type outside the
    ten known ones, or type [select] or [radio] without at least one option
    is rejected with 400: nothing is stored and no client is told. *)
Theorem putFormFields_rejects_invalid_field (s : Server) (formId : string)
    (fs : list Field) (adminId : string) (now : Z) (form : Form) (f : Field) :
  adminId ≠ "" ->
  dbUp (db s) = true ->
  forms (db s) !! formId = Some form ->
  form_admin_id form = adminId ->
  In f fs ->
  field_id f = "" ∨ field_label f = "" ∨ ¬ In (field_type f) validTypes
  ∨ ((field_type f = "select" ∨ field_type f = "radio")
     ∧ (field_options f = None ∨ field_options f = Some [])) ->
  putFormFields s formId (Some fs) adminId now = (s, 400, []).
Proof.
  intros Hadm Hup Hform Hown Hin Hbad.
  assert (Hf : validateField f = false).
  { unfold validateField.
    destruct (String.eqb_spec (field_id f) "") as [|Hid]; [reflexivity|].
    destruct (String.eqb_spec (field_label f) "") as [|Hlab]; [reflexivity|].
    destruct (existsb (String.eqb (field_type f)) validTypes) eqn:Hty; [|reflexivity].
    cbn [orb negb].
    destruct Hbad as [H | [H | [H | [Hsel Hopt]]]]; try congruence.
    - apply existsb_eqb_In in Hty. contradiction.
    - assert (Hs : String.eqb (field_type f) "select" || String.eqb (field_type f) "radio"
                   = true).
      { destruct Hsel as [-> | ->]; reflexivity. }
      rewrite Hs. now destruct Hopt as [-> | ->]. }
  apply (putFormFields_invalid s formId fs adminId now form); try assumption.
  now apply (forallb_false_In _ _ f).
Qed.

(** X15.  An accepted schema save (200) stores exactly the submitted fields
    and keeps the form's title, code, owner and active flag; the form's
    stored answers are the old ones restricted to the ids of the new fields
    (an answer under the key [__proto__] is never carried over), with
    contributors kept and the time stamp renewed; other forms, the registry
    and the rooms are untouched; and [formStructureUpdated] with the new
    fields goes to all members of the room. *)
Theorem putFormFields_replaces_schema (s : Server) (formId : string) (fs : list Field)
    (adminId : string) (now : Z) (form : Form) :
  adminId ≠ "" ->
  dbUp (db s) = true ->
  forms (db s) !! formId = Some form ->
  form_admin_id form = adminId ->
  forallb validateField fs = true ->
  let r := putFormFields s formId (Some fs) adminId now in
  let s' := fst (fst r) in
  snd (fst r) = 200
  ∧ snd r = [io_to (rooms s) (roomOf formId) (EvFormStructureUpdated fs)]
  ∧ forms (db s') !! formId = Some (with_fields form fs)
  ∧ (∀ formId', formId' ≠ formId →
       forms (db s') !! formId' = forms (db s) !! formId'
       ∧ form_responses (db s') !! formId' = form_responses (db s) !! formId')
  ∧ match form_responses (db s) !! formId with
    | Some resp =>
        ∃ resp', form_responses (db s') !! formId = Some resp'
                 ∧ contributors resp' = contributors resp
                 ∧ last_updated resp' = now
                 ∧ ∀ k, data resp' !! k
                        = if existsb (String.eqb k) (List.map field_id fs)
                             && negb (String.eqb k "__proto__")
                          then data resp !! k else None
    | None => form_responses (db s') !! formId = None
    end
  ∧ activeSessions s' = activeSessions s
  ∧ rooms s' = rooms s.
Proof.
  intros Hadm Hup Hform Hown Hall r s'. unfold s', r, putFormFields.
  apply String.eqb_neq in Hadm.
  rewrite Hadm, Hup, Hform, Hown, String.eqb_refl.
  change (default [] (Some fs)) with fs. cbn [negb].
  rewrite Hall. cbn [negb].
  destruct (form_responses (db s) !! formId) as [resp|] eqn:Hresp;
    cbn [fst snd with_db db forms form_responses activeSessions rooms with_fields
         form_fields].
  - split; [reflexivity|]. split; [reflexivity|].
    split; [apply lookup_insert_eq|].
    split; [intros formId' Hne; now rewrite !lookup_insert_ne|].
    split; [|now split].
    eexists. split; [apply lookup_insert_eq|]. cbn [contributors last_updated data].
    split; [reflexivity|]. split; [reflexivity|]. apply cleanData_lookup.
  - split; [reflexivity|]. split; [reflexivity|].
    split; [apply lookup_insert_eq|].
    split; [intros formId' Hne; now rewrite lookup_insert_ne|].
    split; [exact Hresp | now split].
Qed.

(** Another administrator tries to change the survey. *)
Lemma putFormFields_only_owner_witness :
  ("admin-2" = ""
   ∨ dbUp (db threeJoined) = false
   ∨ forms (db threeJoined) !! "F1" = None
   ∨ (∃ form, forms (db threeJoined) !! "F1" = Some form ∧ form_admin_id form ≠ "admin-2"))
  ∧ putFormFields threeJoined "F1" (Some emailOnly) "admin-2" 20 = (threeJoined, 403, []).
Proof.
  assert (H : "admin-2" = ""
              ∨ dbUp (db threeJoined) = false
              ∨ forms (db threeJoined) !! "F1" = None
              ∨ (∃ form, forms (db threeJoined) !! "F1" = Some form
                         ∧ form_admin_id form ≠ "admin-2")).
  { right. right. right. exists survey. split; [vm_compute; reflexivity | discriminate]. }
  destruct (putFormFields_only_owner threeJoined "F1" (Some emailOnly) "admin-2" 20 H)
    as (Hst & Hout & _).
  split; [exact H|].
  destruct (putFormFields threeJoined "F1" (Some emailOnly) "admin-2" 20)
    as [[s' code] outs] eqn:E.
  cbn [fst snd] in Hst, Hout. subst s' outs. f_equal. f_equal.
  apply (f_equal (fun x => snd (fst x))) in E. cbn [fst snd] in E. rewrite <- E.
  vm_compute. reflexivity.
Defined.

(** The owner submits a dropdown without options. *)
Lemma putFormFields_rejects_invalid_field_witness :
  "admin-1" ≠ ""
  ∧ dbUp (db threeJoined) = true
  ∧ forms (db threeJoined) !! "F1" = Some survey
  ∧ form_admin_id survey = "admin-1"
  ∧ In emptyDropdown (surveyFields ++ [emptyDropdown])%list
  ∧ (field_id emptyDropdown = "" ∨ field_label emptyDropdown = ""
     ∨ ¬ In (field_type emptyDropdown) validTypes
     ∨ ((field_type emptyDropdown = "select" ∨ field_type emptyDropdown = "radio")
        ∧ (field_options emptyDropdown = None ∨ field_options emptyDropdown = Some [])))
  ∧ putFormFields threeJoined "F1" (Some (surveyFields ++ [emptyDropdown])%list) "admin-1" 20
    = (threeJoined, 400, []).
Proof.
  assert (H1 : "admin-1" ≠ "") by discriminate.
  assert (H2 : dbUp (db threeJoined) = true) by reflexivity.
  assert (H3 : forms (db threeJoined) !! "F1" = Some survey) by (vm_compute; reflexivity).
  assert (H4 : form_admin_id survey = "admin-1") by reflexivity.
  assert (H5 : In emptyDropdown (surveyFields ++ [emptyDropdown])%list)
    by (apply List.in_or_app; right; now left).
  assert (H6 : field_id emptyDropdown = "" ∨ field_label emptyDropdown = ""
               ∨ ¬ In (field_type emptyDropdown) validTypes
               ∨ ((field_type emptyDropdown = "select" ∨ field_type emptyDropdown = "radio")
                  ∧ (field_options emptyDropdown = None
                     ∨ field_options emptyDropdown = Some [])))
    by (right; right; right; split; [now left | now right]).
  pose proof (putFormFields_rejects_invalid_field threeJoined "F1"
                (surveyFields ++ [emptyDropdown])%list "admin-1" 20 survey emptyDropdown
                H1 H2 H3 H4 H5 H6) as H7.
  exact (conj H1 (conj H2 (conj H3 (conj H4 (conj H5 (conj H6 H7)))))).
Defined.

(** The owner reduces the survey to its e-mail field after Bob has answered
    the age field: Bob's answer is dropped. *)
Lemma putFormFields_replaces_schema_witness :
  "admin-1" ≠ ""
  ∧ dbUp (db afterBobAge) = true
  ∧ forms (db afterBobAge) !! "F1" = Some survey
  ∧ form_admin_id survey = "admin-1"
  ∧ forallb validateField emailOnly = true
  ∧ (∃ resp, form_responses (db afterBobAge) !! "F1" = Some resp
             ∧ data resp !! "age" = Some "41")
  ∧ ∃ resp', form_responses
               (db (fst (fst (putFormFields afterBobAge "F1" (Some emailOnly)
                                "admin-1" 20)))) !! "F1" = Some resp'
             ∧ data resp' !! "age" = None
             ∧ contributors resp' = ["Bob"].
Proof.
  assert (H1 : "admin-1" ≠ "") by discriminate.
  assert (H2 : dbUp (db afterBobAge) = true) by reflexivity.
  assert (H3 : forms (db afterBobAge) !! "F1" = Some survey) by (vm_compute; reflexivity).
  assert (H4 : form_admin_id survey = "admin-1") by reflexivity.
  assert (H5 : forallb validateField emailOnly = true) by reflexivity.
  assert (H6 : ∃ resp, form_responses (db afterBobAge) !! "F1" = Some resp
                       ∧ data resp !! "age" = Some "41")
    by (eexists; split; vm_compute; reflexivity).
  pose proof (putFormFields_replaces_schema afterBobAge "F1" emailOnly "admin-1" 20
                survey H1 H2 H3 H4 H5) as (_ & _ & _ & _ & Hresp & _).
  destruct H6 as (resp & Hr & Hage).
  cbv zeta in Hresp. rewrite Hr in Hresp.
  destruct Hresp as (resp' & Hr' & Hcont & _ & Hdata).
  split; [exact H1|]. split; [exact H2|]. split; [exact H3|]. split; [exact H4|].
  split; [exact H5|]. split; [exists resp; now split|].
  exists resp'. split; [exact Hr'|].
  split; [rewrite Hdata; reflexivity|].
  rewrite Hcont.
  assert (Hsame : form_responses (db afterBobAge) !! "F1"
                  = Some {| data := {["age" := "41"]}; contributors := ["Bob"];
                            last_updated := 9 |}) by (vm_compute; reflexivity).
  rewrite Hsame in Hr. now injection Hr as <-.
Defined.

(** X16.  A schema save by the owner whose body has no [fields] always
    writes the empty schema and keeps the stored answers.  If the form has
    no response row the save is answered with 200 and the room is told of
    the empty schema; if it has one, the clean-up throws, the answer is 500
    and no client is told, so the schema has been emptied without notice,
    and any answer that was stored now belongs to no field. *)
Theorem putFormFields_without_fields (s : Server) (formId adminId : string) (now : Z)
    (form : Form) :
  adminId ≠ "" ->
  dbUp (db s) = true ->
  forms (db s) !! formId = Some form ->
  form_admin_id form = adminId ->
  let r := putFormFields s formId None adminId now in
  let s' := fst (fst r) in
  forms (db s') !! formId = Some (with_fields form [])
  ∧ form_responses (db s') = form_responses (db s)
  ∧ match form_responses (db s) !! formId with
    | Some resp =>
        snd (fst r) = 500 ∧ snd r = []
        ∧ (∀ k, is_Some (data resp !! k) → ¬ answers_in_schema (db s'))
    | None =>
        snd (fst r) = 200
        ∧ snd r = [io_to (rooms s) (roomOf formId) (EvFormStructureUpdated [])]
    end.
Proof.
  intros Hadm Hup Hform Hown r s'. unfold s', r, putFormFields.
  apply String.eqb_neq in Hadm.
  rewrite Hadm, Hup, Hform, Hown, String.eqb_refl. cbn [negb default forallb].
  destruct (form_responses (db s) !! formId) as [resp|] eqn:Hresp;
    cbn [fst snd with_db db forms form_responses].
  - split; [apply lookup_insert_eq|]. split; [reflexivity|].
    split; [reflexivity|]. split; [reflexivity|].
    intros k Hk Hinv.
    apply (Hinv formId (with_fields form []) resp k); cbn [forms form_responses];
      [apply lookup_insert_eq | exact Hresp | exact Hk].
  - split; [apply lookup_insert_eq|]. now repeat split.
Qed.

(** The owner sends a save without fields after Bob has answered. *)
Lemma putFormFields_without_fields_witness :
  "admin-1" ≠ ""
  ∧ dbUp (db afterBobAge) = true
  ∧ forms (db afterBobAge) !! "F1" = Some survey
  ∧ form_admin_id survey = "admin-1"
  ∧ snd (fst (putFormFields afterBobAge "F1" None "admin-1" 20)) = 500
  ∧ forms (db (fst (fst (putFormFields afterBobAge "F1" None "admin-1" 20)))) !! "F1"
    = Some (with_fields survey []).
Proof.
  assert (H1 : "admin-1" ≠ "") by discriminate.
  assert (H2 : dbUp (db afterBobAge) = true) by reflexivity.
  assert (H3 : forms (db afterBobAge) !! "F1" = Some survey) by (vm_compute; reflexivity).
  assert (H4 : form_admin_id survey = "admin-1") by reflexivity.
  destruct (putFormFields_without_fields afterBobAge "F1" "admin-1" 20 survey H1 H2 H3 H4)
    as (Hforms & _ & _).
  split; [exact H1|]. split; [exact H2|]. split; [exact H3|]. split; [exact H4|].
  split; [vm_compute; reflexivity | exact Hforms].
Defined.

(** X17.  After an accepted schema save of an active form, [updateField]
    follows the new schema at once: a field id that the new schema does not
    have is answered with the field-not-found error and stores nothing,
    while a field of the new schema is accepted and sanitized by its new
    type. *)
Theorem update_follows_new_schema `{JsRuntime} (s : Server) (formId : string)
    (fs : list Field) (adminId : string) (now : Z) (form : Form) :
  adminId ≠ "" ->
  dbUp (db s) = true ->
  forms (db s) !! formId = Some form ->
  form_admin_id form = adminId ->
  forallb validateField fs = true ->
  form_is_active form = true ->
  let s' := fst (fst (putFormFields s formId (Some fs) adminId now)) in
  ∀ sid fieldId value uid uname now',
    match List.find (fun f => String.eqb (field_id f) fieldId) fs with
    | None =>
        updateField s' sid formId fieldId value uid uname now'
        = (s', [socket_emit sid (EvError "Field not found in form definition.")])
    | Some field =>
        snd (updateField s' sid formId fieldId value uid uname now')
        = [io_to (rooms s) (roomOf formId)
             (EvFieldUpdated fieldId (field_label field)
                (sanitizeValue (field_type field) value) uname now')]
    end.
Proof.
  intros Hadm Hup Hform Hown Hall Hact s' sid fieldId value uid uname now'.
  assert (Hs' : dbUp (db s') = true
                ∧ forms (db s') !! formId = Some (with_fields form fs)
                ∧ rooms s' = rooms s).
  { unfold s', putFormFields. apply String.eqb_neq in Hadm.
    rewrite Hadm, Hup, Hform, Hown, String.eqb_refl.
    change (default [] (Some fs)) with fs. cbn [negb]. rewrite Hall. cbn [negb].
    destruct (form_responses (db s) !! formId);
      cbn [fst with_db db dbUp forms rooms];
      (split; [reflexivity|]; split; [apply lookup_insert_eq | reflexivity]). }
  destruct Hs' as (Hup' & Hform' & Hrooms').
  destruct (List.find (fun f => String.eqb (field_id f) fieldId) fs) as [field|] eqn:Hfind.
  - rewrite (updateField_accepted s' sid formId fieldId value uid uname now'
               (with_fields form fs) field) by assumption.
    cbn [snd]. now rewrite Hrooms'.
  - unfold updateField. rewrite Hup', Hform'. cbn [negb with_fields form_is_active
      form_fields]. now rewrite Hact, Hfind.
Qed.

(** The survey is reduced to its e-mail field; Bob then answers the age
    field. *)
Lemma update_follows_new_schema_witness :
  "admin-1" ≠ ""
  ∧ dbUp (db threeJoined) = true
  ∧ forms (db threeJoined) !! "F1" = Some survey
  ∧ form_admin_id survey = "admin-1"
  ∧ forallb validateField emailOnly = true
  ∧ form_is_active survey = true
  ∧ snd (updateField (H := wholeNumbers)
           (fst (fst (putFormFields threeJoined "F1" (Some emailOnly) "admin-1" 20)))
           "sB" "F1" "age" (JsString "41") "u-bob" "Bob" 21)
    = [socket_emit "sB" (EvError "Field not found in form definition.")].
Proof.
  assert (H1 : "admin-1" ≠ "") by discriminate.
  assert (H2 : dbUp (db threeJoined) = true) by reflexivity.
  assert (H3 : forms (db threeJoined) !! "F1" = Some survey) by (vm_compute; reflexivity).
  assert (H4 : form_admin_id survey = "admin-1") by reflexivity.
  assert (H5 : forallb validateField emailOnly = true) by reflexivity.
  assert (H6 : form_is_active survey = true) by reflexivity.
  pose proof (update_follows_new_schema (H := wholeNumbers) threeJoined "F1" emailOnly
                "admin-1" 20 survey H1 H2 H3 H4 H5 H6 "sB" "age" (JsString "41")
                "u-bob" "Bob" 21) as Hu.
  change (List.find (fun f => String.eqb (field_id f) "age") emailOnly) with (@None Field)
    in Hu.
  split; [exact H1|]. split; [exact H2|]. split; [exact H3|]. split; [exact H4|].
  split; [exact H5|]. split; [exact H6|].
  now rewrite Hu.
Defined.

(** ** Answers and schemas *)

Lemma joinForm_db (s : Server) (sid formId uid uname : string) (now : Z) :
  db (fst (joinForm s sid formId uid uname now)) = db s.
Proof.
  unfold joinForm. destruct (negb (dbUp (db s))); [reflexivity|].
  destruct (forms (db s) !! formId) as [form|]; [|reflexivity].
  now destruct (form_is_active form).
Qed.

Lemma updateField_answers_in_schema `{JsRuntime} (s : Server)
    (sid formId fieldId : string) (value : JsValue) (uid uname : string) (now : Z) :
  answers_in_schema (db s) ->
  answers_in_schema (db (fst (updateField s sid formId fieldId value uid uname now))).
Proof.
  intros Hinv. unfold updateField.
  destruct (negb (dbUp (db s))); [exact Hinv|].
  destruct (forms (db s) !! formId) as [form|] eqn:Hform; [|exact Hinv].
  destruct (form_is_active form); [|exact Hinv].
  destruct (List.find (fun f => String.eqb (field_id f) fieldId) (form_fields form))
    as [field|] eqn:Hfind; [|exact Hinv].
  apply List.find_some in Hfind as [Hin Hid]. apply String.eqb_eq in Hid.
  intros formId0 form0 resp0 k. cbn [fst with_db db forms form_responses].
  intros Hf0 Hr0 Hk.
  destruct (String.eqb_spec formId formId0) as [<- | Hne].
  - rewrite lookup_insert_eq in Hr0. injection Hr0 as <-.
    rewrite Hform in Hf0. injection Hf0 as <-.
    destruct (String.eqb_spec k fieldId) as [-> | Hkne].
    + apply List.in_map_iff. now exists field.
    + rewrite storeValue_answers, assignString_other in Hk by assumption.
      destruct (form_responses (db s) !! formId) as [r|] eqn:Hold;
        cbn [fmap option_fmap option_map default] in Hk.
      * exact (Hinv formId form r k Hform Hold Hk).
      * rewrite lookup_empty in Hk. now destruct Hk.
  - rewrite lookup_insert_ne in Hr0 by assumption.
    exact (Hinv formId0 form0 resp0 k Hf0 Hr0 Hk).
Qed.

(** X18.  If every stored answer belongs to a field of its form's schema,
    this still holds after any socket message, after a schema save that
    carries a field list, after a status change and after a deletion. *)
Theorem answers_stay_in_schema `{JsRuntime} (s : Server) :
  answers_in_schema (db s) ->
  (∀ sid m now, answers_in_schema (db (fst (server_on s sid m now))))
  ∧ (∀ formId fs adminId now,
       answers_in_schema (db (fst (fst (putFormFields s formId (Some fs) adminId now)))))
  ∧ (∀ formId isActive adminId,
       answers_in_schema (db (fst (fst (putFormStatus s formId isActive adminId)))))
  ∧ (∀ formId adminId, answers_in_schema (db (fst (fst (deleteForm s formId adminId))))).
Proof.
  intros Hinv. split; [|split; [|split]].
  - intros sid m now. destruct m; cbn [server_on fst]; try exact Hinv.
    + now rewrite joinForm_db.
    + now apply updateField_answers_in_schema.
  - intros formId fs adminId now. unfold putFormFields.
    destruct (String.eqb adminId ""); [exact Hinv|].
    destruct (negb (dbUp (db s))); [exact Hinv|].
    destruct (forms (db s) !! formId) as [form|] eqn:Hform; [|exact Hinv].
    destruct (negb (String.eqb (form_admin_id form) adminId)); [exact Hinv|].
    destruct (negb (forallb validateField (default [] (Some fs)))); [exact Hinv|].
    change (default [] (Some fs)) with fs.
    destruct (form_responses (db s) !! formId) as [resp|] eqn:Hresp;
      cbn [fst with_db db forms form_responses];
      intros formId0 form0 resp0 k; cbn [forms form_responses]; intros Hf0 Hr0 Hk;
      (destruct (String.eqb_spec formId formId0) as [<- | Hne];
       [| rewrite lookup_insert_ne in Hf0 by assumption;
          try rewrite lookup_insert_ne in Hr0 by assumption;
          exact (Hinv formId0 form0 resp0 k Hf0 Hr0 Hk)]).
    + rewrite lookup_insert_eq in Hf0. rewrite lookup_insert_eq in Hr0.
      injection Hf0 as <-. injection Hr0 as <-.
      cbn [data with_fields form_fields] in *. rewrite cleanData_lookup in Hk.
      destruct (existsb (String.eqb k) (List.map field_id fs)) eqn:E.
      * now apply existsb_eqb_In.
      * cbn [andb] in Hk. now destruct Hk.
    + congruence.
  - intros formId isActive adminId. unfold putFormStatus.
    destruct (String.eqb adminId ""); [exact Hinv|].
    destruct (negb (dbUp (db s))); [exact Hinv|].
    destruct (forms (db s) !! formId) as [form|] eqn:Hform; [|exact Hinv].
    destruct (negb (String.eqb (form_admin_id form) adminId)); [exact Hinv|].
    cbn [fst with_db db]. intros formId0 form0 resp0 k.
    cbn [forms form_responses]. intros Hf0 Hr0 Hk.
    destruct (String.eqb_spec formId formId0) as [<- | Hne].
    + rewrite lookup_insert_eq in Hf0. injection Hf0 as <-. cbn [with_active form_fields].
      exact (Hinv formId form resp0 k Hform Hr0 Hk).
    + rewrite lookup_insert_ne in Hf0 by assumption.
      exact (Hinv formId0 form0 resp0 k Hf0 Hr0 Hk).
  - intros formId adminId. unfold deleteForm.
    destruct (String.eqb adminId ""); [exact Hinv|].
    destruct (negb (dbUp (db s))); [exact Hinv|].
    destruct (forms (db s) !! formId) as [form|] eqn:Hform; [|exact Hinv].
    destruct (negb (String.eqb (form_admin_id form) adminId)); [exact Hinv|].
    cbn [fst db]. intros formId0 form0 resp0 k.
    cbn [forms form_responses]. intros Hf0 Hr0 Hk.
    destruct (String.eqb_spec formId formId0) as [<- | Hne].
    + rewrite lookup_delete_eq in Hf0. discriminate.
    + rewrite lookup_delete_ne in Hf0 by assumption.
      rewrite lookup_delete_ne in Hr0 by assumption.
      exact (Hinv formId0 form0 resp0 k Hf0 Hr0 Hk).
Qed.

Lemma answers_in_schema_keys (d : Database) (formId : string) (form : Form)
    (resp : FormResponse) :
  answers_in_schema d ->
  forms d !! formId = Some form ->
  form_responses d !! formId = Some resp ->
  List.length (map_to_list (data resp)) <= List.length (form_fields form).
Proof.
  intros Hinv Hform Hresp.
  rewrite <- (List.length_map fst (map_to_list (data resp))).
  rewrite <- (List.length_map field_id (form_fields form)).
  apply List.NoDup_incl_length.
  - apply NoDup_ListNoDup, NoDup_fst_map_to_list.
  - intros k [[k' v] [<- Hin]]%List.in_map_iff.
    apply list_elem_of_In, elem_of_map_to_list in Hin.
    apply (Hinv formId form resp k' Hform Hresp). now exists v.
Qed.

(** X19.  While every stored answer belongs to a field of the schema, the
    [filledFields] figure of the statistics never exceeds [totalFields]. *)
Theorem filled_never_exceeds_total (d : Database) (formId : string) (form : Form) :
  answers_in_schema d ->
  forms d !! formId = Some form ->
  filledFields (form_responses d !! formId) <= totalFields form.
Proof.
  intros Hinv Hform. unfold filledFields, totalFields.
  destruct (form_responses d !! formId) as [resp|] eqn:Hresp; [|lia].
  etransitivity; [apply List.filter_length_le|].
  now apply (answers_in_schema_keys d formId form resp).
Qed.

Lemma threeJoined_answers_in_schema : answers_in_schema (db threeJoined).
Proof.
  intros formId form resp k _ Hr _.
  change (form_responses (db threeJoined)) with (∅ : gmap string FormResponse) in Hr.
  now rewrite lookup_empty in Hr.
Qed.

(** Bob answers the age field of the survey. *)
Lemma answers_stay_in_schema_witness :
  answers_in_schema (db threeJoined)
  ∧ answers_in_schema (db afterBobAge)
  ∧ ∃ resp, form_responses (db afterBobAge) !! "F1" = Some resp
            ∧ data resp !! "age" = Some "41".
Proof.
  pose proof threeJoined_answers_in_schema as H0.
  destruct (answers_stay_in_schema (H := wholeNumbers) threeJoined H0) as (Hsock & _).
  split; [exact H0|].
  split.
  - exact (Hsock "sB" (UpdateField "F1" "age" (JsString "41") "u-bob" "Bob") 9%Z).
  - eexists. split; vm_compute; reflexivity.
Defined.

(** One of the survey's four fields is filled. *)
Lemma filled_never_exceeds_total_witness :
  answers_in_schema (db afterBobAge)
  ∧ forms (db afterBobAge) !! "F1" = Some survey
  ∧ filledFields (form_responses (db afterBobAge) !! "F1") = 1
  ∧ totalFields survey = 4
  ∧ filledFields (form_responses (db afterBobAge) !! "F1") <= totalFields survey.
Proof.
  assert (H1 : answers_in_schema (db afterBobAge))
    by (apply (updateField_answers_in_schema (H := wholeNumbers)),
          threeJoined_answers_in_schema).
  assert (H2 : forms (db afterBobAge) !! "F1" = Some survey) by (vm_compute; reflexivity).
  pose proof (filled_never_exceeds_total (db afterBobAge) "F1" survey H1 H2) as H3.
  split; [exact H1|]. split; [exact H2|].
  split; [vm_compute; reflexivity|]. split; [reflexivity | exact H3].
Defined.

(** ** Deactivating and deleting a form *)

(** X20.  A status change by the owner stores [Boolean(isActive)] and leaves
    fields, answers, registry and rooms alone.  When the form ends up
    inactive the room is sent [formDeactivated], sessions stay registered,
    and from then on every [joinForm] and every [updateField] for the form
    changes nothing and is answered with an error, while [lockField] is
    still relayed; when it ends up active nobody is told. *)
Theorem putFormStatus_gates_the_form `{JsRuntime} (s : Server) (formId : string)
    (isActive : JsValue) (adminId : string) (form : Form) :
  adminId ≠ "" ->
  dbUp (db s) = true ->
  forms (db s) !! formId = Some form ->
  form_admin_id form = adminId ->
  let r := putFormStatus s formId isActive adminId in
  let s' := fst (fst r) in
  snd (fst r) = 200
  ∧ forms (db s') !! formId = Some (with_active form (ToBoolean isActive))
  ∧ form_responses (db s') = form_responses (db s)
  ∧ activeSessions s' = activeSessions s
  ∧ rooms s' = rooms s
  ∧ (ToBoolean isActive = true → snd r = [])
  ∧ (ToBoolean isActive = false →
       snd r = [io_notify (rooms s) (roomOf formId)
                  (EvFormDeactivated "This form has been deactivated by the admin.")]
       ∧ (∀ sid uid uname now,
            joinForm s' sid formId uid uname now
            = (s', [socket_emit sid (EvError "Form not found or inactive. Cannot join.")]))
       ∧ (∀ sid fieldId value uid uname now,
            updateField s' sid formId fieldId value uid uname now
            = (s', [socket_emit sid
                      (EvError "Form not found or inactive. Cannot update.")]))
       ∧ (∀ sid fieldId uid uname,
            snd (lockField s' sid formId fieldId uid uname)
            = snd (lockField s sid formId fieldId uid uname))).
Proof.
  intros Hadm Hup Hform Hown r s'. unfold s', r, putFormStatus.
  apply String.eqb_neq in Hadm.
  rewrite Hadm, Hup, Hform, Hown, String.eqb_refl.
  cbn [negb fst snd with_db db dbUp forms form_responses activeSessions rooms
       with_active form_is_active].
  split; [reflexivity|]. split; [apply lookup_insert_eq|].
  split; [reflexivity|]. split; [reflexivity|]. split; [reflexivity|].
  split; [now intros ->|].
  intros ->. cbn [negb]. split; [reflexivity|].
  split; [|split].
  - intros sid uid uname now. unfold joinForm.
    cbn [db dbUp forms negb with_db]. rewrite lookup_insert_eq. reflexivity.
  - intros sid fieldId value uid uname now. unfold updateField.
    cbn [db dbUp forms negb with_db]. rewrite lookup_insert_eq. reflexivity.
  - reflexivity.
Qed.

(** The owner deactivates the survey, sending the text [false]: that text is
    truthy, so the form stays active; the boolean deactivates it. *)
Lemma putFormStatus_gates_the_form_witness :
  "admin-1" ≠ ""
  ∧ dbUp (db threeJoined) = true
  ∧ forms (db threeJoined) !! "F1" = Some survey
  ∧ form_admin_id survey = "admin-1"
  ∧ ToBoolean (JsString "false") = true
  ∧ snd (putFormStatus threeJoined "F1" (JsString "false") "admin-1") = []
  ∧ fst (joinForm (fst (fst (putFormStatus threeJoined "F1" (JsBoolean false) "admin-1")))
           "sD" "F1" "u-dave" "Dave" 30)
    = fst (fst (putFormStatus threeJoined "F1" (JsBoolean false) "admin-1")).
Proof.
  assert (H1 : "admin-1" ≠ "") by discriminate.
  assert (H2 : dbUp (db threeJoined) = true) by reflexivity.
  assert (H3 : forms (db threeJoined) !! "F1" = Some survey) by (vm_compute; reflexivity).
  assert (H4 : form_admin_id survey = "admin-1") by reflexivity.
  destruct (putFormStatus_gates_the_form (H := wholeNumbers) threeJoined "F1"
              (JsString "false") "admin-1" survey H1 H2 H3 H4)
    as (_ & _ & _ & _ & _ & Hon & _).
  destruct (putFormStatus_gates_the_form (H := wholeNumbers) threeJoined "F1"
              (JsBoolean false) "admin-1" survey H1 H2 H3 H4)
    as (_ & _ & _ & _ & _ & _ & Hoff).
  destruct (Hoff eq_refl) as (_ & Hjoin & _).
  split; [exact H1|]. split; [exact H2|]. split; [exact H3|]. split; [exact H4|].
  split; [reflexivity|]. split; [exact (Hon eq_refl)|].
  now rewrite Hjoin.
Defined.



(** ** The form builder *)

Lemma validateField_draft (f : DraftField) :
  validateField (draftToField f)
  = negb (String.eqb (draft_id f) "") && negb (String.eqb (draft_label f) "")
    && existsb (String.eqb (draft_type f)) validTypes
    && negb ((String.eqb (draft_type f) "select" || String.eqb (draft_type f) "radio")
             && match draft_options f with
                | None | Some [] => true
                | Some (_ :: _) => false
                end).
Proof.
  unfold validateField, draftToField. cbn [field_id field_label field_type field_options].
  destruct (String.eqb (draft_id f) ""); [reflexivity|].
  destruct (String.eqb (draft_label f) ""); [reflexivity|].
  destruct (existsb (String.eqb (draft_type f)) validTypes); [|reflexivity].
  cbn [negb orb andb].
  now destruct ((String.eqb (draft_type f) "select" || String.eqb (draft_type f) "radio")
                && match draft_options f with
                   | None | Some [] => true
                   | Some (_ :: _) => false
                   end).
Qed.

Lemma forallb_map_if {A : Type} (p : A -> bool) (c : A -> bool) (g : A -> A)
    (l : list A) :
  forallb p l = true ->
  (∀ x, In x l → p x = true → c x = true → p (g x) = true) ->
  forallb p (List.map (fun x => if c x then g x else x) l) = true.
Proof.
  intros Hall Hg. apply List.forallb_forall.
  intros y [x [<- Hin]]%List.in_map_iff.
  rewrite List.forallb_forall in Hall.
  destruct (c x) eqn:Hc; [apply Hg; auto | auto].
Qed.

(** X22.  Starting from fields the server accepts, the builder's [addField],
    its type selector (for any of the ten known types), [addFieldOption] and
    [removeField] again give fields the server accepts. *)
Theorem builder_keeps_fields_valid (fields : list DraftField) :
  forallb validateField (List.map draftToField fields) = true ->
  (∀ stamp, forallb validateField (List.map draftToField (addField stamp fields)) = true)
  ∧ (∀ fieldId type, In type validTypes →
       forallb validateField (List.map draftToField (changeFieldType fieldId type fields))
       = true)
  ∧ (∀ fieldId,
       forallb validateField (List.map draftToField (addFieldOption fieldId fields)) = true)
  ∧ (∀ fieldId,
       forallb validateField (List.map draftToField (removeField fieldId fields)) = true).
Proof.
  intros Hall.
  assert (Hall' : forallb (fun f => validateField (draftToField f)) fields = true).
  { rewrite List.forallb_forall in *. intros f Hf. apply Hall. now apply List.in_map. }
  assert (Hback : ∀ l, forallb (fun f => validateField (draftToField f)) l = true →
                       forallb validateField (List.map draftToField l) = true).
  { intros l Hl. rewrite List.forallb_forall in *.
    intros y [x [<- Hin]]%List.in_map_iff. now apply Hl. }
  split; [|split; [|split]].
  - intros stamp. apply Hback. unfold addField. rewrite List.forallb_app, Hall'.
    reflexivity.
  - intros fieldId type Hty. apply Hback. unfold changeFieldType, updateFormField.
    apply (forallb_map_if _ (fun f => String.eqb (draft_id f) fieldId)); [exact Hall'|].
    intros f _ Hf _. rewrite validateField_draft in *.
    cbn [applyPatch draft_id draft_type draft_label draft_options patch_type patch_label
         patch_options from_option id].
    apply andb_prop in Hf as [[[Hid Hlab]%andb_prop _]%andb_prop _].
    rewrite Hid, Hlab. apply existsb_eqb_In in Hty. rewrite Hty. cbn [andb].
    now destruct (String.eqb type "select" || String.eqb type "radio").
  - intros fieldId. apply Hback. unfold addFieldOption.
    apply (forallb_map_if _ (fun f => String.eqb (draft_id f) fieldId)); [exact Hall'|].
    intros f _ Hf _. rewrite validateField_draft in *.
    cbn [applyPatch draft_id draft_type draft_label draft_options patch_type patch_label
         patch_options from_option id].
    apply andb_prop in Hf as [[[Hid Hlab]%andb_prop Hty]%andb_prop _].
    rewrite Hid, Hlab, Hty. cbn [andb].
    destruct (default [] (draft_options f) ++ ["New Option"])%list eqn:E.
    + now destruct (default [] (draft_options f)).
    + now rewrite andb_false_r.
  - intros fieldId. apply Hback. unfold removeField.
    rewrite List.forallb_forall in *. intros f [Hf _]%List.filter_In. now apply Hall'.
Qed.

(** The administrator adds a field to the survey and makes it a dropdown. *)
Lemma builder_keeps_fields_valid_witness :
  let drafts :=
    [{| draft_id := "email"; draft_type := "email"; draft_label := "Email";
        draft_required := true; draft_options := Some [] |}] in
  forallb validateField (List.map draftToField drafts) = true
  ∧ forallb validateField
      (List.map draftToField
         (changeFieldType "field_1700000000000" "select"
            (addField "1700000000000" drafts))) = true
  ∧ List.map draft_options
      (changeFieldType "field_1700000000000" "select" (addField "1700000000000" drafts))
    = [Some []; Some ["Option 1"]].
Proof.
  assert (H0 : forallb validateField
                 (List.map draftToField
                    [{| draft_id := "email"; draft_type := "email"; draft_label := "Email";
                        draft_required := true; draft_options := Some [] |}]) = true)
    by reflexivity.
  destruct (builder_keeps_fields_valid _ H0) as (Hadd & _).
  destruct (builder_keeps_fields_valid _ (Hadd "1700000000000")) as (_ & Htype & _).
  split; [exact H0|].
  split; [apply Htype; simpl; tauto | reflexivity].
Defined.

Lemma editOptions_In (g : list string -> list string) (fieldId : string)
    (fields fields' : list DraftField) (f : DraftField) :
  editOptions g fieldId fields = Some fields' ->
  In f fields ->
  draft_id f = fieldId ->
  ∃ o, draft_options f = Some o
       ∧ In (applyPatch {| patch_type := None; patch_label := None;
                           patch_required := None; patch_options := Some (g o) |} f)
            fields'.
Proof.
  revert fields'. induction fields as [|x rest IH]; intros fields' He Hin Hid; [destruct Hin|].
  cbn [editOptions] in He.
  destruct (String.eqb_spec (draft_id x) fieldId) as [Hx | Hx].
  - destruct (draft_options x) as [o|] eqn:Ho; [|discriminate].
    destruct (editOptions g fieldId rest) as [rest'|]; [|discriminate].
    injection He as <-. destruct Hin as [-> | Hin].
    + exists o. split; [exact Ho | now left].
    + destruct (IH rest' eq_refl Hin Hid) as (o' & Ho' & Hin'). exists o'.
      split; [exact Ho' | now right].
  - destruct (editOptions g fieldId rest) as [rest'|]; [|discriminate].
    injection He as <-. destruct Hin as [-> | Hin]; [congruence|].
    destruct (IH rest' eq_refl Hin Hid) as (o' & Ho' & Hin'). exists o'.
    split; [exact Ho' | now right].
Qed.

(** X23.  Two edits of the builder give a schema that the server refuses:
    clearing a field's label, and removing the only option of a dropdown or
    radio field.  Saving after either is answered with 400; the stored
    schema and answers stay as they were and no client is told. *)
Theorem builder_edits_the_server_refuses (s : Server) (formId adminId : string) (now : Z)
    (form : Form) (fields : list DraftField) (f : DraftField) :
  adminId ≠ "" ->
  dbUp (db s) = true ->
  forms (db s) !! formId = Some form ->
  form_admin_id form = adminId ->
  In f fields ->
  saveFormStructure s formId
    (updateFormField (draft_id f)
       {| patch_type := None; patch_label := Some ""; patch_required := None;
          patch_options := None |} fields) adminId now
  = (s, 400, [])
  ∧ ((draft_type f = "select" ∨ draft_type f = "radio") →
     (∃ o, draft_options f = Some [o]) →
     ∀ fields', removeFieldOption (draft_id f) 0 fields = Some fields' →
                saveFormStructure s formId fields' adminId now = (s, 400, [])).
Proof.
  intros Hadm Hup Hform Hown Hin. unfold saveFormStructure. split.
  - apply (putFormFields_invalid s formId _ adminId now form); try assumption.
    apply (forallb_false_In _ _
             (draftToField
                (applyPatch {| patch_type := None; patch_label := Some "";
                               patch_required := None; patch_options := None |} f))).
    + apply List.in_map. unfold updateFormField. apply List.in_map_iff.
      exists f. split; [|exact Hin]. now rewrite String.eqb_refl.
    + rewrite validateField_draft.
      cbn [applyPatch draft_label patch_label from_option id].
      now rewrite andb_false_r.
  - intros Hty [o Ho] fields' He.
    apply (putFormFields_invalid s formId _ adminId now form); try assumption.
    destruct (editOptions_In _ _ _ _ f He Hin eq_refl) as (o' & Ho' & Hin').
    rewrite Ho in Ho'. injection Ho' as <-. cbn [dropIndex] in Hin'.
    apply (forallb_false_In _ _ _ (List.in_map draftToField _ _ Hin')).
    rewrite validateField_draft.
    cbn [applyPatch draft_type draft_options patch_type patch_options from_option id].
    assert (Hs : String.eqb (draft_type f) "select" || String.eqb (draft_type f) "radio"
                 = true).
    { destruct Hty as [-> | ->]; reflexivity. }
    rewrite Hs. now rewrite andb_false_r.
Qed.

(** The only option of a dropdown is removed before saving. *)
Lemma builder_edits_the_server_refuses_witness :
  let colour :=
    {| draft_id := "colour"; draft_type := "select"; draft_label := "Colour";
       draft_required := false; draft_options := Some ["Red"] |} in
  "admin-1" ≠ ""
  ∧ dbUp (db threeJoined) = true
  ∧ forms (db threeJoined) !! "F1" = Some survey
  ∧ form_admin_id survey = "admin-1"
  ∧ In colour [colour]
  ∧ forallb validateField (List.map draftToField [colour]) = true
  ∧ ∃ fields', removeFieldOption "colour" 0 [colour] = Some fields'
               ∧ saveFormStructure threeJoined "F1" fields' "admin-1" 20
                 = (threeJoined, 400, []).
Proof.
  assert (H1 : "admin-1" ≠ "") by discriminate.
  assert (H2 : dbUp (db threeJoined) = true) by reflexivity.
  assert (H3 : forms (db threeJoined) !! "F1" = Some survey) by (vm_compute; reflexivity).
  assert (H4 : form_admin_id survey = "admin-1") by reflexivity.
  pose (colour := {| draft_id := "colour"; draft_type := "select";
                     draft_label := "Colour"; draft_required := false;
                     draft_options := Some ["Red"] |}).
  assert (H5 : In colour [colour]) by now left.
  destruct (builder_edits_the_server_refuses threeJoined "F1" "admin-1" 20 survey
              [colour] colour H1 H2 H3 H4 H5) as (_ & Hopt).
  split; [exact H1|]. split; [exact H2|]. split; [exact H3|]. split; [exact H4|].
  split; [exact H5|]. split; [reflexivity|].
  eexists. split; [reflexivity|].
  apply Hopt; [now left | now exists "Red" | reflexivity].
Defined.

Lemma applyPatch_same_options (f : DraftField) (o : list string) :
  draft_options f = Some o ->
  applyPatch {| patch_type := None; patch_label := None; patch_required := None;
                patch_options := Some o |} f = f.
Proof. destruct f as [i t l r o']. cbn. now intros ->. Qed.

Lemma dropIndex_app_last (o : list string) (x : string) :
  dropIndex (List.length o) (o ++ [x]) = o.
Proof. induction o as [|y r IH]; cbn; [reflexivity | now rewrite IH]. Qed.

Lemma dropIndex_beyond (i : nat) (o : list string) :
  List.length o <= i -> dropIndex i o = o.
Proof.
  revert i. induction o as [|y r IH]; intros i Hi; [now destruct i|].
  destruct i as [|j]; cbn in *; [lia|]. f_equal. apply IH. lia.
Qed.

Lemma editOptions_fixed (g : list string -> list string) (fieldId : string)
    (fields : list DraftField) :
  (∀ f, In f fields → draft_id f = fieldId →
        ∃ o, draft_options f = Some o ∧ g o = o) ->
  editOptions g fieldId fields = Some fields.
Proof.
  induction fields as [|x rest IH]; intros Hall; [reflexivity|].
  cbn [editOptions]. rewrite IH by (intros f Hf; apply Hall; now right).
  destruct (String.eqb_spec (draft_id x) fieldId) as [Hx | Hx]; [|reflexivity].
  destruct (Hall x (or_introl eq_refl) Hx) as (o & Ho & Hg).
  rewrite Ho, Hg. now rewrite applyPatch_same_options.
Qed.

(** X24.  Editing options by index.  An index at or beyond the end of the
    option list changes nothing, for [updateFieldOption] and for
    [removeFieldOption]; [addFieldOption] followed by [removeFieldOption] at
    the index of the new option gives back the fields as they were; and an
    edit succeeds exactly when every field with the given id has an option
    list, keeping ids and order of all fields. *)
Theorem option_edits_by_index (fieldId : string) (fields : list DraftField) :
  (∀ i v, (∀ f, In f fields → draft_id f = fieldId →
                ∃ o, draft_options f = Some o ∧ List.length o <= i) →
          updateFieldOption fieldId i v fields = Some fields
          ∧ removeFieldOption fieldId i fields = Some fields)
  ∧ (∀ n, (∀ f, In f fields → draft_id f = fieldId →
                ∃ o, draft_options f = Some o ∧ List.length o = n) →
          removeFieldOption fieldId n (addFieldOption fieldId fields) = Some fields)
  ∧ (∀ g fields', editOptions g fieldId fields = Some fields' →
                  List.map draft_id fields' = List.map draft_id fields)
  ∧ (∀ g, is_Some (editOptions g fieldId fields)
          ↔ ∀ f, In f fields → draft_id f = fieldId → is_Some (draft_options f)).
Proof.
  split; [|split; [|split]].
  - intros i v Hall. split; apply editOptions_fixed; intros f Hf Hid;
      destruct (Hall f Hf Hid) as (o & Ho & Hlen); exists o; (split; [exact Ho|]).
    + now apply list_insert_ge.
    + now apply dropIndex_beyond.
  - intros n. unfold removeFieldOption, addFieldOption.
    induction fields as [|x rest IH]; intros Hall; [reflexivity|].
    cbn [List.map editOptions].
    rewrite IH by (intros f Hf; apply Hall; now right).
    destruct (String.eqb_spec (draft_id x) fieldId) as [Hx | Hx].
    + destruct (Hall x (or_introl eq_refl) Hx) as (o & Ho & Hlen).
      cbn [applyPatch draft_id draft_options patch_options].
      rewrite Hx, String.eqb_refl, Ho. cbn [from_option id]. subst n.
      rewrite dropIndex_app_last. f_equal. f_equal.
      destruct x as [i t l r o']. cbn in *. now subst.
    + apply String.eqb_neq in Hx. now rewrite Hx.
  - intros g. induction fields as [|x rest IH]; intros fields' He.
    + now injection He as <-.
    + cbn [editOptions] in He.
      destruct (String.eqb (draft_id x) fieldId).
      * destruct (draft_options x); [|discriminate].
        destruct (editOptions g fieldId rest) as [rest'|]; [|discriminate].
        injection He as <-. cbn. f_equal. now apply IH.
      * destruct (editOptions g fieldId rest) as [rest'|]; [|discriminate].
        injection He as <-. cbn. f_equal. now apply IH.
  - intros g. induction fields as [|x rest IH].
    + split; [intros _ f [] | intros _; now eexists].
    + cbn [editOptions]. split.
      * intros Hs f [<- | Hf] Hid.
        -- apply String.eqb_eq in Hid. rewrite Hid in Hs.
           destruct (draft_options x); [now eexists | now destruct Hs].
        -- apply IH; [|exact Hf|exact Hid].
           destruct (editOptions g fieldId rest) as [rest'|]; [now eexists|].
           exfalso. destruct (String.eqb (draft_id x) fieldId);
             [destruct (draft_options x)|]; destruct Hs as [? Hs]; discriminate.
      * intros Hall.
        assert (Hrest : is_Some (editOptions g fieldId rest))
          by (apply IH; intros f Hf; apply Hall; now right).
        destruct Hrest as [rest' ->].
        destruct (String.eqb_spec (draft_id x) fieldId) as [Hx | Hx]; [|now eexists].
        destruct (Hall x (or_introl eq_refl) Hx) as [o ->]. now eexists.
Qed.

(** X25.  [removeField] removes every field with the given id and no other;
    [updateFormField] changes every field with the given id and keeps all
    ids in place.  Ids come from the clock, so two fields added within the
    same millisecond share an id: removing it removes both. *)
Theorem builder_edits_act_on_every_match (fieldId : string) (fields : list DraftField) :
  (∀ f, In f (removeField fieldId fields) ↔ In f fields ∧ draft_id f ≠ fieldId)
  ∧ (∀ u, List.map draft_id (updateFormField fieldId u fields) = List.map draft_id fields)
  ∧ (∀ u f, In f fields → draft_id f = fieldId →
            In (applyPatch u f) (updateFormField fieldId u fields))
  ∧ (∀ stamp, removeField ("field_" +:+ stamp) (addField stamp (addField stamp fields))
              = removeField ("field_" +:+ stamp) fields).
Proof.
  split; [|split; [|split]].
  - intros f. unfold removeField.
    now rewrite List.filter_In, negb_true_iff, String.eqb_neq.
  - intros u. unfold updateFormField. rewrite List.map_map. apply List.map_ext.
    intros f. now destruct (String.eqb (draft_id f) fieldId).
  - intros u f Hin Hid. unfold updateFormField. apply List.in_map_iff.
    exists f. split; [|exact Hin]. apply String.eqb_eq in Hid. now rewrite Hid.
  - intros stamp. unfold removeField, addField.
    rewrite !List.filter_app. cbn [List.filter draft_id].
    rewrite String.eqb_refl. cbn [negb]. now rewrite !List.app_nil_r.
Qed.

(** ** Counting sessions *)

Lemma fold_sessions_shift (act : list (string * list (string * Session))) (n : nat) :
  List.fold_left (fun sum e => sum + List.length (snd e)) act n
  = n + List.fold_left (fun sum e => sum + List.length (snd e)) act 0.
Proof.
  revert n. induction act as [|e rest IH]; intros n; cbn [List.fold_left]; [lia|].
  rewrite (IH (n + _)), (IH (0 + _)). lia.
Qed.

Lemma total_cons (e : string * list (string * Session))
    (act : list (string * list (string * Session))) (d : Database)
    (rs : gmap string (gset string)) :
  totalActiveSessions {| db := d; activeSessions := e :: act; rooms := rs |}
  = List.length (snd e)
    + totalActiveSessions {| db := d; activeSessions := act; rooms := rs |}.
Proof.
  unfold totalActiveSessions. cbn [activeSessions List.fold_left].
  now rewrite fold_sessions_shift.
Qed.

Lemma total_set (formId : string) (m : list (string * Session))
    (act : list (string * list (string * Session))) (d : Database)
    (rs : gmap string (gset string)) :
  totalActiveSessions {| db := d; activeSessions := JsMap.set formId m act; rooms := rs |}
  + List.length (sessionsOf formId act)
  = totalActiveSessions {| db := d; activeSessions := act; rooms := rs |} + List.length m.
Proof.
  unfold sessionsOf.
  induction act as [|[k m0] rest IH]; cbn [JsMap.set JsMap.get].
  - rewrite total_cons. cbn. lia.
  - destruct (String.eqb k formId).
    + rewrite !total_cons. cbn. lia.
    + rewrite !total_cons. cbn [snd]. lia.
Qed.

Lemma length_set (sid : string) (v : Session) (m : list (string * Session)) :
  List.length (JsMap.set sid v m)
  = if JsMap.has sid m then List.length m else S (List.length m).
Proof.
  rewrite <- (List.length_map fst (JsMap.set sid v m)).
  change (List.map fst (JsMap.set sid v m)) with (JsMap.keys (JsMap.set sid v m)).
  rewrite keys_set. destruct (JsMap.has sid m); unfold JsMap.keys.
  - apply List.length_map.
  - rewrite List.length_app, List.length_map. cbn. lia.
Qed.

Lemma length_delete (sid : string) (m : list (string * Session)) :
  List.NoDup (JsMap.keys m) ->
  List.length (JsMap.delete sid m) + (if JsMap.has sid m then 1 else 0) = List.length m.
Proof.
  unfold JsMap.has.
  induction m as [|[k v] rest IH]; intros Hnd; [reflexivity|].
  apply List.NoDup_cons_iff in Hnd as [Hk Hnd]. cbn [JsMap.delete List.filter fst JsMap.get].
  destruct (String.eqb_spec k sid) as [-> | Hne]; cbn [negb].
  - fold (JsMap.delete sid rest). rewrite delete_absent by exact Hk. cbn. lia.
  - cbn [List.length]. fold (JsMap.delete sid rest). specialize (IH Hnd).
    destruct (JsMap.get sid rest); lia.
Qed.

Lemma total_after_disconnect (sid : string)
    (act : list (string * list (string * Session))) (d : Database)
    (rs rs' : gmap string (gset string)) :
  List.Forall (fun e => sessions_ok (snd e)) act ->
  totalActiveSessions
    {| db := d;
       activeSessions := List.map (fun e => (fst e, JsMap.delete sid (snd e))) act;
       rooms := rs' |}
  + List.length (departures sid act)
  = totalActiveSessions {| db := d; activeSessions := act; rooms := rs |}.
Proof.
  induction act as [|[k m] rest IH]; intros Hall; [reflexivity|].
  apply List.Forall_cons_iff in Hall as [[Hnd _] Hall]. specialize (IH Hall).
  cbn [List.map fst snd]. rewrite !total_cons. cbn [snd] in *.
  unfold departures in *. cbn [List.flat_map snd fst]. rewrite List.length_app.
  pose proof (length_delete sid m Hnd) as Hlen. unfold JsMap.has in Hlen.
  destruct (JsMap.get sid m); cbn [List.length] in *; lia.
Qed.

(** X26.  The [totalActiveSessions] figure of the health check counts
    sessions, one per socket and room.  An accepted [joinForm] raises it by
    one when the socket was not registered in that room and leaves it as it
    is on a second join; a rejected one leaves it as it is; a disconnect
    lowers it by the number of rooms the socket was registered in. *)
Theorem totalActiveSessions_counts (s : Server) (sid : string) :
  registry_ok s ->
  (∀ formId uid uname now,
     let s' := fst (joinForm s sid formId uid uname now) in
     totalActiveSessions s' = totalActiveSessions s
     ∨ (totalActiveSessions s' = S (totalActiveSessions s)
        ∧ ¬ In sid (registered formId s) ∧ In sid (registered formId s')))
  ∧ (∀ formId uid uname now, In sid (registered formId s) →
       totalActiveSessions (fst (joinForm s sid formId uid uname now))
       = totalActiveSessions s)
  ∧ totalActiveSessions (fst (disconnect s sid))
    + List.length (departures sid (activeSessions s))
    = totalActiveSessions s.
Proof.
  intros Hok.
  assert (Hjoin : ∀ formId uid uname now,
            (fst (joinForm s sid formId uid uname now) = s)
            ∨ (totalActiveSessions (fst (joinForm s sid formId uid uname now))
               + List.length (sessionsOf formId (activeSessions s))
               = totalActiveSessions s
                 + (if JsMap.has sid (sessionsOf formId (activeSessions s))
                    then List.length (sessionsOf formId (activeSessions s))
                    else S (List.length (sessionsOf formId (activeSessions s))))
               ∧ In sid (registered formId (fst (joinForm s sid formId uid uname now))))).
  { intros formId uid uname now. unfold joinForm.
    destruct (negb (dbUp (db s))); [now left|].
    destruct (forms (db s) !! formId) as [form|]; [|now left].
    destruct (form_is_active form); [|now left].
    right. cbn [fst]. split.
    - rewrite total_set, length_set.
      destruct s as [d act rs]. reflexivity.
    - unfold registered. cbn [activeSessions]. rewrite sessionsOf_set.
      apply In_keys_set. now left. }
  split; [|split].
  - intros formId uid uname now s'. subst s'.
    destruct (Hjoin formId uid uname now) as [-> | [Hc Hin]]; [now left|].
    unfold JsMap.has in Hc.
    destruct (JsMap.get sid (sessionsOf formId (activeSessions s))) eqn:E.
    + left. lia.
    + right. split; [lia|]. split; [|exact Hin].
      now apply get_None_keys.
  - intros formId uid uname now Hreg.
    destruct (Hjoin formId uid uname now) as [-> | [Hc _]]; [reflexivity|].
    unfold JsMap.has in Hc.
    destruct (JsMap.get sid (sessionsOf formId (activeSessions s))) eqn:E; [lia|].
    apply get_None_keys in E. now destruct E.
  - destruct Hok as [_ Hall]. destruct s as [d act rs].
    cbn [disconnect fst disconnectSync db activeSessions rooms].
    now apply total_after_disconnect.
Qed.

(** Dave joins the survey, joins it again, and disconnects. *)
Lemma totalActiveSessions_counts_witness :
  registry_ok threeJoined
  ∧ totalActiveSessions threeJoined = 3
  ∧ totalActiveSessions (fst (joinForm threeJoined "sD" "F1" "u-dave" "Dave" 5)) = 4
  ∧ totalActiveSessions (fst (joinForm threeJoined "sA" "F1" "u-alice" "Alice" 5)) = 3
  ∧ totalActiveSessions (fst (disconnect threeJoined "sA"))
    + List.length (departures "sA" (activeSessions threeJoined))
    = totalActiveSessions threeJoined.
Proof.
  assert (Hok : registry_ok threeJoined) by closed_registry.
  destruct (totalActiveSessions_counts threeJoined "sA" Hok) as (_ & _ & Hdis).
  split; [exact Hok|]. split; [reflexivity|]. split; [reflexivity|].
  split; [reflexivity | exact Hdis].
Defined.
